(** * Inquiry-resolution pipeline of the infrastructure ticketing bot

    A shallow embedding of the decision core of the repository:

    - [src/utils/cache.py]            (class [RedisCache])
    - [src/db/vector_store.py]        (class [VectorStore], method [search])
    - [src/agents/knowledge_agent.py] (class [KnowledgeAgent])
    - [src/agents/router_agent.py]    (class [RouterAgent])
    - [src/agents/supervisor.py]      (class [SupervisorAgent])

    Modelling choices.

    - Python [str] is [string], a character being a code point below 256;
      [lower], [strip], [split], [replace], [in] and slicing are written
      out below.
    - Distances are Python floats.  The code only ever compares a distance
      with the literals 0.3, 0.4 and 0.6; the search contract gives finite,
      non-negative distances, on which the float order is the order of the
      rationals, so a distance is a [Q] and the literals are 3/10, 4/10 and
      6/10.
    - A Python dict whose keys may be absent (the classification, the
      pipeline result) is a record of [option] fields: [None] is "key
      absent".  A field that holds Python's [None] is an [option] inside.
    - External collaborators (the three model chains, the embedding model,
      the Chroma collection, the Redis client) are oracles of a [World];
      each may answer or raise.  Every call to one of them is appended to a
      log, and the Redis contents are an explicit store, so that "is called
      before", "is not called" and "is cached with this TTL" are statements
      about the final state.
    - The tags of a knowledge entry are stored as JSON text and decoded by
      [json.loads]; nothing checks what they decode to, so a tags value is
      any JSON value ([Json]), and [', '.join(tags)] raises on the values
      Python's [str.join] rejects.
    - Python exceptions are the [Raise] outcome of the monad [M]; a
      [try ... except Exception] block is [try_except], which keeps the
      state reached when the exception was raised.  The [print] of an
      [except] block writes to the console only and is left out. *)

From Stdlib Require Import QArith Ascii String DecimalString Sorted.
From stdpp Require Import gmap strings list fin_maps.

Local Open Scope string_scope.
Local Open Scope list_scope.

(** ** Python strings *)

Module Py.

Definition nl : string := String (ascii_of_nat 10) EmptyString.

(** [str.lower] on one character: the capital letters among the code
    points below 256 are A-Z and 192-222 without the sign 215. *)
Definition lower_char (c : ascii) : ascii :=
  let n := nat_of_ascii c in
  if (65 <=? n)%nat && (n <=? 90)%nat then ascii_of_nat (n + 32)
  else if (192 <=? n)%nat && (n <=? 222)%nat && negb (n =? 215)%nat
       then ascii_of_nat (n + 32)
  else c.

Fixpoint lower (s : string) : string :=
  match s with
  | EmptyString => EmptyString
  | String c t => String (lower_char c) (lower t)
  end.

(** [p] is a prefix of [s] ([s.startswith(p)]). *)
Fixpoint startswith (p s : string) : bool :=
  match p, s with
  | EmptyString, _ => true
  | String _ _, EmptyString => false
  | String a p', String b s' => if Ascii.eqb a b then startswith p' s' else false
  end.

(** [sub in s]: [sub] occurs in [s] as a literal substring. *)
Fixpoint contains (sub s : string) : bool :=
  startswith sub s ||
  match s with
  | EmptyString => false
  | String _ t => contains sub t
  end.

(** [s.replace(a, b)] for one-character [a] and [b]. *)
Fixpoint replace_char (a b : ascii) (s : string) : string :=
  match s with
  | EmptyString => EmptyString
  | String c t => String (if Ascii.eqb c a then b else c) (replace_char a b t)
  end.

(** Characters removed by [str.strip()] with no argument. *)
Definition is_whitespace (c : ascii) : bool :=
  let n := nat_of_ascii c in
  ((9 <=? n)%nat && (n <=? 13)%nat) || ((28 <=? n)%nat && (n <=? 32)%nat) ||
  (n =? 133)%nat || (n =? 160)%nat.

Fixpoint lstrip (s : string) : string :=
  match s with
  | EmptyString => EmptyString
  | String c t => if is_whitespace c then lstrip t else s
  end.

Fixpoint rstrip (s : string) : string :=
  match s with
  | EmptyString => EmptyString
  | String c t =>
      match rstrip t with
      | EmptyString => if is_whitespace c then EmptyString else String c EmptyString
      | t' => String c t'
      end
  end.

Definition strip (s : string) : string := rstrip (lstrip s).

(** [s.split(sep)] for a one-character separator: never the empty list. *)
Fixpoint split (sep : ascii) (s : string) : list string :=
  match s with
  | EmptyString => [EmptyString]
  | String c t =>
      if Ascii.eqb c sep then EmptyString :: split sep t
      else match split sep t with
           | h :: r => String c h :: r
           | [] => [String c EmptyString]
           end
  end.

(** [s.split(sep, 1)] on a string that contains [sep]: the text before the
    first separator and the text after it.  [None] when [sep] is absent. *)
Fixpoint split_once (sep : ascii) (s : string) : option (string * string) :=
  match s with
  | EmptyString => None
  | String c t =>
      if Ascii.eqb c sep then Some (EmptyString, t)
      else match split_once sep t with
           | Some (k, v) => Some (String c k, v)
           | None => None
           end
  end.

(** [s[:n]]. *)
Fixpoint take (n : nat) (s : string) : string :=
  match n, s with
  | O, _ => EmptyString
  | S _, EmptyString => EmptyString
  | S n', String c t => String c (take n' t)
  end.

(** [sep.join(parts)]. *)
Fixpoint join (sep : string) (parts : list string) : string :=
  match parts with
  | [] => EmptyString
  | [p] => p
  | p :: rest => p +:+ sep +:+ join sep rest
  end.

(** [str(n)] for a non-negative integer. *)
Definition str_of_nat (n : nat) : string := NilEmpty.string_of_uint (Nat.to_uint n).

(** [x or default] on a string: the empty string is falsy. *)
Definition or_str (x d : string) : string :=
  match x with
  | EmptyString => d
  | _ => x
  end.

(** [x or default] on an optional string: [None] is falsy too. *)
Definition or_opt (x : option string) (d : string) : string :=
  match x with
  | Some s => or_str s d
  | None => d
  end.

(** Truth value of a string and of a list. *)
Definition truthy_str (s : string) : bool :=
  match s with
  | EmptyString => false
  | _ => true
  end.

Definition truthy_list {A : Type} (l : list A) : bool :=
  match l with
  | [] => false
  | _ => true
  end.

(** [max(xs)] on a non-empty sequence of naturals, head given apart. *)
Definition max_of (x : nat) (xs : list nat) : nat := fold_left Nat.max xs x.

(** [max(xs, key=f)]: the running best is replaced only by a strictly
    larger key, so the first of several maximal items is returned. *)
Fixpoint max_by {A : Type} (f : A -> nat) (best : A) (xs : list A) : A :=
  match xs with
  | [] => best
  | y :: ys => max_by f (if (f best <? f y)%nat then y else best) ys
  end.

End Py.

(** ** Exceptions, state and the call log *)

Inductive Exn : Type := Exception (msg : string).

Inductive Result (A : Type) : Type :=
| Ok (a : A)
| Raise (e : Exn).
Arguments Ok {A} a.
Arguments Raise {A} e.

(** Sequencing in [Result] alone, for code that touches no collaborator. *)
Definition rbind {A B : Type} (r : Result A) (f : A -> Result B) : Result B :=
  match r with
  | Ok a => f a
  | Raise e => Raise e
  end.

(** ** JSON values *)

(** A value as [json.loads] returns it: [None], a bool, an int, a float, a
    str, a list, or a dict, whose items stand in insertion order. *)
Local Unset Elimination Schemes.

Inductive Json : Type :=
| JNull
| JBool (b : bool)
| JInt (n : Z)
| JFloat (x : Q)
| JString (s : string)
| JArray (items : list Json)
| JObject (members : list (string * Json)).

Local Set Elimination Schemes.

Module PyJson.

(** [type(v).__name__]. *)
Definition type_name (v : Json) : string :=
  match v with
  | JNull => "NoneType"
  | JBool _ => "bool"
  | JInt _ => "int"
  | JFloat _ => "float"
  | JString _ => "str"
  | JArray _ => "list"
  | JObject _ => "dict"
  end.

(** The items [str.join] is given by a list, from index [i] on: the first
    item that is not a str raises [TypeError]. *)
Fixpoint join_items (i : nat) (items : list Json) : Result (list string) :=
  match items with
  | [] => Ok []
  | JString s :: rest => rbind (join_items (S i) rest) (fun strs => Ok (s :: strs))
  | v :: _ =>
      Raise (Exception ("TypeError: sequence item " +:+ Py.str_of_nat i +:+
                        ": expected str instance, " +:+ type_name v +:+ " found"))
  end.

(** The characters of a str, each as a str of length one. *)
Fixpoint chars (s : string) : list string :=
  match s with
  | EmptyString => []
  | String c t => String c EmptyString :: chars t
  end.

(** [sep.join(iterable)]: a list gives its items, a str its characters, a
    dict its keys; any other value is not iterable. *)
Definition join (sep : string) (iterable : Json) : Result string :=
  match iterable with
  | JArray items => rbind (join_items 0 items) (fun strs => Ok (Py.join sep strs))
  | JString s => Ok (Py.join sep (chars s))
  | JObject members => Ok (Py.join sep (map fst members))
  | _ => Raise (Exception "TypeError: can only join an iterable")
  end.

End PyJson.

(** ** Data model *)

(** One formatted search result, the dict built by [VectorStore.search];
    the field after the prefix [km_] is the dict key.  The tags are what
    [json.loads] made of the stored text, whatever it is. *)
Record KnowledgeMatch : Type := {
  km_question : string;
  km_answer : string;
  km_team : string;
  km_tags : Json;
  km_entry_id : string;
  km_score : Q;
  km_relevance : string
}.

(** The metadata dict of a stored document; [None] is an absent key.  The
    value under ["tags"] is kept as what [json.loads] makes of it: a JSON
    value of any kind, or an exception when it does not decode. *)
Record Metadata : Type := {
  md_question : option string;
  md_answer : option string;
  md_team : option string;
  md_tags : option (Result Json);
  md_entry_id : option string
}.

(** The answer of [collection.query]: one inner list per query embedding. *)
Record QueryResult : Type := {
  qr_ids : list (list string);
  qr_metadatas : list (list Metadata);
  qr_distances : list (list Q)
}.

(** Calls that leave the process. *)
Inductive Call : Type :=
| RedisGet (key : string)
| RedisSetex (key : string) (ttl : Z) (value : list KnowledgeMatch)
| EmbedQuery (query : string)
| CollectionQuery (embedding : list Q) (n_results : nat)
| ClassifierInvoke (question : string)
| KnowledgeInvoke (question search_results : string)
| RouterInvoke (question category : string).

(** The collaborators.  A model chain, the embedding model and the
    collection answer or raise; the Redis client raises when the oracle
    names an exception for the key. *)
Record World : Type := {
  utcnow_isoformat : string;
  redis_get_raises : string -> option Exn;
  redis_setex_raises : string -> option Exn;
  embed_query : string -> Result (list Q);
  collection_query : list Q -> nat -> Result (option QueryResult);
  classifier_chain : string -> Result string;
  knowledge_chain : string -> string -> Result string;
  router_chain : string -> string -> Result string
}.

(** What a run can change: the Redis contents, each key with its TTL in
    seconds and the value whose JSON text is stored, and the call log,
    oldest call first. *)
Record Env : Type := {
  redis : gmap string (Z * list KnowledgeMatch);
  calls : list Call
}.

Definition log (c : Call) (s : Env) : Env :=
  {| redis := redis s; calls := calls s ++ [c] |}.

Definition M (A : Type) : Type := Env -> Result A * Env.

Definition ret {A : Type} (a : A) : M A := fun s => (Ok a, s).

Definition bind {A B : Type} (m : M A) (f : A -> M B) : M B :=
  fun s =>
    match m s with
    | (Ok a, s') => f a s'
    | (Raise e, s') => (Raise e, s')
    end.

Definition lift {A : Type} (r : Result A) : M A := fun s => (r, s).

(** [try: body except Exception as e: handler(e)]. *)
Definition try_except {A : Type} (body : M A) (handler : Exn -> M A) : M A :=
  fun s =>
    match body s with
    | (Ok a, s') => (Ok a, s')
    | (Raise e, s') => handler e s'
    end.

(** A logged call to a collaborator with outcome [r]. *)
Definition call {A : Type} (c : Call) (r : Result A) : M A :=
  fun s => (r, log c s).

Notation "x <- m ;; k" := (bind m (fun x => k))
  (at level 100, m at next level, right associativity).

(** [xs[i]], raising [IndexError] out of range. *)
Definition index {A : Type} (xs : list A) (i : nat) : Result A :=
  match xs !! i with
  | Some x => Ok x
  | None => Raise (Exception "IndexError: list index out of range")
  end.

(** ** [src/utils/cache.py] *)

Module RedisCache.

(** [self.client.get(key)]. *)
Definition client_get (w : World) (key : string) : M (option (list KnowledgeMatch)) :=
  fun s =>
    match redis_get_raises w key with
    | Some e => (Raise e, log (RedisGet key) s)
    | None => (Ok (snd <$> redis s !! key), log (RedisGet key) s)
    end.

(** [self.client.setex(key, ttl, serialized)]. *)
Definition client_setex (w : World) (key : string) (ttl : Z)
    (value : list KnowledgeMatch) : M bool :=
  fun s =>
    match redis_setex_raises w key with
    | Some e => (Raise e, log (RedisSetex key ttl value) s)
    | None =>
        (Ok true,
         {| redis := <[key := (ttl, value)]> (redis s);
            calls := calls s ++ [RedisSetex key ttl value] |})
    end.

(** [RedisCache.get]: the stored JSON text is never the empty string, so
    [if value:] is true exactly when the key is present. *)
Definition get (w : World) (key : string) : M (option (list KnowledgeMatch)) :=
  try_except
    (value <- client_get w key ;;
     match value with
     | Some v => ret (Some v)
     | None => ret None
     end)
    (fun _ => ret None).

(** [RedisCache.set]. *)
Definition set (w : World) (key : string) (value : list KnowledgeMatch) (ttl : Z) : M bool :=
  try_except (client_setex w key ttl value) (fun _ => ret false).

End RedisCache.

(** ** [src/db/vector_store.py] *)

Module VectorStore.

(** The relevance tier of a distance (the [if]/[elif]/[else] of [search]). *)
Definition relevance_of (distance : Q) : string :=
  if Qlt_le_dec distance (3 # 10) then "high"
  else if Qlt_le_dec distance (6 # 10) then "medium"
  else "low".

(** [d.get(key, default)]. *)
Definition get_default {A : Type} (x : option A) (d : A) : A :=
  match x with
  | Some a => a
  | None => d
  end.

(** The body of the [for i in range(...)] loop: one formatted result. *)
Definition format_result (results : QueryResult) (i : nat) : Result KnowledgeMatch :=
  rbind (index (qr_metadatas results) 0) (fun mds =>
  rbind (index mds i) (fun metadata =>
  rbind (index (qr_distances results) 0) (fun ds =>
  rbind (index ds i) (fun distance =>
  let relevance := relevance_of distance in
  rbind (get_default (md_tags metadata) (Ok (JArray []))) (fun tags =>
  Ok {| km_question := get_default (md_question metadata) "";
        km_answer := get_default (md_answer metadata) "";
        km_team := get_default (md_team metadata) "";
        km_tags := tags;
        km_entry_id := get_default (md_entry_id metadata) "";
        km_score := distance;
        km_relevance := relevance |}))))).

(** The loop: an exception at any index abandons the whole list. *)
Fixpoint format_loop (results : QueryResult) (indices : list nat) : Result (list KnowledgeMatch) :=
  match indices with
  | [] => Ok []
  | i :: rest =>
      rbind (format_result results i) (fun r =>
      rbind (format_loop results rest) (fun rs => Ok (r :: rs)))
  end.

Definition format_results (results : option QueryResult) : Result (list KnowledgeMatch) :=
  match results with
  | None => Ok []
  | Some res =>
      match qr_ids res with
      | [] => Ok []
      | ids0 :: _ => format_loop res (seq 0 (length ids0))
      end
  end.

(** [VectorStore.search]. *)
Definition search (w : World) (query : string) (k : nat) : M (list KnowledgeMatch) :=
  try_except
    (query_embedding <- call (EmbedQuery query) (embed_query w query) ;;
     results <- call (CollectionQuery query_embedding k) (collection_query w query_embedding k) ;;
     lift (format_results results))
    (fun _ => ret []).

End VectorStore.

(** ** [src/agents/knowledge_agent.py] *)

(** The dict returned by [answer_question]; [kb_search_attempted],
    [kb_all_results] and [kb_error] are keys present on some paths only. *)
Record KbResult : Type := {
  kb_found : bool;
  kb_answer : option string;
  kb_source : option KnowledgeMatch;
  kb_confidence : string;
  kb_search_attempted : option bool;
  kb_all_results : option (list KnowledgeMatch);
  kb_error : option string
}.

Module KnowledgeAgent.

Definition cache_key (query : string) : string := "kb_search:" +:+ query.

(** [search_knowledge_base(query, k)]. *)
Definition search_knowledge_base (w : World) (query : string) (k : nat) : M (list KnowledgeMatch) :=
  let search_and_cache :=
    results <- VectorStore.search w query k ;;
    _ <- (if Py.truthy_list results
          then RedisCache.set w (cache_key query) results 3600
          else ret false) ;;
    ret results in
  cached_result <- RedisCache.get w (cache_key query) ;;
  match cached_result with
  | Some cached => if Py.truthy_list cached then ret cached else search_and_cache
  | None => search_and_cache
  end.

(** The strict filter: [r["relevance"] == "high" and r["score"] < 0.4]. *)
Definition passes_gate (r : KnowledgeMatch) : bool :=
  String.eqb (km_relevance r) "high" &&
  (if Qlt_le_dec (km_score r) (4 # 10) then true else false).

(** One entry of the text handed to the model, numbered from 1; the
    [join] of the tags may raise. *)
Definition format_match (i : nat) (r : KnowledgeMatch) : Result string :=
  rbind (PyJson.join ", " (km_tags r)) (fun tags =>
  Ok ("Result " +:+ Py.str_of_nat (i + 1) +:+ ":" +:+ Py.nl +:+
      "Question: " +:+ km_question r +:+ Py.nl +:+
      "Answer: " +:+ km_answer r +:+ Py.nl +:+
      "Team: " +:+ km_team r +:+ Py.nl +:+
      "Tags: " +:+ tags)).

(** The list comprehension over [enumerate(high_relevance)], from index
    [i] on: the first entry that raises abandons the list. *)
Fixpoint format_matches (i : nat) (rs : list KnowledgeMatch) : Result (list string) :=
  match rs with
  | [] => Ok []
  | r :: rest =>
      rbind (format_match i r) (fun entry =>
      rbind (format_matches (S i) rest) (fun entries => Ok (entry :: entries)))
  end.

(** The text handed to the model: the entries joined by an empty line. *)
Definition format_search_results (high_relevance : list KnowledgeMatch) : Result string :=
  rbind (format_matches 0 high_relevance) (fun entries =>
  Ok (Py.join (Py.nl +:+ Py.nl) entries)).

(** [answer_question(question)]; the search uses the default [k = 3].  The
    text for the model is built before the [try], so an exception raised
    while building it leaves the function. *)
Definition answer_question (w : World) (question : string) : M KbResult :=
  search_results <- search_knowledge_base w question 3 ;;
  if negb (Py.truthy_list search_results) then
    ret {| kb_found := false; kb_answer := None; kb_source := None;
           kb_confidence := "none"; kb_search_attempted := None;
           kb_all_results := None; kb_error := None |}
  else
    let high_relevance := List.filter passes_gate search_results in
    match high_relevance with
    | [] =>
        ret {| kb_found := false; kb_answer := None; kb_source := None;
               kb_confidence := "low"; kb_search_attempted := Some true;
               kb_all_results := None; kb_error := None |}
    | best_match :: _ =>
        formatted_results <- lift (format_search_results high_relevance) ;;
        try_except
          (answer <- call (KnowledgeInvoke question formatted_results)
                          (knowledge_chain w question formatted_results) ;;
           ret {| kb_found := true; kb_answer := Some answer;
                  kb_source := Some best_match;
                  kb_confidence := km_relevance best_match;
                  kb_search_attempted := None;
                  kb_all_results := Some high_relevance; kb_error := None |})
          (fun e =>
             ret {| kb_found := false; kb_answer := None; kb_source := None;
                    kb_confidence := "error"; kb_search_attempted := None;
                    kb_all_results := None;
                    kb_error := Some (match e with Exception msg => msg end) |})
    end.

End KnowledgeAgent.

(** ** [src/agents/router_agent.py] *)

Record RoutingDecision : Type := {
  rd_team : string;
  rd_method : string;
  rd_confidence : string;
  rd_reason : string
}.

Module RouterAgent.

(** The class attribute [TEAMS], in its insertion order. *)
Definition TEAMS : list (string * list string) :=
  [ ("platform", ["kubernetes"; "k8s"; "pod"; "deployment"; "container";
                  "docker"; "scaling"; "orchestration"]);
    ("devops", ["ci/cd"; "pipeline"; "jenkins"; "gitlab"; "monitoring";
                "prometheus"; "grafana"; "alert"; "automation"]);
    ("database", ["postgres"; "postgresql"; "mysql"; "database"; "db"; "sql";
                  "connection"; "query"; "performance"]);
    ("security", ["ssl"; "tls"; "certificate"; "auth"; "access"; "permission";
                  "vulnerability"; "compliance"; "firewall"]);
    ("network", ["dns"; "load balancer"; "nginx"; "connectivity"; "network";
                 "routing"; "port"; "ip"]) ].

(** The inner loop of [_keyword_match] for one team: the score grows by
    one for each keyword of the list that occurs in the text. *)
Definition keyword_score (keywords : list string) (text : string) : nat :=
  fold_left (fun score keyword => if Py.contains keyword text then S score else score)
            keywords 0%nat.

(** [team_scores] after both loops, in the key order of [TEAMS]. *)
Definition team_scores (text : string) : list (string * nat) :=
  map (fun tk => (fst tk, keyword_score (snd tk) text)) TEAMS.

(** [_keyword_match(text)]; [None] is Python's [None]. *)
Definition _keyword_match (text : string) : option string :=
  match team_scores text with
  | [] => None
  | first :: rest =>
      let max_score := Py.max_of (snd first) (map snd rest) in
      if (0 <? max_score)%nat then Some (fst (Py.max_by snd first rest))
      else None
  end.

(** [_extract_team(response)]. *)
Definition _extract_team (response : string) : string :=
  let response_lower := Py.lower response in
  match List.filter (fun team => Py.contains team response_lower) (map fst TEAMS) with
  | team :: _ => team
  | [] => "platform"
  end.

(** [route_inquiry(question, category)]. *)
Definition route_inquiry (w : World) (question category : string) : M RoutingDecision :=
  let llm_route :=
    try_except
      (response <- call (RouterInvoke question (Py.or_str category "general"))
                        (router_chain w question (Py.or_str category "general")) ;;
       let team := _extract_team response in
       ret {| rd_team := team; rd_method := "llm"; rd_confidence := "medium";
              rd_reason := Py.strip response |})
      (fun _ =>
         ret {| rd_team := "platform"; rd_method := "default";
                rd_confidence := "low";
                rd_reason := "Default routing due to error" |}) in
  match _keyword_match (Py.lower question) with
  | Some keyword_team =>
      if Py.truthy_str keyword_team then
        ret {| rd_team := keyword_team; rd_method := "keyword";
               rd_confidence := "high";
               rd_reason := "Matched keywords for " +:+ keyword_team +:+ " team" |}
      else llm_route
  | None => llm_route
  end.

End RouterAgent.

(** ** [src/agents/supervisor.py] *)

(** The classification dict: each key is present or absent. *)
Record Classification : Type := {
  cl_urgency : option string;
  cl_category : option string;
  cl_needs_ticket : option bool
}.

Record TicketDraft : Type := {
  td_summary : string;
  td_description : string;
  td_labels : list string;
  td_team : string;
  td_priority : string
}.

(** The dict returned by [process_inquiry].  The keys written in one
    branch only are [option]s; [r_answer] and [r_source] then hold the
    value of the knowledge result, itself [None] or a value. *)
Record PipelineResult : Type := {
  r_timestamp : string;
  r_question : string;
  r_user_id : string;
  r_channel_id : string;
  r_environment : option string;
  r_deadline : option string;
  r_steps : list string;
  r_classification : Classification;
  r_knowledge_base : KbResult;
  r_action : string;
  r_answer : option (option string);
  r_source : option (option KnowledgeMatch);
  r_requires_ticket : bool;
  r_routing : option RoutingDecision;
  r_assigned_team : option string;
  r_ticket_details : option TicketDraft;
  r_completed : bool
}.

Module SupervisorAgent.

Definition empty_classification : Classification :=
  {| cl_urgency := None; cl_category := None; cl_needs_ticket := None |}.

(** The dict returned by the [except] branch of [_classify_inquiry]. *)
Definition default_classification : Classification :=
  {| cl_urgency := Some "medium"; cl_category := Some "other";
     cl_needs_ticket := Some true |}.

(** The body of the [for line in response.split(...)] loop.
    [Py.split_once] answers exactly when [":" in line]. *)
Definition classify_line (classification : Classification) (line : string) : Classification :=
  match Py.split_once ":" line with
  | None => classification
  | Some (key0, value0) =>
      let key := Py.replace_char "_" " " (Py.lower (Py.strip key0)) in
      let value := Py.lower (Py.strip value0) in
      if Py.contains "urgency" key then
        {| cl_urgency := Some value;
           cl_category := cl_category classification;
           cl_needs_ticket := cl_needs_ticket classification |}
      else if Py.contains "category" key then
        {| cl_urgency := cl_urgency classification;
           cl_category := Some value;
           cl_needs_ticket := cl_needs_ticket classification |}
      else if Py.contains "needs" key || Py.contains "ticket" key then
        {| cl_urgency := cl_urgency classification;
           cl_category := cl_category classification;
           cl_needs_ticket := Some (String.eqb value "yes") |}
      else classification
  end.

(** [_classify_inquiry(question)]. *)
Definition _classify_inquiry (w : World) (question : string) : M Classification :=
  try_except
    (response <- call (ClassifierInvoke question) (classifier_chain w question) ;;
     ret (fold_left classify_line (Py.split (ascii_of_nat 10) response)
                    empty_classification))
    (fun _ => ret default_classification).

(** The dict literal of [_urgency_to_priority]. *)
Definition mapping : gmap string string :=
  <["critical" := "Critical"]>
    (<["high" := "High"]> (<["medium" := "Medium"]> (<["low" := "Low"]> ∅))).

(** [_urgency_to_priority(urgency)]. *)
Definition _urgency_to_priority (urgency : string) : string :=
  default "Medium" (mapping !! Py.lower urgency).

(** [_generate_ticket_details(question, classification, team, environment,
    deadline)]. *)
Definition _generate_ticket_details (question : string) (classification : Classification)
    (team : string) (environment deadline : option string) : TicketDraft :=
  let summary :=
    if (100 <? String.length question)%nat then Py.take 97 question +:+ "..."
    else question in
  let description :=
    "Infrastructure Inquiry" +:+ Py.nl +:+ Py.nl +:+
    "**Question:**" +:+ Py.nl +:+
    question +:+ Py.nl +:+ Py.nl +:+
    "**Details:**" +:+ Py.nl +:+
    "- Environment: " +:+ Py.or_opt environment "Not specified" +:+ Py.nl +:+
    "- Deadline: " +:+ Py.or_opt deadline "Not specified" +:+ Py.nl +:+
    "- Urgency: " +:+ default "medium" (cl_urgency classification) +:+ Py.nl +:+
    "- Category: " +:+ default "general" (cl_category classification) +:+ Py.nl +:+ Py.nl +:+
    "**Assigned Team:** " +:+ team +:+ Py.nl +:+ Py.nl +:+
    "This ticket was automatically created by the Infrastructure Bot." +:+ Py.nl in
  let labels :=
    [ team;
      default "general" (cl_category classification);
      default "medium" (cl_urgency classification);
      "automated";
      "infrastructure" ] in
  {| td_summary := summary;
     td_description := description;
     td_labels := labels;
     td_team := team;
     td_priority := _urgency_to_priority (default "medium" (cl_urgency classification)) |}.

(** The branch test of step 3:
    [kb_result["found"] and kb_result["confidence"] in ["high", "medium"]]. *)
Definition answers_from_kb (kb_result : KbResult) : bool :=
  kb_found kb_result &&
  (String.eqb (kb_confidence kb_result) "high" ||
   String.eqb (kb_confidence kb_result) "medium").

(** [process_inquiry(question, user_id, channel_id, environment, deadline)]. *)
Definition process_inquiry (w : World) (question user_id channel_id : string)
    (environment deadline : option string) : M PipelineResult :=
  classification <- _classify_inquiry w question ;;
  kb_result <- KnowledgeAgent.answer_question w question ;;
  if answers_from_kb kb_result then
    ret {| r_timestamp := utcnow_isoformat w;
           r_question := question; r_user_id := user_id;
           r_channel_id := channel_id;
           r_environment := environment; r_deadline := deadline;
           r_steps := ["classified"; "searched_kb"; "answered_from_kb"];
           r_classification := classification;
           r_knowledge_base := kb_result;
           r_action := "answer_from_kb";
           r_answer := Some (kb_answer kb_result);
           r_source := Some (kb_source kb_result);
           r_requires_ticket := false;
           r_routing := None; r_assigned_team := None;
           r_ticket_details := None;
           r_completed := true |}
  else
    routing <- RouterAgent.route_inquiry w question
                 (default "" (cl_category classification)) ;;
    let ticket_details :=
      _generate_ticket_details question classification (rd_team routing)
                               environment deadline in
    ret {| r_timestamp := utcnow_isoformat w;
           r_question := question; r_user_id := user_id;
           r_channel_id := channel_id;
           r_environment := environment; r_deadline := deadline;
           r_steps := ["classified"; "searched_kb"; "routed_to_team";
                       "generated_ticket_details"];
           r_classification := classification;
           r_knowledge_base := kb_result;
           r_action := "create_ticket";
           r_answer := None; r_source := None;
           r_requires_ticket := true;
           r_routing := Some routing;
           r_assigned_team := Some (rd_team routing);
           r_ticket_details := Some ticket_details;
           r_completed := true |}.

End SupervisorAgent.

(** ** More of Python's strings *)

Module PyMore.

(** [s.split(sep)] for a separator of any positive length: the text is
    scanned from the left and the occurrences taken do not overlap.
    [skip] counts the characters of a separator just found that are
    still to be passed over. *)
Fixpoint split_from (sep : string) (skip : nat) (s : string) : list string :=
  match s with
  | EmptyString => [EmptyString]
  | String c t =>
      match skip with
      | S n => split_from sep n t
      | O =>
          if Py.startswith sep s
          then EmptyString :: split_from sep (String.length sep - 1) t
          else match split_from sep 0 t with
               | h :: r => String c h :: r
               | [] => [String c EmptyString]
               end
      end
  end.

Definition split_str (sep s : string) : list string := split_from sep 0 s.

(** [s[-n:]] for a positive [n]: the last [n] characters, all of [s] when
    it is shorter. *)
Fixpoint take_last (n : nat) (s : string) : string :=
  match s with
  | EmptyString => EmptyString
  | String c t => if (String.length t <? n)%nat then s else take_last n t
  end.

(** [all(xs)] on optional strings: [None] and the empty string are false. *)
Definition all_truthy (xs : list (option string)) : bool :=
  forallb (fun x => match x with
                    | Some s => Py.truthy_str s
                    | None => false
                    end) xs.

End PyMore.

(** ** [src/tools/jira_tools.py] *)

(** The JSON body posted to the tracker. *)
Record JiraPayload : Type := {
  jp_project_key : string;
  jp_summary : string;
  jp_description : string;
  jp_issuetype : string;
  jp_priority : string;
  jp_labels : list string
}.

(** What the tools read of an HTTP response: the status code, the body
    text, and for each tool the part of [response.json()] it looks up,
    which raises when the body is not the expected JSON. *)
Record CreateResponse : Type := {
  cr_status_code : nat;
  cr_text : string;
  cr_key : Result string
}.

Record IssueResponse : Type := {
  ir_status_code : nat;
  ir_status_name : Result string;
  ir_assignee : option (option string)
}.

(** [requests.post] and [requests.get] against the tracker: each answers
    or raises (timeout, connection error). *)
Record Http : Type := {
  http_post : string -> JiraPayload -> Result CreateResponse;
  http_get : string -> Result IssueResponse
}.

(** A tool of the list returned by [create_jira_tools], by the signature
    of its function. *)
Inductive JiraTool : Type :=
| CreateTicketTool (func : string -> string -> string -> string -> string)
| TicketStatusTool (func : string -> string).

Module JiraTools.

(** [create_jira_ticket_disabled(summary, description, team, priority)]. *)
Definition create_jira_ticket_disabled (summary description team priority : string) : string :=
  "JIRA integration disabled. Would have created ticket:" +:+ Py.nl +:+
  "- Summary: " +:+ summary +:+ Py.nl +:+
  "- Team: " +:+ team +:+ Py.nl +:+
  "- Priority: " +:+ priority.

(** The payload built by [create_jira_ticket]. *)
Definition payload (project_key summary description team priority : string) : JiraPayload :=
  {| jp_project_key := project_key;
     jp_summary := Py.take 100 summary;
     jp_description := description;
     jp_issuetype := "Task";
     jp_priority := priority;
     jp_labels := [team; "infrastructure"; "automated"] |}.

(** [create_jira_ticket(summary, description, team, priority)] for a
    configured tracker. *)
Definition create_jira_ticket (http : Http) (jira_url project_key : string)
    (summary description team priority : string) : string :=
  match http_post http (jira_url +:+ "/rest/api/2/issue")
                  (payload project_key summary description team priority) with
  | Ok response =>
      if (cr_status_code response =? 201)%nat then
        match cr_key response with
        | Ok ticket_id =>
            let ticket_url := jira_url +:+ "/browse/" +:+ ticket_id in
            "Ticket created: " +:+ ticket_id +:+ Py.nl +:+
            "URL: " +:+ ticket_url +:+ Py.nl +:+
            "Status: Open" +:+ Py.nl +:+
            "Team: " +:+ team
        | Raise (Exception msg) => "Error creating JIRA ticket: " +:+ msg
        end
      else
        "Error creating ticket: " +:+ Py.str_of_nat (cr_status_code response) +:+
        " - " +:+ cr_text response
  | Raise (Exception msg) => "Error creating JIRA ticket: " +:+ msg
  end.

(** [get_jira_ticket_status(ticket_id)]. *)
Definition get_jira_ticket_status (http : Http) (jira_url : string) (ticket_id : string) : string :=
  match http_get http (jira_url +:+ "/rest/api/2/issue/" +:+ ticket_id) with
  | Ok response =>
      if (ir_status_code response =? 200)%nat then
        match ir_status_name response with
        | Ok status =>
            let assignee_name :=
              match ir_assignee response with
              | Some (Some name) => name
              | _ => "Unassigned"
              end in
            "Ticket: " +:+ ticket_id +:+ Py.nl +:+
            "Status: " +:+ status +:+ Py.nl +:+
            "Assignee: " +:+ assignee_name
        | Raise (Exception msg) => "Error fetching JIRA ticket: " +:+ msg
        end
      else "Error fetching ticket: " +:+ Py.str_of_nat (ir_status_code response)
  | Raise (Exception msg) => "Error fetching JIRA ticket: " +:+ msg
  end.

(** [create_jira_tools(jira_url, jira_email, jira_token, project_key)]. *)
Definition create_jira_tools (http : Http)
    (jira_url jira_email jira_token project_key : option string) : list JiraTool :=
  if negb (PyMore.all_truthy [jira_url; jira_email; jira_token; project_key]) then
    [CreateTicketTool create_jira_ticket_disabled]
  else
    [CreateTicketTool (create_jira_ticket http (default "" jira_url) (default "" project_key));
     TicketStatusTool (get_jira_ticket_status http (default "" jira_url))].

End JiraTools.

(** ** [src/slack_bot.py] *)

(** The bot's literals hold characters beyond code point 255; they stand
    here as their UTF-8 bytes, and no property looks inside them.  Calls
    of the logger are left out, like [print]. *)

(** The blocks of a Slack message the bot builds: a section with its
    text, a divider, a context with the texts of its elements. *)
Inductive Block : Type :=
| SectionBlock (text : string)
| DividerBlock
| ContextBlock (elements : list string).

(** The dict returned by [_format_response]; its "blocks" key is present
    for an answer only. *)
Record FormattedResponse : Type := {
  fr_text : string;
  fr_blocks : option (list Block)
}.

(** The columns [_save_inquiry] gives a row of the inquiries table, each
    under the prefix [iq_]. *)
Record Inquiry : Type := {
  iq_slack_user_id : string;
  iq_slack_channel_id : string;
  iq_question : string;
  iq_environment : option string;
  iq_deadline : option string;
  iq_urgency : option string;
  iq_category : option string;
  iq_resolved_from_kb : bool;
  iq_kb_answer : option string;
  iq_assigned_team : option string;
  iq_status : string;
  iq_inquiry_metadata : PipelineResult
}.

(** The message templates of config/prompts.py are not among the sources:
    each is a parameter, standing for its [.format] call with the keyword
    arguments in the order the bot writes them, which answers or raises. *)
Record Templates : Type := {
  KNOWLEDGE_BASE_FOUND_TEMPLATE : string -> string -> string -> Result string;
  TICKET_CREATED_TEMPLATE :
    string -> string -> string -> string -> string -> string -> Result string;
  ERROR_TEMPLATE : string -> string -> Result string
}.

(** The Slack client: [chat_postMessage] answers the "ts" of the message
    it posted. *)
Record SlackClient : Type := {
  chat_postMessage : string -> string -> option string -> Result string;
  chat_update : string -> string -> string -> option (list Block) -> Result unit
}.

(** The database session: each operation may raise. *)
Record DbSession : Type := {
  add_raises : Inquiry -> option Exn;
  commit_raises : list Inquiry -> option Exn;
  rollback_raises : option Exn
}.

(** The attributes of a [SlackBot]. *)
Record SlackBot : Type := {
  client : SlackClient;
  supervisor : World;
  jira_tools : list JiraTool;
  db_session : DbSession;
  templates : Templates
}.

(** Calls the bot makes besides those of the pipeline. *)
Inductive BotCall : Type :=
| PostMessage (channel text : string) (thread_ts : option string)
| UpdateMessage (channel ts text : string) (blocks : option (list Block))
| CallJiraTool (summary description team priority : string)
| SessionAdd (row : Inquiry)
| SessionCommit
| SessionRollback.

(** The state around the bot: the state of the pipeline, the bot's own
    calls, oldest first, the rows added to the session and not yet
    committed, and the rows of the table. *)
Record BotEnv : Type := {
  pipeline : Env;
  bot_calls : list BotCall;
  pending : list Inquiry;
  saved : list Inquiry
}.

Definition B (A : Type) : Type := BotEnv -> Result A * BotEnv.

Definition bret {A : Type} (a : A) : B A := fun s => (Ok a, s).

Definition bbind {A C : Type} (m : B A) (f : A -> B C) : B C :=
  fun s =>
    match m s with
    | (Ok a, s') => f a s'
    | (Raise e, s') => (Raise e, s')
    end.

Definition blift {A : Type} (r : Result A) : B A := fun s => (r, s).

Definition btry_except {A : Type} (body : B A) (handler : Exn -> B A) : B A :=
  fun s =>
    match body s with
    | (Ok a, s') => (Ok a, s')
    | (Raise e, s') => handler e s'
    end.

Definition blog (c : BotCall) (s : BotEnv) : BotEnv :=
  {| pipeline := pipeline s; bot_calls := bot_calls s ++ [c];
     pending := pending s; saved := saved s |}.

(** A logged call of the bot with outcome [r]. *)
Definition bcall {A : Type} (c : BotCall) (r : Result A) : B A :=
  fun s => (r, blog c s).

(** A run of pipeline code inside the bot. *)
Definition in_pipeline {A : Type} (m : M A) : B A :=
  fun s =>
    match m (pipeline s) with
    | (r, env) => (r, {| pipeline := env; bot_calls := bot_calls s;
                         pending := pending s; saved := saved s |})
    end.

Notation "x <-- m ;; k" := (bbind m (fun x => k))
  (at level 100, m at next level, right associativity).

Module SlackBotModel.

(** [str(x)] of an optional string, as an f-string prints it. *)
Definition str_opt (x : option string) : string := default "None" x.

(** [_format_response(result)]. *)
Definition _format_response (self : SlackBot) (result : PipelineResult) : Result FormattedResponse :=
  if String.eqb (r_action result) "answer_from_kb" then
    match r_source result with
    | None => Raise (Exception "KeyError: 'source'")
    | Some source =>
        match r_answer result with
        | None => Raise (Exception "KeyError: 'answer'")
        | Some answer =>
            match source with
            | None => Raise (Exception "AttributeError: 'NoneType' object has no attribute 'get'")
            | Some src =>
                rbind (PyJson.join ", " (km_tags src)) (fun tags =>
                rbind (KNOWLEDGE_BASE_FOUND_TEMPLATE (templates self)
                         (str_opt answer) (km_team src) tags) (fun text =>
                rbind (PyJson.join ", " (km_tags src)) (fun tags_again =>
                Ok {| fr_text := text;
                      fr_blocks :=
                        Some [ SectionBlock ("*Your Question:*" +:+ Py.nl +:+ r_question result);
                               DividerBlock;
                               SectionBlock ("✅ *Found in Knowledge Base*" +:+ Py.nl +:+ Py.nl +:+
                                             str_opt answer);
                               ContextBlock ["*Team:* " +:+ km_team src +:+ " | *Tags:* " +:+
                                             tags_again] ] |})))
            end
        end
    end
  else
    match r_assigned_team result with
    | None => Raise (Exception "KeyError: 'assigned_team'")
    | Some team =>
        Ok {| fr_text := "📋 Your inquiry has been received and will be routed to the **" +:+
                         team +:+ "** team.";
              fr_blocks := None |}
    end.

(** One turn of the loop over the lines of a ticket response. *)
Definition parse_line (acc : string * string) (line : string) : Result (string * string) :=
  rbind (if Py.contains "Ticket created:" line
         then rbind (index (Py.split ":" line) 1) (fun part => Ok (Py.strip part))
         else Ok (fst acc)) (fun ticket_id =>
  rbind (if Py.contains "URL:" line
         then rbind (index (PyMore.split_str "URL:" line) 1) (fun part => Ok (Py.strip part))
         else Ok (snd acc)) (fun ticket_url =>
  Ok (ticket_id, ticket_url))).

Fixpoint parse_lines (acc : string * string) (lines : list string) : Result (string * string) :=
  match lines with
  | [] => Ok acc
  | line :: rest => rbind (parse_line acc line) (fun acc' => parse_lines acc' rest)
  end.

(** The ticket id and URL [_create_ticket_and_notify] reads in the
    response of the ticket tool. *)
Definition parse_ticket_response (ticket_response : string) : Result (string * string) :=
  if Py.contains "Ticket created:" ticket_response
  then parse_lines ("N/A", "N/A") (Py.split (ascii_of_nat 10) ticket_response)
  else Ok ("N/A", "N/A").

(** [_create_ticket_and_notify(result, channel_id, thread_ts)]. *)
Definition _create_ticket_and_notify (self : SlackBot) (result : PipelineResult)
    (channel_id thread_ts : string) : B unit :=
  btry_except
    (ticket_details <-- blift (match r_ticket_details result with
                               | Some details => Ok details
                               | None => Raise (Exception "KeyError: 'ticket_details'")
                               end) ;;
     jira_create_tool <-- blift (index (jira_tools self) 0) ;;
     ticket_response <--
       bcall (CallJiraTool (td_summary ticket_details) (td_description ticket_details)
                           (td_team ticket_details) (td_priority ticket_details))
             (match jira_create_tool with
              | CreateTicketTool func =>
                  Ok (func (td_summary ticket_details) (td_description ticket_details)
                           (td_team ticket_details) (td_priority ticket_details))
              | TicketStatusTool _ =>
                  Raise (Exception "TypeError: got an unexpected keyword argument 'summary'")
              end) ;;
     parsed_ids <-- blift (parse_ticket_response ticket_response) ;;
     message <-- blift (TICKET_CREATED_TEMPLATE (templates self)
                          (fst parsed_ids) (td_summary ticket_details) "Open"
                          (td_team ticket_details) (snd parsed_ids) "24-48 hours") ;;
     _ <-- bcall (PostMessage channel_id message (Some thread_ts))
                 (chat_postMessage (client self) channel_id message (Some thread_ts)) ;;
     bret tt)
    (fun _ => bret tt).

(** The row [_save_inquiry] builds from a result. *)
Definition inquiry_of (result : PipelineResult) : Inquiry :=
  {| iq_slack_user_id := r_user_id result;
     iq_slack_channel_id := r_channel_id result;
     iq_question := r_question result;
     iq_environment := r_environment result;
     iq_deadline := r_deadline result;
     iq_urgency := cl_urgency (r_classification result);
     iq_category := cl_category (r_classification result);
     iq_resolved_from_kb := String.eqb (r_action result) "answer_from_kb";
     iq_kb_answer := match r_answer result with
                  | Some answer => answer
                  | None => None
                  end;
     iq_assigned_team := r_assigned_team result;
     iq_status := if String.eqb (r_action result) "answer_from_kb"
                  then "resolved" else "open";
     iq_inquiry_metadata := result |}.

(** [db_session.add], [db_session.commit] and [db_session.rollback]. *)
Definition session_add (self : SlackBot) (row : Inquiry) : B unit :=
  fun s =>
    match add_raises (db_session self) row with
    | Some e => (Raise e, blog (SessionAdd row) s)
    | None =>
        (Ok tt, {| pipeline := pipeline s; bot_calls := bot_calls s ++ [SessionAdd row];
                   pending := pending s ++ [row]; saved := saved s |})
    end.

Definition session_commit (self : SlackBot) : B unit :=
  fun s =>
    match commit_raises (db_session self) (pending s) with
    | Some e => (Raise e, blog SessionCommit s)
    | None =>
        (Ok tt, {| pipeline := pipeline s; bot_calls := bot_calls s ++ [SessionCommit];
                   pending := []; saved := saved s ++ pending s |})
    end.

Definition session_rollback (self : SlackBot) : B unit :=
  fun s =>
    match rollback_raises (db_session self) with
    | Some e => (Raise e, blog SessionRollback s)
    | None =>
        (Ok tt, {| pipeline := pipeline s; bot_calls := bot_calls s ++ [SessionRollback];
                   pending := []; saved := saved s |})
    end.

(** [_save_inquiry(result)]: the rollback of the [except] block is not
    itself guarded. *)
Definition _save_inquiry (self : SlackBot) (result : PipelineResult) : B unit :=
  btry_except
    (_ <-- session_add self (inquiry_of result) ;;
     session_commit self)
    (fun _ => session_rollback self).

(** [_process_inquiry_async(question, environment, deadline, user_id,
    channel_id, thread_ts)]. *)
Definition _process_inquiry_async (self : SlackBot) (question : string)
    (environment deadline : option string) (user_id channel_id : string)
    (thread_ts : option string) : B unit :=
  btry_except
    (message_ts <-- bcall (PostMessage channel_id "🔍 Processing your inquiry..." thread_ts)
                          (chat_postMessage (client self) channel_id
                             "🔍 Processing your inquiry..." thread_ts) ;;
     result <-- in_pipeline (SupervisorAgent.process_inquiry (supervisor self) question
                               user_id channel_id environment deadline) ;;
     formatted_response <-- blift (_format_response self result) ;;
     _ <-- bcall (UpdateMessage channel_id message_ts (fr_text formatted_response)
                                (fr_blocks formatted_response))
                 (chat_update (client self) channel_id message_ts
                              (fr_text formatted_response) (fr_blocks formatted_response)) ;;
     _ <-- (if String.eqb (r_action result) "create_ticket" &&
               Py.truthy_list (jira_tools self)
            then _create_ticket_and_notify self result channel_id message_ts
            else bret tt) ;;
     _save_inquiry self result)
    (fun _ =>
       btry_except
         (error_msg <-- blift (ERROR_TEMPLATE (templates self)
                                 "Failed to process your inquiry. Please try again."
                                 ("ERR-" +:+ PyMore.take_last 6 user_id)) ;;
          _ <-- bcall (PostMessage channel_id error_msg thread_ts)
                      (chat_postMessage (client self) channel_id error_msg thread_ts) ;;
          bret tt)
         (fun _ => bret tt)).

End SlackBotModel.

(** ** Worlds and states of the examples *)

(** Every collaborator raises. *)
Definition dead_world : World :=
  {| utcnow_isoformat := "2024-01-01T00:00:00";
     redis_get_raises := fun _ => Some (Exception "redis: connection refused");
     redis_setex_raises := fun _ => Some (Exception "redis: connection refused");
     embed_query := fun _ => Raise (Exception "ollama: timeout");
     collection_query := fun _ _ => Raise (Exception "chroma: unavailable");
     classifier_chain := fun _ => Raise (Exception "ollama: timeout");
     knowledge_chain := fun _ _ => Raise (Exception "ollama: timeout");
     router_chain := fun _ _ => Raise (Exception "ollama: timeout") |}.

(** A collection holding one document about restarting a pod, found at the
    given distance from any query; the three chains answer. *)
Definition pod_metadata : Metadata :=
  {| md_question := Some "How do I restart a pod?";
     md_answer := Some "kubectl rollout restart deployment/<name>";
     md_team := Some "platform";
     md_tags := Some (Ok (JArray [JString "kubernetes"; JString "pod"]));
     md_entry_id := Some "kb-001" |}.

Definition seeded_world (distance : Q) (classifier_says : string) : World :=
  {| utcnow_isoformat := "2024-01-01T00:00:00";
     redis_get_raises := fun _ => None;
     redis_setex_raises := fun _ => None;
     embed_query := fun _ => Ok [1 # 2; 1 # 3];
     collection_query := fun _ _ =>
       Ok (Some {| qr_ids := [["kb-001"]];
                   qr_metadatas := [[pod_metadata]];
                   qr_distances := [[distance]] |});
     classifier_chain := fun _ => Ok classifier_says;
     knowledge_chain := fun _ _ => Ok "Run kubectl rollout restart.";
     router_chain := fun _ _ => Ok "devops - it concerns monitoring" |}.

Definition empty_env : Env := {| redis := ∅; calls := [] |}.

(** The same collection with tags stored as text that is not JSON. *)
Definition broken_tags_world : World :=
  {| utcnow_isoformat := "2024-01-01T00:00:00";
     redis_get_raises := fun _ => None;
     redis_setex_raises := fun _ => None;
     embed_query := fun _ => Ok [1 # 2; 1 # 3];
     collection_query := fun _ _ =>
       Ok (Some {| qr_ids := [["kb-001"]];
                   qr_metadatas :=
                     [[ {| md_question := md_question pod_metadata;
                           md_answer := md_answer pod_metadata;
                           md_team := md_team pod_metadata;
                           md_tags := Some (Raise (Exception "JSONDecodeError: Expecting value"));
                           md_entry_id := md_entry_id pod_metadata |} ]];
                   qr_distances := [[1 # 10]] |});
     classifier_chain := fun _ => Ok "";
     knowledge_chain := fun _ _ => Ok "Run kubectl rollout restart.";
     router_chain := fun _ _ => Ok "devops - it concerns monitoring" |}.

(** The same collection after the tags of the pod entry were stored as
    the JSON text [null], found at distance 0.1. *)
Definition null_tags_world : World :=
  {| utcnow_isoformat := "2024-01-01T00:00:00";
     redis_get_raises := fun _ => None;
     redis_setex_raises := fun _ => None;
     embed_query := fun _ => Ok [1 # 2; 1 # 3];
     collection_query := fun _ _ =>
       Ok (Some {| qr_ids := [["kb-001"]];
                   qr_metadatas :=
                     [[ {| md_question := md_question pod_metadata;
                           md_answer := md_answer pod_metadata;
                           md_team := md_team pod_metadata;
                           md_tags := Some (Ok JNull);
                           md_entry_id := md_entry_id pod_metadata |} ]];
                   qr_distances := [[1 # 10]] |});
     classifier_chain := fun _ => Ok "";
     knowledge_chain := fun _ _ => Ok "Run kubectl rollout restart.";
     router_chain := fun _ _ => Ok "devops - it concerns monitoring" |}.

(** The match [search] builds from [pod_metadata] at a given distance. *)
Definition pod_match (distance : Q) (relevance : string) : KnowledgeMatch :=
  {| km_question := "How do I restart a pod?";
     km_answer := "kubectl rollout restart deployment/<name>";
     km_team := "platform";
     km_tags := JArray [JString "kubernetes"; JString "pod"];
     km_entry_id := "kb-001";
     km_score := distance;
     km_relevance := relevance |}.


(** ** Vocabulary of the properties *)

(** The four shapes of the dict returned by [answer_question]. *)
Definition kb_none : KbResult :=
  {| kb_found := false; kb_answer := None; kb_source := None;
     kb_confidence := "none"; kb_search_attempted := None;
     kb_all_results := None; kb_error := None |}.

Definition kb_low : KbResult :=
  {| kb_found := false; kb_answer := None; kb_source := None;
     kb_confidence := "low"; kb_search_attempted := Some true;
     kb_all_results := None; kb_error := None |}.

(** A cache holding the pod entry under the key of its question. *)
Definition pod_question : string := "How do I restart a pod?".

Definition cached_env (cached : list KnowledgeMatch) : Env :=
  {| redis := {[ "kb_search:" +:+ pod_question := (3600%Z, cached) ]};
     calls := [] |}.

(** Every candidate set held by the cache is non-empty. *)
Definition cache_holds_candidates (s : Env) : Prop :=
  forall key ttl value, redis s !! key = Some (ttl, value) -> value <> [].

(** The text handed to the synthesis chain for the surviving matches,
    when it can be built. *)
Definition formatted (high_relevance : list KnowledgeMatch) : Result string :=
  KnowledgeAgent.format_search_results high_relevance.

(** [', '.join] accepts the tags of a match. *)
Definition joinable_tags (r : KnowledgeMatch) : Prop :=
  exists text, PyJson.join ", " (km_tags r) = Ok text.


(** The tags are what the knowledge base is meant to hold: a list of
    strings. *)
Definition string_tags (r : KnowledgeMatch) : Prop :=
  exists tags, km_tags r = JArray (map JString tags).

(** The metadata and the distance the collection's answer holds at index
    [i] of its first inner lists, if any. *)
Definition metadata_at (answer : QueryResult) (i : nat) : option Metadata :=
  match qr_metadatas answer !! 0%nat with
  | Some mds => mds !! i
  | None => None
  end.

Definition distance_at (answer : QueryResult) (i : nat) : option Q :=
  match qr_distances answer !! 0%nat with
  | Some ds => ds !! i
  | None => None
  end.

(** The answer cannot be formatted at index [i]: it holds no metadata or
    no distance there, or the tags stored there do not decode. *)
Definition defective_at (answer : QueryResult) (i : nat) : Prop :=
  metadata_at answer i = None \/ distance_at answer i = None \/
  exists metadata e,
    metadata_at answer i = Some metadata /\ md_tags metadata = Some (Raise e).


Definition kb_answered (answer : string) (best_match : KnowledgeMatch)
    (high_relevance : list KnowledgeMatch) : KbResult :=
  {| kb_found := true; kb_answer := Some answer; kb_source := Some best_match;
     kb_confidence := km_relevance best_match; kb_search_attempted := None;
     kb_all_results := Some high_relevance; kb_error := None |}.

Definition kb_failed (msg : string) : KbResult :=
  {| kb_found := false; kb_answer := None; kb_source := None;
     kb_confidence := "error"; kb_search_attempted := None;
     kb_all_results := None; kb_error := Some msg |}.

(** The three shapes of the dict returned by [route_inquiry]. *)
Definition keyword_decision (team : string) : RoutingDecision :=
  {| rd_team := team; rd_method := "keyword"; rd_confidence := "high";
     rd_reason := "Matched keywords for " +:+ team +:+ " team" |}.

Definition llm_decision (response : string) : RoutingDecision :=
  {| rd_team := RouterAgent._extract_team response; rd_method := "llm";
     rd_confidence := "medium"; rd_reason := Py.strip response |}.

Definition default_decision : RoutingDecision :=
  {| rd_team := "platform"; rd_method := "default"; rd_confidence := "low";
     rd_reason := "Default routing due to error" |}.

(** What the parsing loop of [_classify_inquiry] makes of a response. *)
Definition parsed (response : string) : Classification :=
  fold_left SupervisorAgent.classify_line (Py.split (ascii_of_nat 10) response)
            SupervisorAgent.empty_classification.

(** The result dict of the answer branch and of the ticket branch. *)
Definition answer_result (w : World) (question user_id channel_id : string)
    (environment deadline : option string) (classification : Classification)
    (kb_result : KbResult) : PipelineResult :=
  {| r_timestamp := utcnow_isoformat w;
     r_question := question; r_user_id := user_id; r_channel_id := channel_id;
     r_environment := environment; r_deadline := deadline;
     r_steps := ["classified"; "searched_kb"; "answered_from_kb"];
     r_classification := classification;
     r_knowledge_base := kb_result;
     r_action := "answer_from_kb";
     r_answer := Some (kb_answer kb_result);
     r_source := Some (kb_source kb_result);
     r_requires_ticket := false;
     r_routing := None; r_assigned_team := None; r_ticket_details := None;
     r_completed := true |}.

Definition ticket_result (w : World) (question user_id channel_id : string)
    (environment deadline : option string) (classification : Classification)
    (kb_result : KbResult) (routing : RoutingDecision) : PipelineResult :=
  {| r_timestamp := utcnow_isoformat w;
     r_question := question; r_user_id := user_id; r_channel_id := channel_id;
     r_environment := environment; r_deadline := deadline;
     r_steps := ["classified"; "searched_kb"; "routed_to_team";
                 "generated_ticket_details"];
     r_classification := classification;
     r_knowledge_base := kb_result;
     r_action := "create_ticket";
     r_answer := None; r_source := None;
     r_requires_ticket := true;
     r_routing := Some routing;
     r_assigned_team := Some (rd_team routing);
     r_ticket_details :=
       Some (SupervisorAgent._generate_ticket_details
               question classification (rd_team routing) environment deadline);
     r_completed := true |}.


(** The world [w] with another classifier chain. *)
Definition with_classifier (w : World) (chain : string -> Result string) : World :=
  {| utcnow_isoformat := utcnow_isoformat w;
     redis_get_raises := redis_get_raises w;
     redis_setex_raises := redis_setex_raises w;
     embed_query := embed_query w;
     collection_query := collection_query w;
     classifier_chain := chain;
     knowledge_chain := knowledge_chain w;
     router_chain := router_chain w |}.

(** A classifier that answers the three labelled lines, with the given
    NEEDS_TICKET value. *)
Definition says_ticket (needed : string) : string -> Result string :=
  fun _ => Ok ("URGENCY: high" +:+ Py.nl +:+ "CATEGORY: database" +:+ Py.nl +:+
               "NEEDS_TICKET: " +:+ needed).

(** The world [w] with a synthesis chain that always times out. *)
Definition synthesis_down (w : World) : World :=
  {| utcnow_isoformat := utcnow_isoformat w;
     redis_get_raises := redis_get_raises w;
     redis_setex_raises := redis_setex_raises w;
     embed_query := embed_query w;
     collection_query := collection_query w;
     classifier_chain := classifier_chain w;
     knowledge_chain := fun _ _ => Raise (Exception "ollama: timeout");
     router_chain := router_chain w |}.

(** The key as the parser compares it: trimmed, lower-cased, underscores
    turned into spaces. *)
Definition normalised_key (key : string) : string :=
  Py.replace_char "_" " " (Py.lower (Py.strip key)).

(** A string is clean at the front when it does not start with
    whitespace. *)
Definition clean_front (s : string) : Prop :=
  match s with
  | EmptyString => True
  | String c _ => Py.is_whitespace c = false
  end.

(** The calls that reach a language model. *)
Definition is_model_call (c : Call) : bool :=
  match c with
  | ClassifierInvoke _ | KnowledgeInvoke _ _ | RouterInvoke _ _ => true
  | _ => false
  end.

(** A tracker that creates every ticket under the key INFRA-7. *)
Definition creating_http : Http :=
  {| http_post := fun _ _ =>
       Ok {| cr_status_code := 201; cr_text := EmptyString; cr_key := Ok "INFRA-7" |};
     http_get := fun _ => Raise (Exception "tracker: timeout") |}.

(** A client that cannot post at all. *)
Definition silent_bot (w : World) (tools : list JiraTool) : SlackBot :=
  {| client := {| chat_postMessage := fun _ _ _ => Raise (Exception "slack: not_authed");
                  chat_update := fun _ _ _ _ => Raise (Exception "slack: not_authed") |};
     supervisor := w;
     jira_tools := tools;
     db_session := {| add_raises := fun _ => None;
                      commit_raises := fun _ => None;
                      rollback_raises := None |};
     templates :=
       {| KNOWLEDGE_BASE_FOUND_TEMPLATE := fun answer team tags => Ok answer;
          TICKET_CREATED_TEMPLATE := fun ticket_id _ _ _ ticket_url _ =>
                                       Ok (ticket_id +:+ " " +:+ ticket_url);
          ERROR_TEMPLATE := fun error_message error_id =>
                              Ok (error_message +:+ " " +:+ error_id) |} |}.

Definition empty_bot_env : BotEnv :=
  {| pipeline := empty_env; bot_calls := []; pending := []; saved := [] |}.

(** Slack, the answer template and the database session all work. *)
Definition services_work (self : SlackBot) : Prop :=
  (forall channel text thread_ts,
      exists ts, chat_postMessage (client self) channel text thread_ts = Ok ts) /\
  (forall channel ts text blocks, chat_update (client self) channel ts text blocks = Ok tt) /\
  (forall answer team tags,
      exists text, KNOWLEDGE_BASE_FOUND_TEMPLATE (templates self) answer team tags = Ok text) /\
  (forall row, add_raises (db_session self) row = None) /\
  (forall rows, commit_raises (db_session self) rows = None).

(** A bot whose Slack client, templates and session all work. *)
Definition working_bot (w : World) (tools : list JiraTool) : SlackBot :=
  {| client := {| chat_postMessage := fun _ _ _ => Ok "1700000000.0001";
                  chat_update := fun _ _ _ _ => Ok tt |};
     supervisor := w;
     jira_tools := tools;
     db_session := {| add_raises := fun _ => None;
                      commit_raises := fun _ => None;
                      rollback_raises := None |};
     templates :=
       {| KNOWLEDGE_BASE_FOUND_TEMPLATE := fun answer team tags => Ok answer;
          TICKET_CREATED_TEMPLATE := fun ticket_id _ _ _ ticket_url _ =>
                                       Ok (ticket_id +:+ " " +:+ ticket_url);
          ERROR_TEMPLATE := fun error_message error_id =>
                              Ok (error_message +:+ " " +:+ error_id) |} |}.

(** A session that cannot commit but can roll back. *)
Definition failing_commit_bot (w : World) : SlackBot :=
  {| client := client (working_bot w []);
     supervisor := w;
     jira_tools := [];
     db_session := {| add_raises := fun _ => None;
                      commit_raises := fun _ => Some (Exception "database: connection lost");
                      rollback_raises := None |};
     templates := templates (working_bot w []) |}.

(** * Properties *)

(** ** The monad *)

Lemma bind_ok {A B : Type} (m : M A) (f : A -> M B) (s s' : Env) (a : A) :
  m s = (Ok a, s') -> bind m f s = f a s'.
Proof. intros H. unfold bind. now rewrite H. Qed.

Lemma bind_raise {A B : Type} (m : M A) (f : A -> M B) (s s' : Env) (e : Exn) :
  m s = (Raise e, s') -> bind m f s = (Raise e, s').
Proof. intros H. unfold bind. now rewrite H. Qed.

(** ** Python strings *)

Lemma take_length (n : nat) (s : string) :
  (n <= String.length s)%nat -> String.length (Py.take n s) = n.
Proof.
  revert s. induction n as [|n IH]; intros s Hn; [reflexivity|].
  destruct s as [|c t]; simpl in *; [lia|].
  rewrite IH; [reflexivity|lia].
Qed.

Lemma take_prefix (n : nat) (s : string) :
  exists rest, s = Py.take n s +:+ rest.
Proof.
  revert s. induction n as [|n IH]; intros s.
  - exists s. reflexivity.
  - destruct s as [|c t]; simpl.
    + exists EmptyString. reflexivity.
    + destruct (IH t) as [rest Hrest]. exists rest.
      change (String c t = String c (Py.take n t +:+ rest)). now f_equal.
Qed.

Lemma append_length (a b : string) :
  String.length (a +:+ b) = (String.length a + String.length b)%nat.
Proof.
  induction a as [|c a IH]; [reflexivity|].
  change (String.length (String c (a +:+ b)) = S (String.length a + String.length b)).
  simpl. now rewrite IH.
Qed.

Lemma split_once_contains (sep : ascii) (s : string) :
  Py.contains (String sep EmptyString) s = true <-> is_Some (Py.split_once sep s).
Proof.
  induction s as [|c t IH]; simpl.
  - split; [discriminate|intros [x Hx]; discriminate].
  - rewrite Ascii.eqb_sym. destruct (Ascii.eqb c sep) eqn:E; simpl.
    + split; [eauto|reflexivity].
    + rewrite IH. destruct (Py.split_once sep t) as [[k v]|].
      * split; eauto.
      * split; intros [x Hx]; discriminate.
Qed.

(** ** The cache wrapper never raises *)

Lemma RedisCache_get_run (w : World) (key : string) (s : Env) :
  RedisCache.get w key s =
  (Ok (match redis_get_raises w key with
       | Some _ => None
       | None => snd <$> redis s !! key
       end),
   log (RedisGet key) s).
Proof.
  unfold RedisCache.get, try_except, bind, RedisCache.client_get, ret.
  destruct (redis_get_raises w key); [reflexivity|].
  destruct (redis s !! key) as [[ttl v]|]; reflexivity.
Qed.

Lemma RedisCache_set_run (w : World) (key : string) (value : list KnowledgeMatch)
    (ttl : Z) (s : Env) :
  RedisCache.set w key value ttl s =
  match redis_setex_raises w key with
  | Some _ => (Ok false, log (RedisSetex key ttl value) s)
  | None => (Ok true, {| redis := <[key := (ttl, value)]> (redis s);
                         calls := calls s ++ [RedisSetex key ttl value] |})
  end.
Proof.
  unfold RedisCache.set, try_except, RedisCache.client_setex, ret.
  destruct (redis_setex_raises w key); reflexivity.
Qed.

(** ** The retriever's search *)

Lemma relevance_of_cases (d : Q) :
  (VectorStore.relevance_of d = "high" /\ (d < 3 # 10)%Q) \/
  (VectorStore.relevance_of d = "medium" /\ (3 # 10 <= d)%Q /\ (d < 6 # 10)%Q) \/
  (VectorStore.relevance_of d = "low" /\ (6 # 10 <= d)%Q).
Proof.
  unfold VectorStore.relevance_of.
  destruct (Qlt_le_dec d (3 # 10)) as [H3|H3]; [left; split; [reflexivity|exact H3]|].
  destruct (Qlt_le_dec d (6 # 10)) as [H6|H6].
  - right; left. split; [reflexivity|]. split; assumption.
  - right; right. split; [reflexivity|assumption].
Qed.


Lemma format_result_tier (results : QueryResult) (i : nat) (r : KnowledgeMatch) :
  VectorStore.format_result results i = Ok r ->
  km_relevance r = VectorStore.relevance_of (km_score r).
Proof.
  unfold VectorStore.format_result, rbind.
  destruct (index (qr_metadatas results) 0) as [mds|]; [|discriminate].
  destruct (index mds i) as [metadata|]; [|discriminate].
  destruct (index (qr_distances results) 0) as [ds|]; [|discriminate].
  destruct (index ds i) as [distance|]; [|discriminate].
  destruct (VectorStore.get_default (md_tags metadata) (Ok (JArray []))) as [tags|];
    [|discriminate].
  intros H. injection H as <-. reflexivity.
Qed.

Lemma format_loop_tier (results : QueryResult) (indices : list nat)
    (rs : list KnowledgeMatch) (r : KnowledgeMatch) :
  VectorStore.format_loop results indices = Ok rs -> In r rs ->
  km_relevance r = VectorStore.relevance_of (km_score r).
Proof.
  revert rs. induction indices as [|i rest IH]; intros rs Hloop Hin.
  - injection Hloop as <-. destruct Hin.
  - simpl in Hloop. unfold rbind in Hloop.
    destruct (VectorStore.format_result results i) as [r0|] eqn:E0; [|discriminate].
    destruct (VectorStore.format_loop results rest) as [rs0|]; [|discriminate].
    injection Hloop as <-. destruct Hin as [<-|Hin].
    + eapply format_result_tier; eassumption.
    + eapply IH; [reflexivity|exact Hin].
Qed.

Lemma format_results_tier (results : option QueryResult)
    (rs : list KnowledgeMatch) (r : KnowledgeMatch) :
  VectorStore.format_results results = Ok rs -> In r rs ->
  km_relevance r = VectorStore.relevance_of (km_score r).
Proof.
  unfold VectorStore.format_results. destruct results as [res|].
  - destruct (qr_ids res) as [|ids0 ?].
    + intros H. injection H as <-. intros [].
    + apply format_loop_tier.
  - intros H. injection H as <-. intros [].
Qed.

(** [search] has caught every exception, leaves the Redis contents alone,
    and what it returns is either the formatted answer of the collection
    or the empty list. *)
Lemma search_run (w : World) (query : string) (k : nat) (s : Env) :
  exists results s',
    VectorStore.search w query k s = (Ok results, s') /\
    redis s' = redis s /\
    (forall r, In r results ->
               km_relevance r = VectorStore.relevance_of (km_score r)) /\
    (exists more, calls s' = calls s ++ EmbedQuery query :: more /\
                  forall c, In c more -> exists v n, c = CollectionQuery v n).
Proof.
  unfold VectorStore.search, try_except, bind, call, lift, ret.
  destruct (embed_query w query) as [v|e].
  - destruct (collection_query w v k) as [res|e].
    + destruct (VectorStore.format_results res) as [rs|e] eqn:E.
      * exists rs. eexists. split; [reflexivity|]. split; [reflexivity|]. split.
        -- intros r Hr. eapply format_results_tier; eassumption.
        -- exists [CollectionQuery v k]. simpl. rewrite <- app_assoc. split; [reflexivity|].
           intros c [<-|[]]. eauto.
      * exists []. eexists. split; [reflexivity|]. split; [reflexivity|]. split.
        -- intros r [].
        -- exists [CollectionQuery v k]. simpl. rewrite <- app_assoc. split; [reflexivity|].
           intros c [<-|[]]. eauto.
    + exists []. eexists. split; [reflexivity|]. split; [reflexivity|]. split.
      * intros r [].
      * exists [CollectionQuery v k]. simpl. rewrite <- app_assoc. split; [reflexivity|].
        intros c [<-|[]]. eauto.
  - exists []. eexists. split; [reflexivity|]. split; [reflexivity|]. split.
    + intros r [].
    + exists []. split; [reflexivity|]. intros c [].
Qed.


(** The tiers at the boundary values of the specification. *)
Example relevance_of_boundaries :
  VectorStore.relevance_of (299 # 1000) = "high" /\
  VectorStore.relevance_of (3 # 10) = "medium" /\
  VectorStore.relevance_of (599 # 1000) = "medium" /\
  VectorStore.relevance_of (6 # 10) = "low".
Proof. repeat split. Qed.


(** ** The knowledge agent *)

Lemma truthy_list_false {A : Type} (l : list A) : Py.truthy_list l = false <-> l = [].
Proof. destruct l; simpl; split; intros H; congruence. Qed.

Lemma truthy_list_true {A : Type} (l : list A) : Py.truthy_list l = true <-> l <> [].
Proof. destruct l; simpl; split; intros H; congruence. Qed.

(** The miss path of [search_knowledge_base], from the state in which the
    cache lookup is already logged. *)
Lemma search_and_cache_run (w : World) (query : string) (k : nat) (s0 : Env) :
  exists results s1 s2,
    VectorStore.search w query k s0 = (Ok results, s1) /\
    (results <- VectorStore.search w query k ;;
     _ <- (if Py.truthy_list results
           then RedisCache.set w (KnowledgeAgent.cache_key query) results 3600
           else ret false) ;;
     ret results) s0 = (Ok results, s2) /\
    (results = [] -> s2 = s1) /\
    (results <> [] ->
     calls s2 = calls s1 ++ [RedisSetex (KnowledgeAgent.cache_key query) 3600 results] /\
     redis s2 = match redis_setex_raises w (KnowledgeAgent.cache_key query) with
                | None => <[KnowledgeAgent.cache_key query := (3600%Z, results)]> (redis s0)
                | Some _ => redis s0
                end).
Proof.
  destruct (search_run w query k s0) as (results & s1 & Hs & Hredis & _ & _).
  exists results, s1.
  destruct results as [|r rs].
  - exists s1. split; [exact Hs|]. split.
    + erewrite bind_ok by exact Hs. reflexivity.
    + split; [reflexivity|congruence].
  - destruct (redis_setex_raises w (KnowledgeAgent.cache_key query)) as [e|] eqn:Eset.
    + eexists. split; [exact Hs|]. split.
      * erewrite bind_ok by exact Hs. simpl Py.truthy_list. cbv iota.
        unfold bind at 1. rewrite RedisCache_set_run, Eset. reflexivity.
      * split; [discriminate|]. intros _. simpl. rewrite Hredis. split; reflexivity.
    + eexists. split; [exact Hs|]. split.
      * erewrite bind_ok by exact Hs. simpl Py.truthy_list. cbv iota.
        unfold bind at 1. rewrite RedisCache_set_run, Eset. reflexivity.
      * split; [discriminate|]. intros _. simpl. rewrite Hredis. split; reflexivity.
Qed.

(** C7.  [search_knowledge_base] first asks the cache for the key
    "kb_search:" followed by the question.  A hit (a stored candidate
    set that is not empty, as every set this function stores is) is
    returned as it is and the only call made is that cache lookup.  On a
    miss (no entry, a failing cache, or an empty stored list) the backend is
    searched after the lookup, its candidate set is returned, and the set
    is written to the cache under the same key with TTL 3600 exactly when
    it is not empty. *)
Theorem search_knowledge_base_cache_protocol (w : World) (query : string)
    (k : nat) (s : Env) :
  let key := "kb_search:" +:+ query in
  let s0 := {| redis := redis s; calls := calls s ++ [RedisGet key] |} in
  exists cached_result,
    RedisCache.get w key s = (Ok cached_result, s0) /\
    (forall cached,
        cached_result = Some cached -> cached <> [] ->
        KnowledgeAgent.search_knowledge_base w query k s = (Ok cached, s0)) /\
    (cache_holds_candidates s ->
     forall cached,
       cached_result = Some cached ->
       KnowledgeAgent.search_knowledge_base w query k s = (Ok cached, s0)) /\
    (cached_result = None \/ cached_result = Some [] ->
     exists results s1 s2,
       VectorStore.search w query k s0 = (Ok results, s1) /\
       KnowledgeAgent.search_knowledge_base w query k s = (Ok results, s2) /\
       (results = [] -> s2 = s1) /\
       (results <> [] ->
        calls s2 = calls s1 ++ [RedisSetex key 3600 results] /\
        redis s2 = match redis_setex_raises w key with
                   | None => <[key := (3600%Z, results)]> (redis s)
                   | Some _ => redis s
                   end)).
Proof.
  intros key s0.
  pose proof (RedisCache_get_run w key s) as Hget.
  set (cached_result := match redis_get_raises w key with
                        | Some _ => None
                        | None => snd <$> redis s !! key
                        end) in Hget.
  exists cached_result. split; [exact Hget|].
  assert (Hmiss : cached_result = None \/ cached_result = Some [] ->
          exists results s1 s2,
            VectorStore.search w query k s0 = (Ok results, s1) /\
            KnowledgeAgent.search_knowledge_base w query k s = (Ok results, s2) /\
            (results = [] -> s2 = s1) /\
            (results <> [] ->
             calls s2 = calls s1 ++ [RedisSetex key 3600 results] /\
             redis s2 = match redis_setex_raises w key with
                        | None => <[key := (3600%Z, results)]> (redis s)
                        | Some _ => redis s
                        end)).
  { intros Hfalsy.
    destruct (search_and_cache_run w query k s0) as (results & s1 & s2 & Hs & Hrun & He & Hne).
    exists results, s1, s2. split; [exact Hs|]. split; [|split; assumption].
    unfold KnowledgeAgent.search_knowledge_base.
    erewrite bind_ok by exact Hget.
    destruct Hfalsy as [->| ->]; exact Hrun. }
  assert (Hhit : forall cached,
             cached_result = Some cached -> cached <> [] ->
             KnowledgeAgent.search_knowledge_base w query k s = (Ok cached, s0)).
  { intros cached Hc Hne.
    unfold KnowledgeAgent.search_knowledge_base.
    erewrite bind_ok by exact Hget. rewrite Hc.
    destruct cached as [|c cs]; [congruence|reflexivity]. }
  split; [exact Hhit|]. split; [|exact Hmiss].
  intros Hinv cached Hc. apply Hhit; [exact Hc|].
  unfold cached_result in Hc.
  destruct (redis_get_raises w key); [discriminate|].
  destruct (redis s !! key) as [[ttl value]|] eqn:Hk; [|discriminate].
  injection Hc as <-. exact (Hinv key ttl value Hk).
Qed.

(** A hit: the cached pod entry is returned after the cache lookup alone. *)
Lemma search_knowledge_base_cache_protocol_witness :
  KnowledgeAgent.search_knowledge_base
    (seeded_world (1 # 10) "") pod_question 3 (cached_env [pod_match (1 # 10) "high"]) =
  (Ok [pod_match (1 # 10) "high"],
   {| redis := redis (cached_env [pod_match (1 # 10) "high"]);
      calls := [RedisGet ("kb_search:" +:+ pod_question)] |}).
Proof.
  destruct (search_knowledge_base_cache_protocol
              (seeded_world (1 # 10) "") pod_question 3
              (cached_env [pod_match (1 # 10) "high"]))
    as (cached_result & Hget & Hhit & _).
  apply Hhit; [|discriminate].
  apply (f_equal fst) in Hget. vm_compute in Hget. now injection Hget as <-.
Defined.

(** [search_knowledge_base] never stores an empty candidate set, so in a
    cache that only it has written every stored set is a hit. *)
Lemma search_knowledge_base_keeps_cache_nonempty (w : World) (query : string) (k : nat)
    (s s' : Env) (candidates : list KnowledgeMatch) :
  cache_holds_candidates s ->
  KnowledgeAgent.search_knowledge_base w query k s = (Ok candidates, s') ->
  cache_holds_candidates s'.
Proof.
  intros Hinv Hrun. unfold KnowledgeAgent.search_knowledge_base in Hrun.
  erewrite bind_ok in Hrun by apply RedisCache_get_run.
  set (s0 := log (RedisGet (KnowledgeAgent.cache_key query)) s) in *.
  assert (Hmiss :
            (results <- VectorStore.search w query k ;;
             _ <- (if Py.truthy_list results
                   then RedisCache.set w (KnowledgeAgent.cache_key query) results 3600
                   else ret false) ;;
             ret results) s0 = (Ok candidates, s') ->
            cache_holds_candidates s').
  { intros Hm.
    destruct (search_and_cache_run w query k s0) as (results & s1 & s2 & Hs & Hr & He & Hne).
    destruct (search_run w query k s0) as (results' & s1' & Hs' & Hredis & _).
    rewrite Hs in Hs'. injection Hs' as <- <-.
    rewrite Hr in Hm. injection Hm as <- <-.
    destruct results as [|c cs].
    - rewrite (He eq_refl). intros key ttl value. rewrite Hredis. apply Hinv.
    - destruct Hne as [_ Hstore]; [discriminate|].
      intros key ttl value. rewrite Hstore.
      destruct (redis_setex_raises w (KnowledgeAgent.cache_key query)); [apply Hinv|].
      simpl. rewrite lookup_insert.
      destruct (decide (KnowledgeAgent.cache_key query = key)) as [_|_]; [|apply Hinv].
      intros H. injection H as _ <-. discriminate. }
  destruct (match redis_get_raises w (KnowledgeAgent.cache_key query) with
            | Some _ => None
            | None => snd <$> redis s !! KnowledgeAgent.cache_key query
            end) as [[|c cs]|]; simpl in Hrun; [exact (Hmiss Hrun)| |exact (Hmiss Hrun)].
  injection Hrun as _ <-. exact Hinv.
Qed.

Lemma search_knowledge_base_ok (w : World) (query : string) (k : nat) (s : Env) :
  exists candidates s1,
    KnowledgeAgent.search_knowledge_base w query k s = (Ok candidates, s1).
Proof.
  unfold KnowledgeAgent.search_knowledge_base.
  erewrite bind_ok by apply RedisCache_get_run.
  destruct (search_and_cache_run w query k (log (RedisGet (KnowledgeAgent.cache_key query)) s))
    as (results & s1 & s2 & _ & Hrun & _).
  destruct (match redis_get_raises w (KnowledgeAgent.cache_key query) with
            | Some _ => None
            | None => snd <$> redis s !! KnowledgeAgent.cache_key query
            end) as [[|c cs]|]; simpl; eauto.
Qed.

(** ** Joining the tags *)

Lemma format_matches_ok (rs : list KnowledgeMatch) (i : nat) :
  (forall r, In r rs -> joinable_tags r) ->
  exists entries, KnowledgeAgent.format_matches i rs = Ok entries.
Proof.
  revert i. induction rs as [|r rest IH]; intros i Hall; [simpl; eauto|].
  destruct (Hall r (or_introl eq_refl)) as [text Ht].
  destruct (IH (S i) (fun r' Hr' => Hall r' (or_intror Hr'))) as [entries He].
  simpl. unfold KnowledgeAgent.format_match. rewrite Ht. simpl. rewrite He. simpl. eauto.
Qed.


Lemma format_matches_joined (rs : list KnowledgeMatch) (i : nat) (entries : list string) :
  KnowledgeAgent.format_matches i rs = Ok entries ->
  forall r, In r rs -> joinable_tags r.
Proof.
  revert i entries. induction rs as [|r rest IH]; intros i entries H r' Hin; [destruct Hin|].
  simpl in H. unfold KnowledgeAgent.format_match in H.
  destruct (PyJson.join ", " (km_tags r)) as [text|e0] eqn:Ej; simpl in H; [|discriminate].
  destruct (KnowledgeAgent.format_matches (S i) rest) as [es|e1] eqn:Er; simpl in H;
    [|discriminate].
  destruct Hin as [<-|Hin]; [exists text; exact Ej|].
  eapply IH; eassumption.
Qed.

(** The text for the model can be built exactly when [join] accepts the
    tags of every match it lists. *)
Lemma formatted_ok_iff (rs : list KnowledgeMatch) :
  (exists text, formatted rs = Ok text) <-> (forall r, In r rs -> joinable_tags r).
Proof.
  unfold formatted, KnowledgeAgent.format_search_results. split.
  - intros [text H].
    destruct (KnowledgeAgent.format_matches 0 rs) as [entries|e] eqn:E; [|discriminate].
    eapply format_matches_joined; eassumption.
  - intros Hall. destruct (format_matches_ok rs 0 Hall) as [entries ->]. simpl. eauto.
Qed.




(** A list of strings is joined as [Py.join] joins it. *)
Lemma join_items_strings (tags : list string) (i : nat) :
  PyJson.join_items i (map JString tags) = Ok tags.
Proof.
  revert i. induction tags as [|t rest IH]; intros i; [reflexivity|].
  simpl. rewrite IH. reflexivity.
Qed.

Lemma string_tags_joinable (r : KnowledgeMatch) : string_tags r -> joinable_tags r.
Proof.
  intros [tags Ht]. unfold joinable_tags. rewrite Ht. simpl.
  rewrite join_items_strings. simpl. eauto.
Qed.

(** [answer_question] by cases on the candidate set, on the gate and on
    the text for the model. *)
Lemma answer_question_run (w : World) (question : string) (s : Env)
    (candidates : list KnowledgeMatch) (s1 : Env) :
  KnowledgeAgent.search_knowledge_base w question 3 s = (Ok candidates, s1) ->
  KnowledgeAgent.answer_question w question s =
  match candidates with
  | [] => (Ok kb_none, s1)
  | _ :: _ =>
      match List.filter KnowledgeAgent.passes_gate candidates with
      | [] => (Ok kb_low, s1)
      | best_match :: rest =>
          match formatted (best_match :: rest) with
          | Raise e => (Raise e, s1)
          | Ok text =>
              match knowledge_chain w question text with
              | Ok answer =>
                  (Ok (kb_answered answer best_match (best_match :: rest)),
                   log (KnowledgeInvoke question text) s1)
              | Raise (Exception msg) =>
                  (Ok (kb_failed msg), log (KnowledgeInvoke question text) s1)
              end
          end
      end
  end.
Proof.
  intros Hs. unfold KnowledgeAgent.answer_question.
  erewrite bind_ok by exact Hs.
  destruct candidates as [|c cs]; [reflexivity|].
  simpl Py.truthy_list. cbv iota. simpl negb. cbv iota.
  destruct (List.filter KnowledgeAgent.passes_gate (c :: cs)) as [|best rest]; [reflexivity|].
  unfold formatted, bind at 1, lift.
  destruct (KnowledgeAgent.format_search_results (best :: rest)) as [text|e]; [|reflexivity].
  unfold try_except, bind, call, ret.
  destruct (knowledge_chain w question text) as [answer|[msg]]; reflexivity.
Qed.



Lemma passes_gate_iff (r : KnowledgeMatch) :
  KnowledgeAgent.passes_gate r = true <->
  km_relevance r = "high" /\ (km_score r < 4 # 10)%Q.
Proof.
  unfold KnowledgeAgent.passes_gate.
  rewrite andb_true_iff, String.eqb_eq.
  destruct (Qlt_le_dec (km_score r) (4 # 10)) as [Hlt|Hge].
  - tauto.
  - split; [intros [_ H]; discriminate|].
    intros [_ Hlt]. exfalso. eapply Qlt_not_le; eassumption.
Qed.

(** Whatever the candidate set, a found answer comes from a match that
    passed the gate, and its confidence is that match's tier. *)
Lemma answer_question_found (w : World) (question : string) (s s' : Env) (kb : KbResult) :
  KnowledgeAgent.answer_question w question s = (Ok kb, s') ->
  kb_found kb = true ->
  exists best_match answer,
    kb_source kb = Some best_match /\ kb_answer kb = Some answer /\
    kb_confidence kb = km_relevance best_match /\
    KnowledgeAgent.passes_gate best_match = true.
Proof.
  intros Hrun Hfound.
  destruct (search_knowledge_base_ok w question 3 s) as (candidates & s1 & Hs).
  rewrite (answer_question_run _ _ _ _ _ Hs) in Hrun.
  destruct candidates as [|c cs].
  { injection Hrun as <- _. discriminate. }
  destruct (List.filter KnowledgeAgent.passes_gate (c :: cs)) as [|best rest] eqn:Ef.
  { injection Hrun as <- _. discriminate. }
  assert (Hbest : KnowledgeAgent.passes_gate best = true).
  { assert (Hin : In best (List.filter KnowledgeAgent.passes_gate (c :: cs)))
      by (rewrite Ef; left; reflexivity).
    apply filter_In in Hin. tauto. }
  destruct (formatted (best :: rest)) as [text|e]; [|discriminate].
  destruct (knowledge_chain w question text) as [answer|[msg]].
  - injection Hrun as <- _. exists best, answer. simpl. auto.
  - injection Hrun as <- _. discriminate.
Qed.

(** The tags of the source of a found answer were joined for the model. *)
Lemma answer_question_found_joinable (w : World) (question : string) (s s' : Env)
    (kb : KbResult) (source : KnowledgeMatch) :
  KnowledgeAgent.answer_question w question s = (Ok kb, s') ->
  kb_source kb = Some source -> joinable_tags source.
Proof.
  intros Hrun Hsource.
  destruct (search_knowledge_base_ok w question 3 s) as (candidates & s1 & Hs).
  rewrite (answer_question_run _ _ _ _ _ Hs) in Hrun.
  destruct candidates as [|c cs].
  { injection Hrun as <- _. discriminate. }
  destruct (List.filter KnowledgeAgent.passes_gate (c :: cs)) as [|best rest] eqn:Ef.
  { injection Hrun as <- _. discriminate. }
  destruct (formatted (best :: rest)) as [text|e] eqn:Et; [|discriminate].
  assert (Hjoin : joinable_tags best).
  { apply (proj1 (formatted_ok_iff (best :: rest))); [eauto|left; reflexivity]. }
  destruct (knowledge_chain w question text) as [answer|[msg]].
  - injection Hrun as <- _. simpl in Hsource. injection Hsource as <-. exact Hjoin.
  - injection Hrun as <- _. discriminate.
Qed.

(** ** The router *)

(** Python's [max] with a key returns the first item whose key is maximal. *)
Lemma max_by_first_maximum {A : Type} (f : A -> nat) (l : list A) (best : A) :
  exists i,
    (best :: l) !! i = Some (Py.max_by f best l) /\
    forall j y, (best :: l) !! j = Some y ->
                (f y <= f (Py.max_by f best l))%nat /\
                ((j < i)%nat -> (f y < f (Py.max_by f best l))%nat).
Proof.
  revert best. induction l as [|y ys IH]; intros best.
  - exists 0%nat. split; [reflexivity|].
    intros [|j] z Hz; simpl in Hz; [|discriminate].
    injection Hz as <-. simpl. lia.
  - simpl Py.max_by. destruct (f best <? f y)%nat eqn:E.
    + apply Nat.ltb_lt in E.
      destruct (IH y) as (i & Hi & Hall). exists (S i). split; [exact Hi|].
      intros [|j] z Hz.
      * injection Hz as <-. destruct (Hall 0%nat y eq_refl) as [Hle _]. lia.
      * destruct (Hall j z Hz) as [Hle Hlt]. split; [exact Hle|]. intros Hj. apply Hlt. lia.
    + apply Nat.ltb_ge in E.
      destruct (IH best) as (i & Hi & Hall). destruct i as [|i].
      * exists 0%nat. split; [exact Hi|].
        injection Hi as Hbest.
        intros [|[|j]] z Hz.
        -- injection Hz as <-. rewrite <- Hbest. lia.
        -- injection Hz as <-. rewrite <- Hbest. lia.
        -- destruct (Hall (S j) z Hz) as [Hle _]. split; [exact Hle|lia].
      * exists (S (S i)). split; [exact Hi|].
        intros [|[|j]] z Hz.
        -- injection Hz as <-. destruct (Hall 0%nat best eq_refl) as [Hle Hlt].
           split; [exact Hle|]. intros Hj. lia.
        -- injection Hz as <-. destruct (Hall 0%nat best eq_refl) as [Hle Hlt].
           assert (f best < f (Py.max_by f best ys))%nat by (apply Hlt; lia).
           lia.
        -- destruct (Hall (S j) z Hz) as [Hle Hlt]. split; [exact Hle|].
           intros Hj. apply Hlt. lia.
Qed.

(** The first maximum is unique: an item that dominates the list and
    strictly dominates what comes before it is the one [max] returns. *)
Lemma max_by_is_first_maximum {A : Type} (f : A -> nat) (l : list A) (best x : A) (i : nat) :
  (best :: l) !! i = Some x ->
  (forall j y, (best :: l) !! j = Some y ->
               (f y <= f x)%nat /\ ((j < i)%nat -> (f y < f x)%nat)) ->
  Py.max_by f best l = x.
Proof.
  intros Hx Hdom.
  destruct (max_by_first_maximum f l best) as (i' & Hi' & Hall).
  destruct (Hdom i' _ Hi') as [Hle1 Hlt1].
  destruct (Hall i _ Hx) as [Hle2 Hlt2].
  destruct (Nat.lt_trichotomy i i') as [Hlt|[Heq|Hgt]].
  - specialize (Hlt2 Hlt). lia.
  - subst i'. congruence.
  - specialize (Hlt1 Hgt). lia.
Qed.

Lemma max_of_max_by {A : Type} (f : A -> nat) (l : list A) (best : A) :
  Py.max_of (f best) (map f l) = f (Py.max_by f best l).
Proof.
  unfold Py.max_of. revert best. induction l as [|y ys IH]; intros best; [reflexivity|].
  simpl. destruct (f best <? f y)%nat eqn:E.
  - apply Nat.ltb_lt in E. rewrite Nat.max_r by lia. apply IH.
  - apply Nat.ltb_ge in E. rewrite Nat.max_l by lia. apply IH.
Qed.

(** The score of a team is the number of its keywords that occur in the
    text; a keyword that occurs several times counts once. *)
Lemma keyword_score_count (keywords : list string) (text : string) :
  RouterAgent.keyword_score keywords text =
  length (List.filter (fun keyword => Py.contains keyword text) keywords).
Proof.
  unfold RouterAgent.keyword_score.
  assert (H : forall n,
             fold_left (fun score keyword => if Py.contains keyword text then S score else score)
                       keywords n =
             (n + length (List.filter (fun keyword => Py.contains keyword text) keywords))%nat).
  { induction keywords as [|kw kws IH]; intros n; simpl; [lia|].
    destruct (Py.contains kw text); simpl; rewrite IH; lia. }
  apply H.
Qed.

Example repeated_keyword_counts_once :
  RouterAgent.team_scores "pod pod jenkins gitlab" =
  [("platform", 1%nat); ("devops", 2%nat); ("database", 0%nat);
   ("security", 0%nat); ("network", 0%nat)].
Proof. reflexivity. Qed.

Lemma team_scores_teams (text : string) :
  map fst (RouterAgent.team_scores text) =
  ["platform"; "devops"; "database"; "security"; "network"].
Proof. reflexivity. Qed.

Lemma keyword_match_none (text : string) :
  (forall team n, In (team, n) (RouterAgent.team_scores text) -> n = 0%nat) ->
  RouterAgent._keyword_match text = None.
Proof.
  intros Hzero. unfold RouterAgent._keyword_match.
  destruct (RouterAgent.team_scores text) as [|first rest] eqn:E; [reflexivity|].
  rewrite (max_of_max_by snd rest first).
  destruct (max_by_first_maximum snd rest first) as (i & Hi & _).
  destruct (Py.max_by snd first rest) as [team n].
  apply list_elem_of_lookup_2, list_elem_of_In in Hi.
  rewrite (Hzero team n Hi). reflexivity.
Qed.

Lemma keyword_match_first_maximum (text : string) (i : nat) (team : string) (n : nat) :
  RouterAgent.team_scores text !! i = Some (team, n) ->
  (0 < n)%nat ->
  (forall j t m, RouterAgent.team_scores text !! j = Some (t, m) ->
                 (m <= n)%nat /\ ((j < i)%nat -> (m < n)%nat)) ->
  RouterAgent._keyword_match text = Some team.
Proof.
  intros Hi Hpos Hdom. unfold RouterAgent._keyword_match.
  destruct (RouterAgent.team_scores text) as [|first rest] eqn:E; [discriminate|].
  rewrite (max_of_max_by snd rest first).
  rewrite (max_by_is_first_maximum snd rest first (team, n) i Hi).
  - simpl. apply Nat.ltb_lt in Hpos. now rewrite Hpos.
  - intros j [t m] Hj. simpl. eapply Hdom. exact Hj.
Qed.

(** A keyword decision names one of the five teams, with a positive score. *)
Lemma keyword_match_some (text team : string) :
  RouterAgent._keyword_match text = Some team ->
  exists i n,
    RouterAgent.team_scores text !! i = Some (team, n) /\ (0 < n)%nat /\
    forall j t m, RouterAgent.team_scores text !! j = Some (t, m) ->
                  (m <= n)%nat /\ ((j < i)%nat -> (m < n)%nat).
Proof.
  unfold RouterAgent._keyword_match.
  destruct (RouterAgent.team_scores text) as [|first rest] eqn:E; [discriminate|].
  rewrite (max_of_max_by snd rest first).
  destruct (max_by_first_maximum snd rest first) as (i & Hi & Hall).
  destruct (Py.max_by snd first rest) as [t n]. simpl.
  destruct (0 <? n)%nat eqn:Hpos; [|discriminate].
  intros H. injection H as <-. exists i, n. split; [exact Hi|].
  split; [now apply Nat.ltb_lt|].
  intros j t' m Hj. apply (Hall j (t', m) Hj).
Qed.

Lemma keyword_team_truthy (text team : string) :
  RouterAgent._keyword_match text = Some team -> Py.truthy_str team = true.
Proof.
  intros H. destruct (keyword_match_some text team H) as (i & n & Hi & _).
  assert (Hin : In team (map fst (RouterAgent.team_scores text))).
  { apply list_elem_of_lookup_2, list_elem_of_In in Hi.
    apply (in_map fst) in Hi. exact Hi. }
  rewrite team_scores_teams in Hin. simpl in Hin.
  destruct Hin as [<-|[<-|[<-|[<-|[<-|[]]]]]]; reflexivity.
Qed.

(** [route_inquiry] by cases: a keyword decision calls no collaborator;
    without one the router chain is called once, and its failure gives the
    default decision. *)
Lemma route_inquiry_run (w : World) (question category : string) (s : Env) :
  RouterAgent.route_inquiry w question category s =
  match RouterAgent._keyword_match (Py.lower question) with
  | Some team => (Ok (keyword_decision team), s)
  | None =>
      match router_chain w question (Py.or_str category "general") with
      | Ok response =>
          (Ok (llm_decision response),
           log (RouterInvoke question (Py.or_str category "general")) s)
      | Raise _ =>
          (Ok default_decision,
           log (RouterInvoke question (Py.or_str category "general")) s)
      end
  end.
Proof.
  unfold RouterAgent.route_inquiry.
  destruct (RouterAgent._keyword_match (Py.lower question)) as [team|] eqn:E.
  - rewrite (keyword_team_truthy _ _ E). reflexivity.
  - unfold try_except, bind, call, ret.
    destruct (router_chain w question (Py.or_str category "general")); reflexivity.
Qed.

Lemma route_inquiry_ok (w : World) (question category : string) (s : Env) :
  exists routing s', RouterAgent.route_inquiry w question category s = (Ok routing, s').
Proof.
  rewrite route_inquiry_run.
  destruct (RouterAgent._keyword_match (Py.lower question)); [eauto|].
  destruct (router_chain w question (Py.or_str category "general")); eauto.
Qed.

(** C4.  Keyword routing scores the five teams in the order platform,
    devops, database, security, network; a team's score is the number of
    its keywords that occur as literal substrings of the lower-cased
    question.  If every score is 0 there is no keyword decision.
    Otherwise the team whose score is maximal and strictly above the
    score of every team before it in that order is the decision, with
    method "keyword" and confidence "high", and no collaborator is
    called. *)
Theorem keyword_routing_first_maximum (w : World) (question category : string) (s : Env) :
  let text := Py.lower question in
  let scores := RouterAgent.team_scores text in
  scores =
    map (fun tk => (fst tk,
                    length (List.filter (fun keyword => Py.contains keyword text) (snd tk))))
        RouterAgent.TEAMS /\
  map fst scores = ["platform"; "devops"; "database"; "security"; "network"] /\
  ((forall team n, In (team, n) scores -> n = 0%nat) ->
   RouterAgent._keyword_match text = None /\
   exists routing s',
     RouterAgent.route_inquiry w question category s = (Ok routing, s') /\
     rd_method routing <> "keyword") /\
  (forall i team n,
      scores !! i = Some (team, n) ->
      (0 < n)%nat ->
      (forall j t m, scores !! j = Some (t, m) ->
                     (m <= n)%nat /\ ((j < i)%nat -> (m < n)%nat)) ->
      RouterAgent._keyword_match text = Some team /\
      RouterAgent.route_inquiry w question category s =
      (Ok {| rd_team := team; rd_method := "keyword"; rd_confidence := "high";
             rd_reason := "Matched keywords for " +:+ team +:+ " team" |}, s)) /\
  ((exists team n, In (team, n) scores /\ (0 < n)%nat) ->
   exists i team n,
     scores !! i = Some (team, n) /\ (0 < n)%nat /\
     (forall j t m, scores !! j = Some (t, m) ->
                    (m <= n)%nat /\ ((j < i)%nat -> (m < n)%nat))).
Proof.
  intros text scores. split; [|split; [|split; [|split]]].
  - unfold scores, RouterAgent.team_scores. apply map_ext.
    intros [team keywords]. simpl. now rewrite keyword_score_count.
  - apply team_scores_teams.
  - intros Hzero. pose proof (keyword_match_none text Hzero) as Hnone.
    split; [exact Hnone|].
    rewrite route_inquiry_run. fold text. rewrite Hnone.
    destruct (router_chain w question (Py.or_str category "general"));
      eexists; eexists; (split; [reflexivity|discriminate]).
  - intros i team n Hi Hpos Hdom.
    pose proof (keyword_match_first_maximum text i team n Hi Hpos Hdom) as Hsome.
    split; [exact Hsome|].
    rewrite route_inquiry_run. fold text. rewrite Hsome. reflexivity.
  - intros (team & n & Hin & Hpos).
    destruct (RouterAgent._keyword_match text) as [winner|] eqn:E.
    + destruct (keyword_match_some text winner E) as (i & m & Hi & Hm & Hdom).
      exists i, winner, m. auto.
    + exfalso. unfold RouterAgent._keyword_match in E. fold scores in E.
      destruct scores as [|first rest] eqn:Es; [destruct Hin|].
      rewrite (max_of_max_by snd rest first) in E.
      destruct (max_by_first_maximum snd rest first) as (i & _ & Hall).
      apply list_elem_of_In, list_elem_of_lookup_1 in Hin. destruct Hin as [j Hj].
      destruct (Hall j (team, n) Hj) as [Hle _]. simpl in Hle.
      destruct (0 <? snd (Py.max_by snd first rest))%nat eqn:E0; [discriminate|].
      apply Nat.ltb_ge in E0. lia.
Qed.

(** devops scores 2 (jenkins, pipeline), platform 1 (pod) and network 1
    (the "ip" of pipeline): devops is the decision. *)
Lemma keyword_routing_first_maximum_witness :
  RouterAgent._keyword_match (Py.lower "Jenkins PIPELINE cannot reach the pod") = Some "devops" /\
  RouterAgent.route_inquiry dead_world "Jenkins PIPELINE cannot reach the pod" "" empty_env =
  (Ok {| rd_team := "devops"; rd_method := "keyword"; rd_confidence := "high";
         rd_reason := "Matched keywords for devops team" |}, empty_env).
Proof.
  apply (keyword_routing_first_maximum dead_world "Jenkins PIPELINE cannot reach the pod"
           "" empty_env) with (i := 1%nat) (n := 2%nat).
  - reflexivity.
  - lia.
  - intros [|[|[|[|[|j]]]]] t m Hj; vm_compute in Hj; try discriminate;
      injection Hj as _ <-; lia.
Defined.

Example equal_top_scores_first_team_wins :
  RouterAgent.team_scores "the pipeline is red" =
  [("platform", 0%nat); ("devops", 1%nat); ("database", 0%nat);
   ("security", 0%nat); ("network", 1%nat)] /\
  RouterAgent._keyword_match "the pipeline is red" = Some "devops".
Proof. split; reflexivity. Qed.

(** ** The supervisor *)

Lemma classify_inquiry_run (w : World) (question : string) (s : Env) :
  SupervisorAgent._classify_inquiry w question s =
  (Ok (match classifier_chain w question with
       | Ok response => parsed response
       | Raise _ => SupervisorAgent.default_classification
       end),
   log (ClassifierInvoke question) s).
Proof.
  unfold SupervisorAgent._classify_inquiry, try_except, bind, call, ret, parsed.
  destruct (classifier_chain w question); reflexivity.
Qed.

(** One run of the pipeline whose knowledge stage returned, stage by
    stage: the classification, the knowledge result computed after it,
    then either branch. *)
Lemma process_inquiry_run (w : World) (question user_id channel_id : string)
    (environment deadline : option string) (s : Env) (kb_result : KbResult) (s2 : Env) :
  KnowledgeAgent.answer_question w question (log (ClassifierInvoke question) s) =
    (Ok kb_result, s2) ->
  exists classification,
    SupervisorAgent._classify_inquiry w question s =
      (Ok classification, log (ClassifierInvoke question) s) /\
    ((SupervisorAgent.answers_from_kb kb_result = true /\
      SupervisorAgent.process_inquiry w question user_id channel_id environment deadline s =
      (Ok (answer_result w question user_id channel_id environment deadline
             classification kb_result), s2)) \/
     (SupervisorAgent.answers_from_kb kb_result = false /\
      exists routing s3,
        RouterAgent.route_inquiry w question
          (default "" (cl_category classification)) s2 = (Ok routing, s3) /\
        SupervisorAgent.process_inquiry w question user_id channel_id environment deadline s =
        (Ok (ticket_result w question user_id channel_id environment deadline
               classification kb_result routing), s3))).
Proof.
  intros Hkb.
  pose proof (classify_inquiry_run w question s) as Hc.
  set (classification := match classifier_chain w question with
                         | Ok response => parsed response
                         | Raise _ => SupervisorAgent.default_classification
                         end) in Hc.
  exists classification. split; [exact Hc|].
  unfold SupervisorAgent.process_inquiry.
  erewrite bind_ok by exact Hc. erewrite bind_ok by exact Hkb.
  destruct (SupervisorAgent.answers_from_kb kb_result) eqn:Eb.
  - left. split; reflexivity.
  - right. split; [reflexivity|].
    destruct (route_inquiry_ok w question (default "" (cl_category classification)) s2)
      as (routing & s3 & Hr).
    exists routing, s3. split; [exact Hr|].
    erewrite bind_ok by exact Hr. reflexivity.
Qed.

(** An exception of the knowledge stage leaves [process_inquiry]: nothing
    around the call catches it. *)
Lemma process_inquiry_raise (w : World) (question user_id channel_id : string)
    (environment deadline : option string) (s s2 : Env) (e : Exn) :
  KnowledgeAgent.answer_question w question (log (ClassifierInvoke question) s) =
    (Raise e, s2) ->
  SupervisorAgent.process_inquiry w question user_id channel_id environment deadline s =
    (Raise e, s2).
Proof.
  intros Hkb. unfold SupervisorAgent.process_inquiry.
  erewrite bind_ok by apply classify_inquiry_run.
  erewrite bind_raise by exact Hkb. reflexivity.
Qed.

(** A run of [process_inquiry] that returned, stage by stage. *)
Lemma process_inquiry_returned (w : World) (question user_id channel_id : string)
    (environment deadline : option string) (s : Env) (r : PipelineResult) (s' : Env) :
  SupervisorAgent.process_inquiry w question user_id channel_id environment deadline s =
    (Ok r, s') ->
  exists classification kb_result s2,
    SupervisorAgent._classify_inquiry w question s =
      (Ok classification, log (ClassifierInvoke question) s) /\
    KnowledgeAgent.answer_question w question (log (ClassifierInvoke question) s) =
      (Ok kb_result, s2) /\
    ((SupervisorAgent.answers_from_kb kb_result = true /\
      SupervisorAgent.process_inquiry w question user_id channel_id environment deadline s =
      (Ok (answer_result w question user_id channel_id environment deadline
             classification kb_result), s2)) \/
     (SupervisorAgent.answers_from_kb kb_result = false /\
      exists routing s3,
        RouterAgent.route_inquiry w question
          (default "" (cl_category classification)) s2 = (Ok routing, s3) /\
        SupervisorAgent.process_inquiry w question user_id channel_id environment deadline s =
        (Ok (ticket_result w question user_id channel_id environment deadline
               classification kb_result routing), s3))).
Proof.
  intros Hrun.
  destruct (KnowledgeAgent.answer_question w question (log (ClassifierInvoke question) s))
    as [[kb|e] s2] eqn:Hkb.
  - destruct (process_inquiry_run w question user_id channel_id environment deadline s
                kb s2 Hkb) as (classification & Hc & Hbranch).
    exists classification, kb, s2. auto.
  - rewrite (process_inquiry_raise w question user_id channel_id environment deadline
               s s2 e Hkb) in Hrun.
    discriminate.
Qed.


Lemma answers_from_kb_iff (kb : KbResult) :
  SupervisorAgent.answers_from_kb kb = true <->
  kb_found kb = true /\ (kb_confidence kb = "high" \/ kb_confidence kb = "medium").
Proof.
  unfold SupervisorAgent.answers_from_kb.
  rewrite andb_true_iff, orb_true_iff, !String.eqb_eq. reflexivity.
Qed.

(** C1.  Every result [process_inquiry] returns has exactly one branch
    populated.  When the knowledge result has found = true and confidence
    "high" or "medium", the action is "answer_from_kb" with the answer and
    the source of the knowledge result, no routing decision, no ticket
    draft, and the router is not called.  Otherwise the action is
    "create_ticket", there is no answer, the routing decision is what
    [route_inquiry] returns for the question and the classification's
    category (the empty string when the classification has none), and the
    ticket draft is synthesised for that decision's team. *)
Theorem process_inquiry_exactly_one_branch (w : World)
    (question user_id channel_id : string) (environment deadline : option string)
    (s : Env) (r : PipelineResult) (s' : Env) :
  SupervisorAgent.process_inquiry w question user_id channel_id environment deadline s =
    (Ok r, s') ->
  exists s1 s2,
    SupervisorAgent._classify_inquiry w question s = (Ok (r_classification r), s1) /\
    KnowledgeAgent.answer_question w question s1 = (Ok (r_knowledge_base r), s2) /\
    (kb_found (r_knowledge_base r) = true /\
     (kb_confidence (r_knowledge_base r) = "high" \/
      kb_confidence (r_knowledge_base r) = "medium") ->
     r_action r = "answer_from_kb" /\
     (exists answer source,
         kb_answer (r_knowledge_base r) = Some answer /\
         kb_source (r_knowledge_base r) = Some source /\
         r_answer r = Some (Some answer) /\ r_source r = Some (Some source)) /\
     r_routing r = None /\ r_assigned_team r = None /\ r_ticket_details r = None /\
     s' = s2) /\
    (~ (kb_found (r_knowledge_base r) = true /\
        (kb_confidence (r_knowledge_base r) = "high" \/
         kb_confidence (r_knowledge_base r) = "medium")) ->
     r_action r = "create_ticket" /\ r_answer r = None /\ r_source r = None /\
     exists routing,
       RouterAgent.route_inquiry w question
         (default "" (cl_category (r_classification r))) s2 = (Ok routing, s') /\
       r_routing r = Some routing /\
       r_assigned_team r = Some (rd_team routing) /\
       r_ticket_details r =
         Some (SupervisorAgent._generate_ticket_details
                 question (r_classification r) (rd_team routing) environment deadline)) /\
    ((is_Some (r_answer r) /\ r_routing r = None /\ r_ticket_details r = None) \/
     (r_answer r = None /\ is_Some (r_routing r) /\ is_Some (r_ticket_details r))).
Proof.
  intros Hreturned.
  destruct (process_inquiry_returned w question user_id channel_id environment deadline s
              r s' Hreturned)
    as (classification & kb & s2 & Hc & Hkb & [[Hb Hrun]|[Hb (routing & s3 & Hr & Hrun)]]);
    rewrite Hrun in Hreturned; injection Hreturned as <- <-.
  - exists (log (ClassifierInvoke question) s), s2.
    split; [exact Hc|]. split; [exact Hkb|].
    split; [|split].
    + intros _. simpl. split; [reflexivity|].
      apply answers_from_kb_iff in Hb. destruct Hb as [Hfound _].
      destruct (answer_question_found _ _ _ _ _ Hkb Hfound) as (best & answer & Hs & Ha & _).
      split; [|auto]. exists answer, best. rewrite Ha, Hs. auto.
    + intros Hn. exfalso. apply Hn. now apply answers_from_kb_iff.
    + left. simpl. split; [eauto|auto].
  - exists (log (ClassifierInvoke question) s), s2.
    split; [exact Hc|]. split; [exact Hkb|].
    split; [|split].
    + intros Hy. apply answers_from_kb_iff in Hy. simpl in Hy. congruence.
    + intros _. simpl. split; [reflexivity|]. split; [reflexivity|]. split; [reflexivity|].
      exists routing. auto.
    + right. simpl. split; [reflexivity|]. split; eauto.
Qed.

(** The pod question with its entry at distance 0.1: the answer branch,
    and nothing of the ticket branch. *)
Lemma process_inquiry_exactly_one_branch_witness :
  exists r s',
    SupervisorAgent.process_inquiry (seeded_world (1 # 10) "") pod_question "U1" "C1"
      None None empty_env = (Ok r, s') /\
    r_action r = "answer_from_kb" /\
    r_routing r = None /\ r_assigned_team r = None /\ r_ticket_details r = None.
Proof.
  destruct (SupervisorAgent.process_inquiry (seeded_world (1 # 10) "") pod_question
              "U1" "C1" None None empty_env) as [[r|e] s'] eqn:E;
    [|exfalso; vm_compute in E; discriminate].
  assert (Hkb : kb_found (r_knowledge_base r) = true /\
                (kb_confidence (r_knowledge_base r) = "high" \/
                 kb_confidence (r_knowledge_base r) = "medium")).
  { vm_compute in E. injection E as <- _. split; [reflexivity|left; reflexivity]. }
  destruct (process_inquiry_exactly_one_branch _ _ _ _ _ _ _ _ _ E)
    as (s1 & s2 & _ & _ & Hyes & _ & _).
  destruct (Hyes Hkb) as (Ha & _ & Hr & Ht & Hd & _).
  exists r, s'. auto.
Defined.






(** A candidate at tier "high" whose stored tags are the JSON [null]
    passes the gate, and joining its tags for the model raises a
    [TypeError] that leaves [process_inquiry]: the text is built before
    the [try]. *)
Example null_tags_raise_out_of_process_inquiry :
  exists s',
    SupervisorAgent.process_inquiry null_tags_world pod_question "U1" "C1" None None empty_env =
    (Raise (Exception "TypeError: can only join an iterable"), s').
Proof. eexists. vm_compute. reflexivity. Qed.



(** The well-formed response of the specification. *)
Example parsed_well_formed :
  parsed ("URGENCY: high" +:+ Py.nl +:+ "CATEGORY: database" +:+ Py.nl +:+
          "NEEDS_TICKET: yes") =
  {| cl_urgency := Some "high"; cl_category := Some "database";
     cl_needs_ticket := Some true |}.
Proof. reflexivity. Qed.

(** C5, as stated, fails: an empty response, and a response with no
    labelled line, raise nothing in [_classify_inquiry]; the result is
    the classification with no field at all, not the fixed default. *)
Lemma classify_empty_response_counterexample :
  SupervisorAgent._classify_inquiry (seeded_world (1 # 10) "") "is the cluster ok?" empty_env =
    (Ok {| cl_urgency := None; cl_category := None; cl_needs_ticket := None |},
     log (ClassifierInvoke "is the cluster ok?") empty_env) /\
  SupervisorAgent._classify_inquiry
    (seeded_world (1 # 10) "Sorry, I cannot classify this.") "is the cluster ok?" empty_env =
    (Ok {| cl_urgency := None; cl_category := None; cl_needs_ticket := None |},
     log (ClassifierInvoke "is the cluster ok?") empty_env) /\
  {| cl_urgency := None; cl_category := None; cl_needs_ticket := None |} <>
  {| cl_urgency := Some "medium"; cl_category := Some "other";
     cl_needs_ticket := Some true |}.
Proof. split; [reflexivity|]. split; [reflexivity|discriminate]. Qed.

(** C5, amended.  [_classify_inquiry] never raises.  It returns the fixed
    default (urgency medium, category other, needs_ticket true) whenever
    the model call raises.  A response that comes back without an
    exception is parsed line by line, whatever its shape: the result holds
    the fields its labelled lines set and no others, so an empty response
    gives the classification with no field. *)
Theorem classify_inquiry_default_on_exception (w : World) (question : string) (s : Env) :
  exists classification,
    SupervisorAgent._classify_inquiry w question s =
      (Ok classification, log (ClassifierInvoke question) s) /\
    (forall e, classifier_chain w question = Raise e ->
               classification =
               {| cl_urgency := Some "medium"; cl_category := Some "other";
                  cl_needs_ticket := Some true |}) /\
    (forall response,
        classifier_chain w question = Ok response ->
        classification =
        fold_left SupervisorAgent.classify_line (Py.split (ascii_of_nat 10) response)
                  {| cl_urgency := None; cl_category := None; cl_needs_ticket := None |}) /\
    (classifier_chain w question = Ok "" ->
     classification =
     {| cl_urgency := None; cl_category := None; cl_needs_ticket := None |}).
Proof.
  rewrite classify_inquiry_run. eexists. split; [reflexivity|].
  split; [|split].
  - intros e ->. reflexivity.
  - intros response ->. reflexivity.
  - intros ->. reflexivity.
Qed.

(** The classifier chain times out: the default classification. *)
Lemma classify_inquiry_default_on_exception_witness :
  SupervisorAgent._classify_inquiry dead_world "is the cluster ok?" empty_env =
  (Ok {| cl_urgency := Some "medium"; cl_category := Some "other";
         cl_needs_ticket := Some true |},
   log (ClassifierInvoke "is the cluster ok?") empty_env).
Proof.
  destruct (classify_inquiry_default_on_exception dead_world "is the cluster ok?" empty_env)
    as (classification & Hrun & Hraise & _).
  rewrite Hrun. f_equal. f_equal. apply (Hraise (Exception "ollama: timeout")). reflexivity.
Defined.

(** ** Ticket details *)

Lemma lower_char_idempotent (c : ascii) :
  Py.lower_char (Py.lower_char c) = Py.lower_char c.
Proof. destruct c as [[] [] [] [] [] [] [] []]; reflexivity. Qed.

Lemma lower_idempotent (s : string) : Py.lower (Py.lower s) = Py.lower s.
Proof.
  induction s as [|c t IH]; [reflexivity|].
  simpl. now rewrite lower_char_idempotent, IH.
Qed.

(** The urgency of a classification returned by [_classify_inquiry] is in
    lower case: it is the default "medium" or a lower-cased value. *)
Lemma classified_urgency_lower_case (w : World) (question : string) (s s' : Env)
    (classification : Classification) (u : string) :
  SupervisorAgent._classify_inquiry w question s = (Ok classification, s') ->
  cl_urgency classification = Some u -> Py.lower u = u.
Proof.
  rewrite classify_inquiry_run. intros H. injection H as <- _.
  destruct (classifier_chain w question) as [response|e].
  - unfold parsed.
    assert (Hfold : forall lines c0,
               (forall u0, cl_urgency c0 = Some u0 -> Py.lower u0 = u0) ->
               forall u0, cl_urgency (fold_left SupervisorAgent.classify_line lines c0) = Some u0 ->
                          Py.lower u0 = u0).
    { induction lines as [|line lines IH]; intros c0 Hc0; [exact Hc0|].
      simpl. apply IH. unfold SupervisorAgent.classify_line.
      destruct (Py.split_once ":" line) as [[key0 value0]|]; [|exact Hc0].
      destruct (Py.contains "urgency" _).
      - simpl. intros u0 H. injection H as <-. apply lower_idempotent.
      - destruct (Py.contains "category" _); [exact Hc0|].
        destruct (_ || _); exact Hc0. }
    apply Hfold. discriminate.
  - simpl. intros H. injection H as <-. reflexivity.
Qed.

Lemma urgency_to_priority_unrecognized (urgency : string) :
  Py.lower urgency <> "low" -> Py.lower urgency <> "medium" ->
  Py.lower urgency <> "high" -> Py.lower urgency <> "critical" ->
  SupervisorAgent._urgency_to_priority urgency = "Medium".
Proof.
  intros Hl Hm Hh Hc.
  unfold SupervisorAgent._urgency_to_priority, SupervisorAgent.mapping.
  rewrite !lookup_insert_ne by congruence.
  rewrite lookup_empty. reflexivity.
Qed.

Lemma urgency_to_priority_recognized (urgency key value : string) :
  In (key, value) [("low", "Low"); ("medium", "Medium"); ("high", "High");
                   ("critical", "Critical")] ->
  Py.lower urgency = key ->
  SupervisorAgent._urgency_to_priority urgency = value.
Proof.
  intros Hin Hkey. unfold SupervisorAgent._urgency_to_priority. rewrite Hkey.
  simpl in Hin.
  destruct Hin as [H|[H|[H|[H|[]]]]]; injection H as <- <-; reflexivity.
Qed.

Lemma ticket_summary (question : string) (classification : Classification)
    (team : string) (environment deadline : option string) :
  td_summary (SupervisorAgent._generate_ticket_details question classification team
                                                       environment deadline) =
  if (100 <? String.length question)%nat then Py.take 97 question +:+ "..." else question.
Proof. reflexivity. Qed.

(** C8.  The summary is the question itself when it has at most 100
    characters, and its first 97 characters followed by "..." (100
    characters in all) when it has more.  The labels are the team, the
    classification's category and urgency, "automated" and
    "infrastructure", in that order.  The priority is read from the table
    low -> Low, medium -> Medium, high -> High, critical -> Critical at
    the urgency, which the lookup lower-cases first, and is Medium when
    the urgency is none of the four. *)
Theorem ticket_details_synthesis (question : string) (classification : Classification)
    (team : string) (environment deadline : option string) :
  let ticket :=
    SupervisorAgent._generate_ticket_details question classification team
                                             environment deadline in
  let category := default "general" (cl_category classification) in
  let urgency := default "medium" (cl_urgency classification) in
  ((100 < String.length question)%nat ->
   td_summary ticket = Py.take 97 question +:+ "..." /\
   String.length (Py.take 97 question) = 97%nat /\
   (exists rest, question = Py.take 97 question +:+ rest) /\
   String.length (td_summary ticket) = 100%nat) /\
  ((String.length question <= 100)%nat -> td_summary ticket = question) /\
  td_labels ticket = [team; category; urgency; "automated"; "infrastructure"] /\
  (forall c u, cl_category classification = Some c -> cl_urgency classification = Some u ->
               td_labels ticket = [team; c; u; "automated"; "infrastructure"]) /\
  td_team ticket = team /\
  (forall key value,
      In (key, value) [("low", "Low"); ("medium", "Medium"); ("high", "High");
                       ("critical", "Critical")] ->
      (urgency = key \/ Py.lower urgency = key) -> td_priority ticket = value) /\
  (Py.lower urgency <> "low" -> Py.lower urgency <> "medium" ->
   Py.lower urgency <> "high" -> Py.lower urgency <> "critical" ->
   td_priority ticket = "Medium") /\
  (Py.lower urgency = urgency ->
   urgency <> "low" -> urgency <> "medium" ->
   urgency <> "high" -> urgency <> "critical" ->
   td_priority ticket = "Medium").
Proof.
  intros ticket category urgency.
  split; [|split; [|split; [|split; [|split; [|split; [|split]]]]]].
  - intros Hlong. unfold ticket. rewrite ticket_summary.
    apply Nat.ltb_lt in Hlong. rewrite Hlong. apply Nat.ltb_lt in Hlong.
    split; [reflexivity|].
    assert (H97 : String.length (Py.take 97 question) = 97%nat)
      by (apply take_length; lia).
    split; [exact H97|]. split; [apply take_prefix|].
    rewrite append_length, H97. reflexivity.
  - intros Hshort. unfold ticket. rewrite ticket_summary.
    apply Nat.ltb_ge in Hshort. now rewrite Hshort.
  - reflexivity.
  - intros c u Hc Hu. unfold ticket, SupervisorAgent._generate_ticket_details.
    simpl td_labels. rewrite Hc, Hu. reflexivity.
  - reflexivity.
  - intros key value Hin [Hkey|Hkey].
    + apply (urgency_to_priority_recognized urgency key value Hin).
      rewrite Hkey. simpl in Hin.
      destruct Hin as [H|[H|[H|[H|[]]]]]; injection H as <- _; reflexivity.
    + apply (urgency_to_priority_recognized urgency key value Hin Hkey).
  - apply urgency_to_priority_unrecognized.
  - intros Hlow Hl Hm Hh Hc. unfold urgency in *.
    apply urgency_to_priority_unrecognized; rewrite Hlow; assumption.
Qed.

(** ** The strict gate *)



(** C10.  Whenever [answer_question] returns found = true, whatever the
    candidate set, its confidence is "high" and not "medium"; so when
    [process_inquiry] answers from the knowledge base, the confidence of
    its knowledge result is "high".  For the candidates of the retriever's
    own [search], passing the gate even means a distance below 0.3. *)
Theorem found_answer_confidence_is_high :
  (forall w question s kb s',
      KnowledgeAgent.answer_question w question s = (Ok kb, s') ->
      kb_found kb = true ->
      kb_confidence kb = "high" /\ kb_confidence kb <> "medium") /\
  (forall w question user_id channel_id environment deadline s r s',
      SupervisorAgent.process_inquiry w question user_id channel_id environment deadline s =
        (Ok r, s') ->
      r_action r = "answer_from_kb" ->
      kb_found (r_knowledge_base r) = true /\
      kb_confidence (r_knowledge_base r) = "high") /\
  (forall w query k s results r,
      fst (VectorStore.search w query k s) = Ok results ->
      In r results ->
      km_relevance r = "high" -> (km_score r < 3 # 10)%Q).
Proof.
  assert (Hhigh : forall w question s kb s',
             KnowledgeAgent.answer_question w question s = (Ok kb, s') ->
             kb_found kb = true -> kb_confidence kb = "high").
  { intros w question s kb s' Hrun Hfound.
    destruct (answer_question_found _ _ _ _ _ Hrun Hfound) as (best & _ & _ & _ & Hc & Hg).
    rewrite Hc. apply passes_gate_iff in Hg. tauto. }
  split; [|split].
  - intros w question s kb s' Hrun Hfound.
    rewrite (Hhigh _ _ _ _ _ Hrun Hfound). split; [reflexivity|discriminate].
  - intros w question user_id channel_id environment deadline s r s' Hrun Haction.
    destruct (process_inquiry_returned w question user_id channel_id environment deadline
                s r s' Hrun)
      as (classification & kb & s2 & _ & Hkb & [[Hb Hp]|[_ (routing & s3 & _ & Hp)]]).
    + rewrite Hp in Hrun. injection Hrun as <- _. simpl.
      apply answers_from_kb_iff in Hb. destruct Hb as [Hfound _].
      split; [exact Hfound|]. eapply Hhigh; eassumption.
    + rewrite Hp in Hrun. injection Hrun as <- _. discriminate.
  - intros w query k s results r Hrun Hin Hrel.
    destruct (search_run w query k s) as (rs & s' & Hs & _ & Htier & _).
    rewrite Hs in Hrun. simpl in Hrun. injection Hrun as ->.
    rewrite (Htier r Hin) in Hrel.
    destruct (relevance_of_cases (km_score r)) as [[_ Hd]|[[E _]|[E _]]];
      [exact Hd|rewrite E in Hrel; discriminate|rewrite E in Hrel; discriminate].
Qed.

(** The pod question with its entry at distance 0.1 is answered from the
    knowledge base with confidence "high". *)
Lemma found_answer_confidence_is_high_witness :
  exists r s',
    SupervisorAgent.process_inquiry (seeded_world (1 # 10) "") pod_question "U1" "C1"
      None None empty_env = (Ok r, s') /\
    r_action r = "answer_from_kb" /\
    kb_found (r_knowledge_base r) = true /\
    kb_confidence (r_knowledge_base r) = "high".
Proof.
  destruct (SupervisorAgent.process_inquiry (seeded_world (1 # 10) "") pod_question
              "U1" "C1" None None empty_env) as [[r|e] s'] eqn:E.
  - exists r, s'. split; [reflexivity|].
    assert (Ha : r_action r = "answer_from_kb")
      by (vm_compute in E; injection E as <- _; reflexivity).
    split; [exact Ha|].
    exact (proj1 (proj2 found_answer_confidence_is_high) _ _ _ _ _ _ _ _ _ E Ha).
  - exfalso. vm_compute in E. discriminate.
Defined.

(** ** The classifier's needs_ticket flag *)

Lemma answer_question_ignores_classifier (w : World) (chain : string -> Result string)
    (question : string) (s : Env) :
  KnowledgeAgent.answer_question (with_classifier w chain) question s =
  KnowledgeAgent.answer_question w question s.
Proof. reflexivity. Qed.

Lemma route_inquiry_ignores_classifier (w : World) (chain : string -> Result string)
    (question category : string) (s : Env) :
  RouterAgent.route_inquiry (with_classifier w chain) question category s =
  RouterAgent.route_inquiry w question category s.
Proof. reflexivity. Qed.

(** A run of [process_inquiry] seen from its result: the classification
    and knowledge result it carries determine everything else with the
    routing decision. *)
Lemma process_inquiry_inversion (w : World) (question user_id channel_id : string)
    (environment deadline : option string) (s : Env) (r : PipelineResult) (s' : Env) :
  SupervisorAgent.process_inquiry w question user_id channel_id environment deadline s =
    (Ok r, s') ->
  exists s2,
    KnowledgeAgent.answer_question w question (log (ClassifierInvoke question) s) =
      (Ok (r_knowledge_base r), s2) /\
    ((SupervisorAgent.answers_from_kb (r_knowledge_base r) = true /\ s' = s2 /\
      r = answer_result w question user_id channel_id environment deadline
            (r_classification r) (r_knowledge_base r)) \/
     (SupervisorAgent.answers_from_kb (r_knowledge_base r) = false /\
      exists routing,
        RouterAgent.route_inquiry w question
          (default "" (cl_category (r_classification r))) s2 = (Ok routing, s') /\
        r = ticket_result w question user_id channel_id environment deadline
              (r_classification r) (r_knowledge_base r) routing)).
Proof.
  intros Hrun.
  destruct (process_inquiry_returned w question user_id channel_id environment deadline
              s r s' Hrun)
    as (classification & kb & s2 & _ & Hkb & [[Hb Hp]|[Hb (routing & s3 & Hr & Hp)]]);
    rewrite Hp in Hrun; injection Hrun as <- <-; exists s2; simpl.
  - split; [exact Hkb|]. left. auto.
  - split; [exact Hkb|]. right. split; [exact Hb|]. exists routing. auto.
Qed.

(** C9.  Two runs of [process_inquiry] on the same question and state,
    with the same collaborators except the classifier, whose
    classifications agree on urgency and category (so differ at most in
    needs_ticket), take the same branch and agree on the action, the
    knowledge result, the answer and source, the routing decision, the
    ticket draft, the steps and the final state.  The branch taken is
    "answer_from_kb" exactly when the knowledge result has found = true
    and confidence "high" or "medium". *)
Theorem needs_ticket_never_consulted (w : World) (chain1 chain2 : string -> Result string)
    (question user_id channel_id : string) (environment deadline : option string)
    (s : Env) (r1 r2 : PipelineResult) (s1 s2 : Env) :
  SupervisorAgent.process_inquiry (with_classifier w chain1) question user_id channel_id
    environment deadline s = (Ok r1, s1) ->
  SupervisorAgent.process_inquiry (with_classifier w chain2) question user_id channel_id
    environment deadline s = (Ok r2, s2) ->
  cl_urgency (r_classification r1) = cl_urgency (r_classification r2) ->
  cl_category (r_classification r1) = cl_category (r_classification r2) ->
  r_action r1 = r_action r2 /\
  r_knowledge_base r1 = r_knowledge_base r2 /\
  r_answer r1 = r_answer r2 /\ r_source r1 = r_source r2 /\
  r_requires_ticket r1 = r_requires_ticket r2 /\
  r_routing r1 = r_routing r2 /\ r_assigned_team r1 = r_assigned_team r2 /\
  r_ticket_details r1 = r_ticket_details r2 /\
  r_steps r1 = r_steps r2 /\ s1 = s2 /\
  (r_action r1 = "answer_from_kb" <->
   kb_found (r_knowledge_base r1) = true /\
   (kb_confidence (r_knowledge_base r1) = "high" \/
    kb_confidence (r_knowledge_base r1) = "medium")).
Proof.
  intros H1 H2 Hu Hc.
  destruct (process_inquiry_inversion _ _ _ _ _ _ _ _ _ H1) as (t1 & Hk1 & Hb1).
  destruct (process_inquiry_inversion _ _ _ _ _ _ _ _ _ H2) as (t2 & Hk2 & Hb2).
  rewrite answer_question_ignores_classifier in Hk1, Hk2.
  rewrite Hk1 in Hk2. injection Hk2 as Hkb Ht. subst t2.
  rewrite <- Hkb in Hb2.
  destruct Hb1 as [(Hy1 & -> & E1)|(Hn1 & routing1 & Hr1 & E1)];
    destruct Hb2 as [(Hy2 & -> & E2)|(Hn2 & routing2 & Hr2 & E2)];
    try congruence.
  - rewrite E1, E2. simpl. rewrite Hkb.
    repeat (split; [reflexivity|]).
    split; [intros _; rewrite <- Hkb; now apply answers_from_kb_iff|reflexivity].
  - rewrite route_inquiry_ignores_classifier in Hr1, Hr2.
    rewrite <- Hc, Hr1 in Hr2. injection Hr2 as <- <-.
    assert (Hticket :
              SupervisorAgent._generate_ticket_details question (r_classification r1)
                (rd_team routing1) environment deadline =
              SupervisorAgent._generate_ticket_details question (r_classification r2)
                (rd_team routing1) environment deadline).
    { unfold SupervisorAgent._generate_ticket_details. now rewrite Hu, Hc. }
    rewrite E1, E2. simpl. rewrite Hkb, Hticket.
    repeat (split; [reflexivity|]).
    split; [discriminate|].
    intros Hy. rewrite <- Hkb in Hy. apply answers_from_kb_iff in Hy. congruence.
Qed.

(** NEEDS_TICKET yes and no, everything else equal: the same ticket. *)
Lemma needs_ticket_never_consulted_witness :
  exists r1 r2 s',
    SupervisorAgent.process_inquiry
      (with_classifier (seeded_world (45 # 100) "") (says_ticket "yes"))
      "the build is slow" "U1" "C1" None None empty_env = (Ok r1, s') /\
    SupervisorAgent.process_inquiry
      (with_classifier (seeded_world (45 # 100) "") (says_ticket "no"))
      "the build is slow" "U1" "C1" None None empty_env = (Ok r2, s') /\
    cl_needs_ticket (r_classification r1) = Some true /\
    cl_needs_ticket (r_classification r2) = Some false /\
    r_action r1 = r_action r2 /\ r_routing r1 = r_routing r2 /\
    r_ticket_details r1 = r_ticket_details r2.
Proof.
  destruct (SupervisorAgent.process_inquiry
              (with_classifier (seeded_world (45 # 100) "") (says_ticket "yes"))
              "the build is slow" "U1" "C1" None None empty_env) as [[r1|e1] s1] eqn:E1;
    [|exfalso; vm_compute in E1; discriminate].
  destruct (SupervisorAgent.process_inquiry
              (with_classifier (seeded_world (45 # 100) "") (says_ticket "no"))
              "the build is slow" "U1" "C1" None None empty_env) as [[r2|e2] s2] eqn:E2;
    [|exfalso; vm_compute in E2; discriminate].
  assert (Hu : cl_urgency (r_classification r1) = cl_urgency (r_classification r2)).
  { vm_compute in E1, E2. injection E1 as <- _. injection E2 as <- _. reflexivity. }
  assert (Hc : cl_category (r_classification r1) = cl_category (r_classification r2)).
  { vm_compute in E1, E2. injection E1 as <- _. injection E2 as <- _. reflexivity. }
  assert (Hn1 : cl_needs_ticket (r_classification r1) = Some true).
  { vm_compute in E1. injection E1 as <- _. reflexivity. }
  assert (Hn2 : cl_needs_ticket (r_classification r2) = Some false).
  { vm_compute in E2. injection E2 as <- _. reflexivity. }
  destruct (needs_ticket_never_consulted _ _ _ _ _ _ _ _ _ _ _ _ _ E1 E2 Hu Hc)
    as (Ha & _ & _ & _ & _ & Hr & _ & Ht & _ & Hs & _).
  exists r1, r2, s1. rewrite Hs. repeat (split; [reflexivity || assumption|]). assumption.
Defined.

(** * Further properties of the pipeline *)

(** ** The cache behind [search_knowledge_base] *)

Lemma cache_key_injective (q1 q2 : string) :
  KnowledgeAgent.cache_key q1 = KnowledgeAgent.cache_key q2 -> q1 = q2.
Proof. unfold KnowledgeAgent.cache_key. intros H. simpl in H. now injection H. Qed.

(** The two ways [search_knowledge_base] can go, with the Redis contents
    it leaves. *)
Lemma search_knowledge_base_cases (w : World) (query : string) (k : nat) (s s' : Env)
    (results : list KnowledgeMatch) :
  KnowledgeAgent.search_knowledge_base w query k s = (Ok results, s') ->
  (results <> [] /\ redis_get_raises w (KnowledgeAgent.cache_key query) = None /\
   (exists ttl, redis s !! KnowledgeAgent.cache_key query = Some (ttl, results)) /\
   s' = log (RedisGet (KnowledgeAgent.cache_key query)) s) \/
  (exists s1,
      VectorStore.search w query k (log (RedisGet (KnowledgeAgent.cache_key query)) s) =
        (Ok results, s1) /\
      ((results = [] /\ s' = s1 /\ redis s' = redis s) \/
       (results <> [] /\
        calls s' = calls s1 ++ [RedisSetex (KnowledgeAgent.cache_key query) 3600 results] /\
        redis s' = match redis_setex_raises w (KnowledgeAgent.cache_key query) with
                   | None => <[KnowledgeAgent.cache_key query := (3600%Z, results)]> (redis s)
                   | Some _ => redis s
                   end))).
Proof.
  intros Hrun. unfold KnowledgeAgent.search_knowledge_base in Hrun.
  erewrite bind_ok in Hrun by apply RedisCache_get_run.
  set (key := KnowledgeAgent.cache_key query) in *.
  set (s0 := log (RedisGet key) s) in *.
  assert (Hmiss :
            (results <- VectorStore.search w query k ;;
             _ <- (if Py.truthy_list results
                   then RedisCache.set w key results 3600
                   else ret false) ;;
             ret results) s0 = (Ok results, s') ->
            exists s1,
              VectorStore.search w query k s0 = (Ok results, s1) /\
              ((results = [] /\ s' = s1 /\ redis s' = redis s) \/
               (results <> [] /\
                calls s' = calls s1 ++ [RedisSetex key 3600 results] /\
                redis s' = match redis_setex_raises w key with
                           | None => <[key := (3600%Z, results)]> (redis s)
                           | Some _ => redis s
                           end))).
  { intros Hm.
    destruct (search_and_cache_run w query k s0) as (rs & s1 & s2 & Hs & Hr & He & Hne).
    destruct (search_run w query k s0) as (rs' & s1' & Hs' & Hredis & _).
    rewrite Hs in Hs'. injection Hs' as <- <-.
    fold key in Hr, Hne. rewrite Hr in Hm. injection Hm as <- <-.
    exists s1. split; [exact Hs|].
    destruct rs as [|c cs].
    - left. rewrite (He eq_refl). auto.
    - right. split; [discriminate|]. apply Hne. discriminate. }
  destruct (redis_get_raises w key) as [e|] eqn:Eg; [right; exact (Hmiss Hrun)|].
  destruct (redis s !! key) as [[ttl cached]|] eqn:Ek; simpl in Hrun;
    [|right; exact (Hmiss Hrun)].
  destruct cached as [|c cs]; simpl in Hrun; [right; exact (Hmiss Hrun)|].
  injection Hrun as <- <-. left.
  split; [discriminate|]. split; [reflexivity|]. split; [eauto|reflexivity].
Qed.

(** X1.  Once [search_knowledge_base] has returned a non-empty candidate
    set for a question while Redis answers, the next call for the same
    question (with any [k]) returns that same set from the cache: its only
    call is the cache lookup, the backend is not searched again. *)
Theorem repeated_search_is_served_from_cache (w : World) (query : string) (k k' : nat)
    (s s1 : Env) (results : list KnowledgeMatch) :
  redis_get_raises w (KnowledgeAgent.cache_key query) = None ->
  redis_setex_raises w (KnowledgeAgent.cache_key query) = None ->
  KnowledgeAgent.search_knowledge_base w query k s = (Ok results, s1) ->
  results <> [] ->
  KnowledgeAgent.search_knowledge_base w query k' s1 =
  (Ok results,
   {| redis := redis s1;
      calls := calls s1 ++ [RedisGet (KnowledgeAgent.cache_key query)] |}).
Proof.
  intros Hget Hset Hrun Hne.
  assert (Hstored : exists ttl,
             redis s1 !! KnowledgeAgent.cache_key query = Some (ttl, results)).
  { destruct (search_knowledge_base_cases _ _ _ _ _ _ Hrun)
      as [(_ & _ & [ttl Hk] & ->)|(t1 & _ & [(He & _)|(_ & _ & Hstore)])].
    - exists ttl. exact Hk.
    - contradiction.
    - rewrite Hset in Hstore. rewrite Hstore. exists 3600%Z. apply lookup_insert_eq. }
  destruct Hstored as [ttl Hk].
  unfold KnowledgeAgent.search_knowledge_base.
  erewrite bind_ok by apply RedisCache_get_run.
  rewrite Hget, Hk. simpl.
  destruct results as [|c cs]; [contradiction|reflexivity].
Qed.

(** The first search misses, asks the backend and stores the pod entry;
    the second search is answered by the cache lookup alone. *)
Lemma repeated_search_is_served_from_cache_witness :
  exists s1,
    KnowledgeAgent.search_knowledge_base (seeded_world (1 # 10) "") pod_question 3 empty_env =
      (Ok [pod_match (1 # 10) "high"], s1) /\
    KnowledgeAgent.search_knowledge_base (seeded_world (1 # 10) "") pod_question 3 s1 =
      (Ok [pod_match (1 # 10) "high"],
       {| redis := redis s1;
          calls := calls s1 ++ [RedisGet (KnowledgeAgent.cache_key pod_question)] |}).
Proof.
  destruct (KnowledgeAgent.search_knowledge_base (seeded_world (1 # 10) "") pod_question 3
              empty_env) as [[results|e] s1] eqn:E;
    [|exfalso; vm_compute in E; discriminate].
  assert (Hr : results = [pod_match (1 # 10) "high"])
    by (vm_compute in E; now injection E as <- _).
  subst results. exists s1. split; [reflexivity|].
  apply (repeated_search_is_served_from_cache (seeded_world (1 # 10) "") pod_question 3 3
           empty_env s1 _ eq_refl eq_refl E).
  discriminate.
Defined.

(** X2.  What a call of [search_knowledge_base] leaves in the cache: every
    entry is an entry that was there before, or the non-empty result of
    this call stored under this question's key with TTL 3600.  An empty
    result (no match, or a backend that failed) changes nothing. *)
Theorem search_writes_only_its_own_nonempty_result (w : World) (query : string) (k : nat)
    (s s' : Env) (results : list KnowledgeMatch) :
  KnowledgeAgent.search_knowledge_base w query k s = (Ok results, s') ->
  (results = [] -> redis s' = redis s) /\
  (forall key ttl value,
      redis s' !! key = Some (ttl, value) ->
      redis s !! key = Some (ttl, value) \/
      (key = KnowledgeAgent.cache_key query /\ ttl = 3600%Z /\
       value = results /\ results <> [])).
Proof.
  intros Hrun.
  destruct (search_knowledge_base_cases _ _ _ _ _ _ Hrun)
    as [(Hne & _ & _ & ->)|(t1 & _ & [(He & _ & Hsame)|(Hne & _ & Hstore)])].
  - split; [contradiction|]. intros key ttl value H. left. exact H.
  - split; [intros _; exact Hsame|]. intros key ttl value H. left. now rewrite <- Hsame.
  - split; [contradiction|]. intros key ttl value H. rewrite Hstore in H.
    destruct (redis_setex_raises w (KnowledgeAgent.cache_key query)); [left; exact H|].
    rewrite lookup_insert in H.
    destruct (decide (KnowledgeAgent.cache_key query = key)) as [<-|_]; [|left; exact H].
    right. injection H as <- <-. auto.
Qed.

Lemma search_writes_only_its_own_nonempty_result_witness :
  exists s',
    KnowledgeAgent.search_knowledge_base dead_world pod_question 3
      (cached_env [pod_match (1 # 10) "high"]) = (Ok [], s') /\
    redis s' = redis (cached_env [pod_match (1 # 10) "high"]).
Proof.
  destruct (KnowledgeAgent.search_knowledge_base dead_world pod_question 3
              (cached_env [pod_match (1 # 10) "high"])) as [[results|e] s'] eqn:E;
    [|exfalso; vm_compute in E; discriminate].
  assert (Hr : results = []) by (vm_compute in E; now injection E as <- _).
  subst results. exists s'. split; [reflexivity|].
  apply (search_writes_only_its_own_nonempty_result _ _ _ _ _ _ E). reflexivity.
Defined.

(** X3.  A search for one question never touches the cache entry of
    another question. *)
Theorem search_leaves_other_questions_cached (w : World) (query other : string) (k : nat)
    (s s' : Env) (results : list KnowledgeMatch) :
  KnowledgeAgent.search_knowledge_base w query k s = (Ok results, s') ->
  other <> query ->
  redis s' !! KnowledgeAgent.cache_key other = redis s !! KnowledgeAgent.cache_key other.
Proof.
  intros Hrun Hother.
  destruct (search_knowledge_base_cases _ _ _ _ _ _ Hrun)
    as [(_ & _ & _ & ->)|(t1 & _ & [(_ & _ & Hsame)|(_ & _ & Hstore)])].
  - reflexivity.
  - now rewrite Hsame.
  - rewrite Hstore.
    destruct (redis_setex_raises w (KnowledgeAgent.cache_key query)); [reflexivity|].
    apply lookup_insert_ne. intros H. apply Hother. symmetry. now apply cache_key_injective.
Qed.

Lemma search_leaves_other_questions_cached_witness :
  exists s',
    KnowledgeAgent.search_knowledge_base (seeded_world (1 # 10) "") "is dns down?" 3
      (cached_env [pod_match (2 # 10) "high"]) = (Ok [pod_match (1 # 10) "high"], s') /\
    redis s' !! KnowledgeAgent.cache_key pod_question =
    redis (cached_env [pod_match (2 # 10) "high"]) !! KnowledgeAgent.cache_key pod_question.
Proof.
  destruct (KnowledgeAgent.search_knowledge_base (seeded_world (1 # 10) "") "is dns down?" 3
              (cached_env [pod_match (2 # 10) "high"])) as [[results|e] s'] eqn:E;
    [|exfalso; vm_compute in E; discriminate].
  assert (Hr : results = [pod_match (1 # 10) "high"])
    by (vm_compute in E; now injection E as <- _).
  subst results. exists s'. split; [reflexivity|].
  apply (search_leaves_other_questions_cached _ _ _ _ _ _ _ E). discriminate.
Defined.

(** ** What [search] returns *)

Lemma format_loop_pointwise (results : QueryResult) (indices : list nat)
    (rs : list KnowledgeMatch) :
  VectorStore.format_loop results indices = Ok rs ->
  length rs = length indices /\
  forall j r, rs !! j = Some r ->
              exists i, indices !! j = Some i /\ VectorStore.format_result results i = Ok r.
Proof.
  revert rs. induction indices as [|i rest IH]; intros rs Hloop.
  - injection Hloop as <-. split; [reflexivity|]. intros j r H. destruct j; discriminate.
  - simpl in Hloop. unfold rbind in Hloop.
    destruct (VectorStore.format_result results i) as [r0|] eqn:E0; [|discriminate].
    destruct (VectorStore.format_loop results rest) as [rs0|]; [|discriminate].
    injection Hloop as <-. destruct (IH rs0 eq_refl) as [Hlen Hall].
    split; [simpl; now rewrite Hlen|].
    intros [|j] r Hr.
    + injection Hr as <-. exists i. auto.
    + apply Hall. exact Hr.
Qed.

Lemma get_default_default {A : Type} (x : option A) (d : A) :
  VectorStore.get_default x d = default d x.
Proof. destruct x; reflexivity. Qed.

Lemma format_result_fields (results : QueryResult) (i : nat) (r : KnowledgeMatch) :
  VectorStore.format_result results i = Ok r ->
  exists mds ds metadata,
    qr_metadatas results !! 0%nat = Some mds /\ mds !! i = Some metadata /\
    qr_distances results !! 0%nat = Some ds /\ ds !! i = Some (km_score r) /\
    km_question r = default "" (md_question metadata) /\
    km_answer r = default "" (md_answer metadata) /\
    km_team r = default "" (md_team metadata) /\
    km_entry_id r = default "" (md_entry_id metadata) /\
    default (Ok (JArray [])) (md_tags metadata) = Ok (km_tags r).
Proof.
  unfold VectorStore.format_result, rbind, index.
  destruct (qr_metadatas results !! 0%nat) as [mds|] eqn:Em; [|discriminate].
  destruct (mds !! i) as [metadata|] eqn:Emi; [|discriminate].
  destruct (qr_distances results !! 0%nat) as [ds|] eqn:Ed; [|discriminate].
  destruct (ds !! i) as [distance|] eqn:Edi; [|discriminate].
  destruct (VectorStore.get_default (md_tags metadata) (Ok (JArray []))) as [tags|] eqn:Et;
    [|discriminate].
  intros H. injection H as <-. exists mds, ds, metadata. simpl.
  rewrite !get_default_default. rewrite get_default_default in Et.
  repeat (split; [reflexivity || assumption|]). exact Et.
Qed.

Lemma format_result_defective (answer : QueryResult) (i : nat) :
  defective_at answer i -> exists e, VectorStore.format_result answer i = Raise e.
Proof.
  unfold defective_at, metadata_at, distance_at, VectorStore.format_result, rbind, index.
  intros Hdefect.
  destruct (qr_metadatas answer !! 0%nat) as [mds|]; [|eauto].
  destruct (mds !! i) as [metadata|]; [|eauto].
  destruct (qr_distances answer !! 0%nat) as [ds|]; [|eauto].
  destruct (ds !! i) as [distance|]; [|eauto].
  destruct Hdefect as [H|[H|(metadata' & e & Hm & Ht)]]; try discriminate.
  injection Hm as <-. rewrite Ht. simpl. eauto.
Qed.

Lemma format_loop_raise (answer : QueryResult) (indices : list nat) (i : nat) (e : Exn) :
  In i indices -> VectorStore.format_result answer i = Raise e ->
  exists e', VectorStore.format_loop answer indices = Raise e'.
Proof.
  induction indices as [|j rest IH]; intros Hin Hraise; [destruct Hin|].
  simpl. destruct Hin as [->|Hin].
  - rewrite Hraise. simpl. eauto.
  - destruct (VectorStore.format_result answer j) as [r|e0]; simpl; [|eauto].
    destruct (IH Hin Hraise) as [e' ->]. simpl. eauto.
Qed.

(** X4.  [search] never raises, is all or nothing and keeps the order of
    the backend.  A non-empty result has exactly one entry per id of the
    first id list of the collection's answer, entry [i] carrying the
    [i]-th distance as its score and the fields of the [i]-th metadata,
    [""] standing for a missing field and the empty list for missing
    tags.  The result is empty when the embedding model or the collection
    raises, when the collection answers nothing or no id list, and when
    the answer is defective at one index of the first id list: no
    metadata or no distance there, or tags that do not decode. *)
Theorem search_is_all_or_nothing (w : World) (query : string) (k : nat) (s : Env) :
  exists results s',
    VectorStore.search w query k s = (Ok results, s') /\
    (results <> [] ->
     exists embedding answer ids0 more_ids mds ds,
       embed_query w query = Ok embedding /\
       collection_query w embedding k = Ok (Some answer) /\
       qr_ids answer = ids0 :: more_ids /\
       qr_metadatas answer !! 0%nat = Some mds /\
       qr_distances answer !! 0%nat = Some ds /\
       length results = length ids0 /\
       forall i r,
         results !! i = Some r ->
         ds !! i = Some (km_score r) /\
         exists metadata,
           mds !! i = Some metadata /\
           km_question r = default "" (md_question metadata) /\
           km_answer r = default "" (md_answer metadata) /\
           km_team r = default "" (md_team metadata) /\
           km_entry_id r = default "" (md_entry_id metadata) /\
           default (Ok (JArray [])) (md_tags metadata) = Ok (km_tags r)) /\
    (forall e, embed_query w query = Raise e -> results = []) /\
    (forall embedding,
        embed_query w query = Ok embedding ->
        (forall e, collection_query w embedding k = Raise e -> results = []) /\
        (collection_query w embedding k = Ok None -> results = []) /\
        (forall answer,
            collection_query w embedding k = Ok (Some answer) ->
            (qr_ids answer = [] -> results = []) /\
            (forall ids0 more_ids i,
                qr_ids answer = ids0 :: more_ids -> (i < length ids0)%nat ->
                defective_at answer i -> results = []))).
Proof.
  unfold VectorStore.search, try_except, bind, call, lift, ret.
  destruct (embed_query w query) as [embedding|e] eqn:Ee.
  2:{ eexists. eexists. split; [reflexivity|]. split; [intros H; now destruct H|].
      split; [reflexivity|]. intros embedding H. discriminate. }
  destruct (collection_query w embedding k) as [answer|e] eqn:Ec.
  2:{ eexists. eexists. split; [reflexivity|]. split; [intros H; now destruct H|].
      split; [discriminate|]. intros embedding' H. injection H as <-. rewrite Ec.
      split; [reflexivity|]. split; [discriminate|]. intros answer H. discriminate. }
  assert (Hnothing : forall rs,
             match VectorStore.format_results answer with
             | Ok rs0 => rs0
             | Raise _ => []
             end = rs ->
             (forall e, Ok embedding = Raise e -> rs = []) /\
             (forall embedding',
                 Ok embedding = Ok embedding' ->
                 (forall e, collection_query w embedding' k = Raise e -> rs = []) /\
                 (collection_query w embedding' k = Ok None -> rs = []) /\
                 (forall answer',
                     collection_query w embedding' k = Ok (Some answer') ->
                     (qr_ids answer' = [] -> rs = []) /\
                     (forall ids0 more_ids i,
                         qr_ids answer' = ids0 :: more_ids -> (i < length ids0)%nat ->
                         defective_at answer' i -> rs = [])))).
  { intros rs Hrs. split; [discriminate|].
    intros embedding' H. injection H as <-. rewrite Ec.
    split; [discriminate|]. split.
    - intros H. injection H as ->. simpl in Hrs. now subst rs.
    - intros answer' H. injection H as ->. unfold VectorStore.format_results in Hrs. split.
      + intros Hids. rewrite Hids in Hrs. now subst rs.
      + intros ids0 more_ids i Hids Hi Hdefect. rewrite Hids in Hrs.
        destruct (format_result_defective _ _ Hdefect) as [e He].
        destruct (format_loop_raise answer' (seq 0 (length ids0)) i e) as [e' Hloop];
          [apply in_seq; lia|exact He|].
        rewrite Hloop in Hrs. now subst rs. }
  destruct (VectorStore.format_results answer) as [rs|e] eqn:Ef.
  2:{ eexists. eexists. split; [reflexivity|]. split; [intros H; now destruct H|].
      exact (Hnothing [] eq_refl). }
  exists rs. eexists. split; [reflexivity|]. split; [|exact (Hnothing rs eq_refl)].
  intros Hne.
  unfold VectorStore.format_results in Ef.
  destruct answer as [answer|]; [|injection Ef as <-; contradiction].
  destruct (qr_ids answer) as [|ids0 more_ids] eqn:Ei; [injection Ef as <-; contradiction|].
  destruct (format_loop_pointwise _ _ _ Ef) as [Hlen Hall].
  rewrite length_seq in Hlen.
  assert (Hfirst : exists r0, rs !! 0%nat = Some r0)
    by (destruct rs as [|r0 ?]; [contradiction|eauto]).
  destruct Hfirst as [r0 Hr0].
  destruct (Hall _ _ Hr0) as (i0 & _ & Hf0).
  destruct (format_result_fields _ _ _ Hf0) as (mds & ds & _ & Hm & _ & Hd & _).
  exists embedding, answer, ids0, more_ids, mds, ds.
  repeat (split; [reflexivity || assumption|]).
  intros i r Hr. destruct (Hall _ _ Hr) as (i' & Hi' & Hf).
  apply lookup_seq in Hi'. destruct Hi' as [-> _]. simpl in Hf.
  destruct (format_result_fields _ _ _ Hf) as (mds' & ds' & metadata & Hm' & Hmi & Hd' & Hdi & Hrest).
  rewrite Hm in Hm'. injection Hm' as <-. rewrite Hd in Hd'. injection Hd' as <-.
  split; [exact Hdi|]. exists metadata. split; [exact Hmi|exact Hrest].
Qed.

(** The pod entry comes back as one match; with its tags stored as text
    that does not decode, nothing comes back. *)
Lemma search_is_all_or_nothing_witness :
  (exists s' embedding answer,
      VectorStore.search (seeded_world (1 # 10) "") pod_question 3 empty_env =
        (Ok [pod_match (1 # 10) "high"], s') /\
      embed_query (seeded_world (1 # 10) "") pod_question = Ok embedding /\
      collection_query (seeded_world (1 # 10) "") embedding 3 = Ok (Some answer) /\
      exists ids0 more_ids, qr_ids answer = ids0 :: more_ids /\ length ids0 = 1%nat) /\
  (exists s', VectorStore.search broken_tags_world pod_question 3 empty_env = (Ok [], s')).
Proof.
  split.
  - destruct (search_is_all_or_nothing (seeded_world (1 # 10) "") pod_question 3 empty_env)
      as (results & s' & E & Hall & _).
    assert (Hr : results = [pod_match (1 # 10) "high"])
      by (vm_compute in E; now injection E as <- _).
    subst results.
    destruct Hall
      as (embedding & answer & ids0 & more_ids & mds & ds & He & Hc & Hi & _ & _ & Hlen & _);
      [discriminate|].
    exists s', embedding, answer. split; [exact E|]. split; [exact He|]. split; [exact Hc|].
    exists ids0, more_ids. split; [exact Hi|]. now rewrite <- Hlen.
  - destruct (search_is_all_or_nothing broken_tags_world pod_question 3 empty_env)
      as (results & s' & E & _ & _ & Hquery).
    destruct (Hquery [1 # 2; 1 # 3] eq_refl) as (_ & _ & Hanswer).
    destruct (Hanswer _ eq_refl) as (_ & Hdefect).
    rewrite (Hdefect ["kb-001"] [] 0%nat eq_refl) in E.
    + exists s'. exact E.
    + simpl. lia.
    + right. right. eexists. eexists. split; reflexivity.
Defined.

(** ** The shapes of a knowledge result *)




(** ** The source of an answer *)

Lemma filter_head_of_sorted {A : Type} (R : A -> A -> Prop) (f : A -> bool)
    (l : list A) (x : A) (xs : list A) :
  StronglySorted R l -> List.filter f l = x :: xs ->
  forall y, In y l -> f y = true -> y = x \/ R x y.
Proof.
  induction 1 as [|a l Hsorted IH Hall]; intros Hf y Hy Hfy; [destruct Hy|].
  simpl in Hf. destruct (f a) eqn:Ea.
  - injection Hf as <- _. destruct Hy as [->|Hy]; [left; reflexivity|].
    right. rewrite List.Forall_forall in Hall. now apply Hall.
  - destruct Hy as [->|Hy]; [congruence|]. now apply IH.
Qed.

(** X6.  The source of a found answer is the first candidate that passes
    the gate.  When the candidate set is ordered by ascending distance,
    as the search backend returns it, no candidate that passes the gate
    is closer than the source. *)
Theorem answer_source_is_closest_survivor (w : World) (question : string) (s s1 s2 : Env)
    (candidates : list KnowledgeMatch) (kb : KbResult) :
  KnowledgeAgent.search_knowledge_base w question 3 s = (Ok candidates, s1) ->
  StronglySorted (fun a b => (km_score a <= km_score b)%Q) candidates ->
  KnowledgeAgent.answer_question w question s = (Ok kb, s2) ->
  kb_found kb = true ->
  exists source,
    kb_source kb = Some source /\
    In source candidates /\ KnowledgeAgent.passes_gate source = true /\
    List.head (List.filter KnowledgeAgent.passes_gate candidates) = Some source /\
    forall r, In r candidates -> KnowledgeAgent.passes_gate r = true ->
              (km_score source <= km_score r)%Q.
Proof.
  intros Hs Hsorted Hrun Hfound.
  rewrite (answer_question_run _ _ _ _ _ Hs) in Hrun.
  destruct candidates as [|c cs]; [injection Hrun as <- _; discriminate|].
  destruct (List.filter KnowledgeAgent.passes_gate (c :: cs)) as [|best rest] eqn:Ef;
    [injection Hrun as <- _; discriminate|].
  assert (Hin : In best (c :: cs) /\ KnowledgeAgent.passes_gate best = true).
  { apply filter_In. rewrite Ef. left. reflexivity. }
  destruct (formatted (best :: rest)) as [text|e]; [|discriminate].
  destruct (knowledge_chain w question text) as [answer|[msg]];
    [|injection Hrun as <- _; discriminate].
  injection Hrun as <- _. exists best. simpl.
  split; [reflexivity|]. split; [tauto|]. split; [tauto|]. split; [reflexivity|].
  intros r Hr Hg.
  destruct (filter_head_of_sorted _ _ _ _ _ Hsorted Ef r Hr Hg) as [->|Hle];
    [apply Qle_refl|exact Hle].
Qed.

(** Two cached candidates at distances 0.1 and 0.2: the source is the
    first, at 0.1. *)
Lemma answer_source_is_closest_survivor_witness :
  exists kb s2,
    KnowledgeAgent.answer_question (seeded_world (1 # 10) "") pod_question
      (cached_env [pod_match (1 # 10) "high"; pod_match (2 # 10) "high"]) = (Ok kb, s2) /\
    kb_source kb = Some (pod_match (1 # 10) "high").
Proof.
  destruct (KnowledgeAgent.answer_question (seeded_world (1 # 10) "") pod_question
              (cached_env [pod_match (1 # 10) "high"; pod_match (2 # 10) "high"]))
    as [[kb|e] s2] eqn:E; [|exfalso; vm_compute in E; discriminate].
  exists kb, s2. split; [reflexivity|].
  destruct (answer_source_is_closest_survivor (seeded_world (1 # 10) "") pod_question
              (cached_env [pod_match (1 # 10) "high"; pod_match (2 # 10) "high"])
              {| redis := redis (cached_env [pod_match (1 # 10) "high";
                                             pod_match (2 # 10) "high"]);
                 calls := [RedisGet (KnowledgeAgent.cache_key pod_question)] |}
              s2 [pod_match (1 # 10) "high"; pod_match (2 # 10) "high"] kb)
    as (source & Hsrc & _ & _ & Hhead & _).
  - unfold KnowledgeAgent.search_knowledge_base.
    erewrite bind_ok by apply RedisCache_get_run. vm_compute. reflexivity.
  - repeat constructor; vm_compute; discriminate.
  - exact E.
  - vm_compute in E. now injection E as <- _.
  - rewrite Hsrc. f_equal. vm_compute in Hhead. now injection Hhead.
Defined.

(** ** A failing synthesis *)

(** X7.  When the synthesis chain raises, [answer_question] swallows the
    exception, so the pipeline cannot answer from the knowledge base: the
    result is a ticket, even if a candidate passed the gate, and the
    confidence of the knowledge result is "none", "low" or "error". *)
Theorem synthesis_failure_creates_ticket (w : World)
    (question user_id channel_id : string) (environment deadline : option string)
    (s s' : Env) (r : PipelineResult) :
  (forall search_results, exists e, knowledge_chain w question search_results = Raise e) ->
  SupervisorAgent.process_inquiry w question user_id channel_id environment deadline s =
    (Ok r, s') ->
  r_action r = "create_ticket" /\ r_requires_ticket r = true /\
  is_Some (r_ticket_details r) /\ r_answer r = None /\
  kb_found (r_knowledge_base r) = false /\
  In (kb_confidence (r_knowledge_base r)) ["none"; "low"; "error"].
Proof.
  intros Hfail Hrun.
  destruct (process_inquiry_returned w question user_id channel_id environment deadline
              s r s' Hrun)
    as (classification & kb & s2 & _ & Hkb & Hbranch).
  assert (Hkbshape : kb_found kb = false /\ In (kb_confidence kb) ["none"; "low"; "error"]).
  { destruct (search_knowledge_base_ok w question 3 (log (ClassifierInvoke question) s))
      as (candidates & s1 & Hs).
    rewrite (answer_question_run _ _ _ _ _ Hs) in Hkb.
    destruct candidates as [|c cs]; [injection Hkb as <- _; simpl; auto|].
    destruct (List.filter KnowledgeAgent.passes_gate (c :: cs)) as [|best rest];
      [injection Hkb as <- _; simpl; auto|].
    destruct (formatted (best :: rest)) as [text|e0]; [|discriminate].
    destruct (Hfail text) as [e He]. rewrite He in Hkb.
    destruct e as [msg]. injection Hkb as <- _. simpl. auto. }
  destruct Hkbshape as [Hnot Hconf].
  destruct Hbranch as [[Hb _]|[_ (routing & s3 & _ & Hp)]].
  - apply answers_from_kb_iff in Hb. destruct Hb as [Hb _]. congruence.
  - rewrite Hp in Hrun. injection Hrun as <- _. simpl. auto 10.
Qed.

(** The seeded collection would answer the pod question, but the synthesis
    chain is down: a ticket, with confidence "error". *)
Lemma synthesis_failure_creates_ticket_witness :
  exists r s',
    SupervisorAgent.process_inquiry (synthesis_down (seeded_world (1 # 10) "")) pod_question
      "U1" "C1" None None empty_env = (Ok r, s') /\
    r_action r = "create_ticket" /\
    kb_confidence (r_knowledge_base r) = "error".
Proof.
  destruct (SupervisorAgent.process_inquiry (synthesis_down (seeded_world (1 # 10) ""))
              pod_question "U1" "C1" None None empty_env) as [[r|e] s'] eqn:E;
    [|exfalso; vm_compute in E; discriminate].
  exists r, s'. split; [reflexivity|]. split.
  - assert (Hdown : forall search_results,
               exists e, knowledge_chain (synthesis_down (seeded_world (1 # 10) ""))
                           pod_question search_results = Raise e)
      by (intros sr; eexists; reflexivity).
    apply (synthesis_failure_creates_ticket _ _ _ _ _ _ _ _ _ Hdown E).
  - vm_compute in E. now injection E as <- _.
Defined.

(** ** The team named by the router *)

Lemma filter_nil_none {A : Type} (f : A -> bool) (l : list A) :
  (forall y, In y l -> f y = false) -> List.filter f l = [].
Proof.
  induction l as [|a l IH]; intros H; [reflexivity|].
  simpl. rewrite (H a) by (left; reflexivity). apply IH. intros y Hy. apply H. now right.
Qed.

Lemma filter_head_first {A : Type} (f : A -> bool) (l : list A) (i : nat) (x : A) :
  l !! i = Some x -> f x = true ->
  (forall j y, (j < i)%nat -> l !! j = Some y -> f y = false) ->
  List.head (List.filter f l) = Some x.
Proof.
  revert i. induction l as [|a l IH]; intros i Hi Hx Hbefore; [destruct i; discriminate|].
  destruct i as [|i].
  - injection Hi as ->. simpl. now rewrite Hx.
  - simpl. rewrite (Hbefore 0%nat a) by (lia || reflexivity).
    apply (IH i Hi Hx). intros j y Hj Hy. apply (Hbefore (S j) y); [lia|exact Hy].
Qed.

Lemma extract_team_head (response : string) :
  RouterAgent._extract_team response =
  default "platform"
    (List.head (List.filter (fun team => Py.contains team (Py.lower response))
                            (map fst RouterAgent.TEAMS))).
Proof.
  unfold RouterAgent._extract_team.
  destruct (List.filter _ _); reflexivity.
Qed.

Lemma extract_team_is_a_team (response : string) :
  In (RouterAgent._extract_team response)
     ["platform"; "devops"; "database"; "security"; "network"].
Proof.
  rewrite extract_team_head.
  destruct (List.filter (fun team => Py.contains team (Py.lower response))
                        (map fst RouterAgent.TEAMS)) as [|team rest] eqn:E.
  - left. reflexivity.
  - assert (Hin : In team (List.filter (fun team => Py.contains team (Py.lower response))
                                       (map fst RouterAgent.TEAMS)))
      by (rewrite E; left; reflexivity).
    apply filter_In in Hin. exact (proj1 Hin).
Qed.

(** X8.  [route_inquiry] never raises and every routing decision names
    one of the five teams.  What decides is settled in order.  A keyword
    match gives that team with method "keyword" and confidence "high", and
    no collaborator is called.  Without one the router chain is called
    exactly once, with the category or "general" when the category is
    empty: when it answers, the decision is the team read in the answer
    with method "llm" and confidence "medium"; when it raises, the
    decision is platform with method "default" and confidence "low". *)
Theorem routing_decision_is_well_formed (w : World) (question category : string) (s : Env) :
  exists routing s',
    RouterAgent.route_inquiry w question category s = (Ok routing, s') /\
    In (rd_team routing) ["platform"; "devops"; "database"; "security"; "network"] /\
    (forall team,
        RouterAgent._keyword_match (Py.lower question) = Some team ->
        rd_team routing = team /\
        rd_method routing = "keyword" /\ rd_confidence routing = "high" /\ s' = s) /\
    (RouterAgent._keyword_match (Py.lower question) = None ->
     calls s' = calls s ++ [RouterInvoke question (Py.or_str category "general")] /\
     redis s' = redis s /\
     (forall response,
         router_chain w question (Py.or_str category "general") = Ok response ->
         rd_team routing = RouterAgent._extract_team response /\
         rd_method routing = "llm" /\ rd_confidence routing = "medium" /\
         rd_reason routing = Py.strip response) /\
     (forall e,
         router_chain w question (Py.or_str category "general") = Raise e ->
         rd_team routing = "platform" /\
         rd_method routing = "default" /\ rd_confidence routing = "low")).
Proof.
  rewrite route_inquiry_run.
  destruct (RouterAgent._keyword_match (Py.lower question)) as [team|] eqn:E.
  - eexists. eexists. split; [reflexivity|]. simpl. split; [|split; [|discriminate]].
    + destruct (keyword_match_some _ _ E) as (i & n & Hi & _).
      apply list_elem_of_lookup_2, list_elem_of_In in Hi.
      apply (in_map fst) in Hi. now rewrite team_scores_teams in Hi.
    + intros t Ht. injection Ht as <-. auto.
  - destruct (router_chain w question (Py.or_str category "general")) as [response|e].
    + eexists. eexists. split; [reflexivity|]. simpl.
      split; [apply extract_team_is_a_team|]. split; [discriminate|]. intros _.
      split; [reflexivity|]. split; [reflexivity|]. split; [|discriminate].
      intros r Hr. injection Hr as <-. auto.
    + eexists. eexists. split; [reflexivity|]. simpl.
      split; [auto|]. split; [discriminate|]. intros _.
      split; [reflexivity|]. split; [reflexivity|]. split; [discriminate|]. auto.
Qed.

(** No keyword in the question and a router chain that answers "devops":
    the model decides; with the chain down, platform by default. *)
Lemma routing_decision_is_well_formed_witness :
  (exists s',
      RouterAgent.route_inquiry (seeded_world (1 # 10) "") "the build is slow" "" empty_env =
      (Ok (llm_decision "devops - it concerns monitoring"), s') /\
      calls s' = [RouterInvoke "the build is slow" "general"]) /\
  (exists routing s',
      RouterAgent.route_inquiry dead_world "the build is slow" "" empty_env = (Ok routing, s') /\
      rd_team routing = "platform" /\ rd_method routing = "default").
Proof.
  split.
  - destruct (routing_decision_is_well_formed (seeded_world (1 # 10) "")
                "the build is slow" "" empty_env)
      as (routing & s' & Hrun & _ & _ & Hllm).
    destruct (Hllm eq_refl) as (Hcalls & _ & Hanswer & _).
    destruct (Hanswer _ eq_refl) as (Ht & Hm & Hc & Hr).
    exists s'. split; [|exact Hcalls].
    rewrite Hrun. f_equal. f_equal.
    destruct routing as [team method confidence reason]. simpl in *. now subst.
  - destruct (routing_decision_is_well_formed dead_world "the build is slow" "" empty_env)
      as (routing & s' & Hrun & _ & _ & Hllm).
    destruct (Hllm eq_refl) as (_ & _ & _ & Hraise).
    destruct (Hraise _ eq_refl) as (Ht & Hm & _).
    exists routing, s'. auto.
Defined.

(** X9.  [_extract_team] returns the first team of the enumeration
    platform, devops, database, security, network whose name occurs in
    the lower-cased response, wherever in the text the names stand, and
    platform when none occurs.  So a response that mentions platform at
    all is read as platform. *)
Theorem extract_team_first_in_enumeration (response : string) :
  let names := map fst RouterAgent.TEAMS in
  names = ["platform"; "devops"; "database"; "security"; "network"] /\
  In (RouterAgent._extract_team response) names /\
  ((forall team, In team names -> Py.contains team (Py.lower response) = false) ->
   RouterAgent._extract_team response = "platform") /\
  (forall i team,
      names !! i = Some team ->
      Py.contains team (Py.lower response) = true ->
      (forall j other, (j < i)%nat -> names !! j = Some other ->
                       Py.contains other (Py.lower response) = false) ->
      RouterAgent._extract_team response = team) /\
  (Py.contains "platform" (Py.lower response) = true ->
   RouterAgent._extract_team response = "platform").
Proof.
  intros names. split; [reflexivity|]. split; [apply extract_team_is_a_team|].
  assert (Hfirst : forall i team,
             names !! i = Some team ->
             Py.contains team (Py.lower response) = true ->
             (forall j other, (j < i)%nat -> names !! j = Some other ->
                              Py.contains other (Py.lower response) = false) ->
             RouterAgent._extract_team response = team).
  { intros i team Hi Hc Hbefore. rewrite extract_team_head. unfold names in *.
    now rewrite (filter_head_first _ _ i team Hi Hc Hbefore). }
  split; [|split; [exact Hfirst|]].
  - intros Hnone. rewrite extract_team_head. unfold names in *.
    now rewrite (filter_nil_none _ _ Hnone).
  - intros Hc. apply (Hfirst 0%nat "platform" eq_refl Hc). intros j other Hj. lia.
Qed.

Example extract_team_ignores_position :
  RouterAgent._extract_team "database - the storage layer, not the Platform" = "platform".
Proof. reflexivity. Qed.

(** ** Keywords of a single team *)

Lemma keyword_score_zero (keywords : list string) (text : string) :
  (forall keyword, In keyword keywords -> Py.contains keyword text = false) ->
  RouterAgent.keyword_score keywords text = 0%nat.
Proof.
  intros H. rewrite keyword_score_count.
  now rewrite (filter_nil_none (fun keyword => Py.contains keyword text) keywords H).
Qed.

Lemma keyword_score_positive (keywords : list string) (text keyword : string) :
  In keyword keywords -> Py.contains keyword text = true ->
  (0 < RouterAgent.keyword_score keywords text)%nat.
Proof.
  intros Hin Hc. rewrite keyword_score_count.
  assert (H : In keyword (List.filter (fun keyword => Py.contains keyword text) keywords))
    by (apply filter_In; auto).
  destruct (List.filter _ keywords); [destruct H|simpl; lia].
Qed.

Lemma TEAMS_names_distinct : NoDup (map fst RouterAgent.TEAMS).
Proof.
  simpl. repeat (constructor; [rewrite !list_elem_of_In; simpl; intuition discriminate|]).
  constructor.
Qed.

(** X10.  A question whose lower-cased text contains a keyword of one
    team and no keyword of any other team is routed to that team, with
    method "keyword" and confidence "high", without any model call. *)
Theorem single_team_keywords_route_to_that_team (w : World) (question category : string)
    (s : Env) (team : string) (keywords : list string) (keyword : string) :
  In (team, keywords) RouterAgent.TEAMS ->
  In keyword keywords ->
  Py.contains keyword (Py.lower question) = true ->
  (forall other other_keywords k,
      In (other, other_keywords) RouterAgent.TEAMS -> other <> team ->
      In k other_keywords -> Py.contains k (Py.lower question) = false) ->
  RouterAgent.route_inquiry w question category s =
  (Ok {| rd_team := team; rd_method := "keyword"; rd_confidence := "high";
         rd_reason := "Matched keywords for " +:+ team +:+ " team" |}, s).
Proof.
  intros Hteam Hkw Hc Hothers.
  rewrite route_inquiry_run.
  apply list_elem_of_In, list_elem_of_lookup_1 in Hteam. destruct Hteam as [i Hi].
  assert (Hscore : RouterAgent.team_scores (Py.lower question) !! i =
                   Some (team, RouterAgent.keyword_score keywords (Py.lower question))).
  { unfold RouterAgent.team_scores. rewrite list_lookup_fmap, Hi. reflexivity. }
  rewrite (keyword_match_first_maximum _ i team _ Hscore).
  - reflexivity.
  - eapply keyword_score_positive; eassumption.
  - intros j t m Hj. unfold RouterAgent.team_scores in Hj.
    rewrite list_lookup_fmap in Hj.
    destruct (RouterAgent.TEAMS !! j) as [[t' kws]|] eqn:Ej; [|discriminate].
    simpl in Hj. injection Hj as <- <-.
    destruct (decide (j = i)) as [->|Hne].
    + rewrite Hi in Ej. injection Ej as <- <-. split; [lia|lia].
    + assert (Hdiff : t' <> team).
      { intros ->. apply Hne.
        apply (NoDup_lookup _ j i team TEAMS_names_distinct).
        - rewrite list_lookup_fmap, Ej. reflexivity.
        - rewrite list_lookup_fmap, Hi. reflexivity. }
      rewrite (keyword_score_zero kws).
      * pose proof (keyword_score_positive _ _ _ Hkw Hc). lia.
      * intros k Hk. eapply Hothers; [|exact Hdiff|exact Hk].
        apply list_elem_of_In. eapply list_elem_of_lookup_2. exact Ej.
Qed.

Lemma single_team_keywords_route_to_that_team_witness :
  RouterAgent.route_inquiry dead_world "Our MySQL replica lags" "" empty_env =
  (Ok {| rd_team := "database"; rd_method := "keyword"; rd_confidence := "high";
         rd_reason := "Matched keywords for database team" |}, empty_env).
Proof.
  apply (single_team_keywords_route_to_that_team dead_world "Our MySQL replica lags" ""
           empty_env "database"
           ["postgres"; "postgresql"; "mysql"; "database"; "db"; "sql";
            "connection"; "query"; "performance"] "mysql").
  - simpl. tauto.
  - simpl. tauto.
  - reflexivity.
  - intros other other_keywords k Hin Hne Hk. simpl in Hin.
    destruct Hin as [H|[H|[H|[H|[H|[]]]]]]; injection H as <- <-;
      try congruence; simpl in Hk;
      repeat (destruct Hk as [<-|Hk]; [reflexivity|]); destruct Hk.
Defined.

(** ** The lines of a classifier response *)

Lemma append_cons (c : ascii) (a b : string) : String c a +:+ b = String c (a +:+ b).
Proof. reflexivity. Qed.

Lemma not_contains_char (sep : ascii) (s : string) :
  Py.contains (String sep EmptyString) s = false <-> Py.split_once sep s = None.
Proof.
  pose proof (split_once_contains sep s) as H.
  destruct (Py.contains (String sep EmptyString) s), (Py.split_once sep s) as [p|].
  - split; [discriminate|]. intros E. discriminate.
  - exfalso. destruct (proj1 H eq_refl) as [x Hx]. discriminate.
  - exfalso. assert (E : true = false) by (symmetry; apply H; eauto). discriminate.
  - split; reflexivity.
Qed.

Lemma split_nonempty (sep : ascii) (s : string) : Py.split sep s <> [].
Proof.
  destruct s as [|c t]; simpl; [discriminate|].
  destruct (Ascii.eqb c sep); [discriminate|].
  destruct (Py.split sep t); discriminate.
Qed.

Lemma split_app (sep : ascii) (a b : string) :
  Py.split sep (a +:+ String sep b) = Py.split sep a ++ Py.split sep b.
Proof.
  induction a as [|c a IH].
  - change (Py.split sep (String sep b) = [EmptyString] ++ Py.split sep b).
    simpl. now rewrite Ascii.eqb_refl.
  - rewrite append_cons. simpl. rewrite IH.
    destruct (Ascii.eqb c sep); [reflexivity|].
    pose proof (split_nonempty sep a) as Hne.
    destruct (Py.split sep a) as [|h r]; [contradiction|reflexivity].
Qed.

Lemma split_single (sep : ascii) (s : string) :
  Py.split_once sep s = None -> Py.split sep s = [s].
Proof.
  induction s as [|c t IH]; intros H; [reflexivity|].
  simpl in *. destruct (Ascii.eqb c sep); [discriminate|].
  destruct (Py.split_once sep t) as [[k v]|]; [discriminate|].
  now rewrite IH.
Qed.

Lemma split_once_app (sep : ascii) (key value : string) :
  Py.split_once sep key = None ->
  Py.split_once sep (key +:+ String sep value) = Some (key, value).
Proof.
  induction key as [|c key IH]; intros H.
  - change (Py.split_once sep (String sep value) = Some (EmptyString, value)).
    simpl. now rewrite Ascii.eqb_refl.
  - rewrite append_cons. simpl in *. destruct (Ascii.eqb c sep); [discriminate|].
    destruct (Py.split_once sep key) as [[k v]|]; [discriminate|].
    now rewrite IH.
Qed.

Lemma split_once_none_app (sep : ascii) (a b : string) :
  Py.split_once sep a = None -> Py.split_once sep b = None ->
  Py.split_once sep (a +:+ b) = None.
Proof.
  intros Ha Hb. induction a as [|c a IH]; [exact Hb|].
  rewrite append_cons. simpl in *. destruct (Ascii.eqb c sep); [discriminate|].
  destruct (Py.split_once sep a) as [[k v]|]; [discriminate|].
  now rewrite IH.
Qed.

(** A response that ends in one more line is parsed as the response
    before it, followed by that line. *)
Lemma parsed_last_line (response line : string) :
  Py.contains Py.nl line = false ->
  parsed (response +:+ Py.nl +:+ line) =
  SupervisorAgent.classify_line (parsed response) line.
Proof.
  intros Hline. apply not_contains_char in Hline.
  unfold parsed.
  change (response +:+ Py.nl +:+ line) with (response +:+ String (ascii_of_nat 10) line).
  rewrite split_app, fold_left_app, (split_single _ _ Hline). reflexivity.
Qed.

(** X11.  The classifier's parser lets a later line win: a response
    followed by one more line [key:value] is classified as the response
    alone, except for the one field the key names, which takes the
    trimmed, lower-cased value.  The key is tested for "urgency" first,
    then "category", then "needs" or "ticket", as a substring and in any
    letter case; a key that matches none changes nothing. *)
Theorem later_line_overrides_earlier (response key value : string) :
  Py.contains Py.nl key = false ->
  Py.contains Py.nl value = false ->
  Py.contains ":" key = false ->
  let before := parsed response in
  let after := parsed (response +:+ Py.nl +:+ key +:+ ":" +:+ value) in
  let field := Py.lower (Py.strip value) in
  (Py.contains "urgency" (normalised_key key) = true ->
   after = {| cl_urgency := Some field; cl_category := cl_category before;
              cl_needs_ticket := cl_needs_ticket before |}) /\
  (Py.contains "urgency" (normalised_key key) = false ->
   Py.contains "category" (normalised_key key) = true ->
   after = {| cl_urgency := cl_urgency before; cl_category := Some field;
              cl_needs_ticket := cl_needs_ticket before |}) /\
  (Py.contains "urgency" (normalised_key key) = false ->
   Py.contains "category" (normalised_key key) = false ->
   Py.contains "needs" (normalised_key key) = true \/
   Py.contains "ticket" (normalised_key key) = true ->
   after = {| cl_urgency := cl_urgency before; cl_category := cl_category before;
              cl_needs_ticket := Some (String.eqb field "yes") |}) /\
  (Py.contains "urgency" (normalised_key key) = false ->
   Py.contains "category" (normalised_key key) = false ->
   Py.contains "needs" (normalised_key key) = false ->
   Py.contains "ticket" (normalised_key key) = false ->
   after = before).
Proof.
  intros Hk Hv Hc before after field.
  assert (Hline : Py.contains Py.nl (key +:+ ":" +:+ value) = false).
  { apply not_contains_char. apply not_contains_char in Hk, Hv.
    change (key +:+ ":" +:+ value) with (key +:+ String ":" value).
    apply split_once_none_app; [exact Hk|]. simpl. now rewrite Hv. }
  assert (Hafter : after =
                   SupervisorAgent.classify_line before (key +:+ ":" +:+ value)).
  { unfold after, before.
    change (response +:+ Py.nl +:+ key +:+ ":" +:+ value)
      with (response +:+ Py.nl +:+ (key +:+ ":" +:+ value)).
    now apply parsed_last_line. }
  assert (Hsplit : Py.split_once ":" (key +:+ ":" +:+ value) = Some (key, value)).
  { apply not_contains_char in Hc.
    change (key +:+ ":" +:+ value) with (key +:+ String ":" value).
    now apply split_once_app. }
  rewrite Hafter. unfold SupervisorAgent.classify_line. rewrite Hsplit.
  fold (normalised_key key). fold field.
  split; [|split; [|split]].
  - intros ->. reflexivity.
  - intros -> ->. reflexivity.
  - intros -> -> [->| ->]; [reflexivity|].
    destruct (Py.contains "needs" (normalised_key key)); reflexivity.
  - intros -> -> -> ->. reflexivity.
Qed.

(** A second URGENCY line, in another letter case, replaces the first. *)
Lemma later_line_overrides_earlier_witness :
  parsed ("URGENCY: low" +:+ Py.nl +:+ "CATEGORY: network" +:+ Py.nl +:+
          "Urgency" +:+ ":" +:+ "  CRITICAL ") =
  {| cl_urgency := Some "critical"; cl_category := Some "network";
     cl_needs_ticket := None |}.
Proof.
  apply (later_line_overrides_earlier
           ("URGENCY: low" +:+ Py.nl +:+ "CATEGORY: network") "Urgency" "  CRITICAL ");
    reflexivity.
Defined.

(** ** Normalised classification values *)

Lemma is_whitespace_lower (c : ascii) :
  Py.is_whitespace (Py.lower_char c) = Py.is_whitespace c.
Proof. destruct c as [[] [] [] [] [] [] [] []]; reflexivity. Qed.

Lemma lstrip_lower (s : string) : Py.lstrip (Py.lower s) = Py.lower (Py.lstrip s).
Proof.
  induction s as [|c t IH]; [reflexivity|].
  simpl. rewrite is_whitespace_lower. destruct (Py.is_whitespace c); [exact IH|reflexivity].
Qed.

Lemma rstrip_step (c : ascii) (t : string) :
  Py.rstrip (String c t) =
  match Py.rstrip t with
  | EmptyString => if Py.is_whitespace c then EmptyString else String c EmptyString
  | t' => String c t'
  end.
Proof. reflexivity. Qed.

Lemma rstrip_lower (s : string) : Py.rstrip (Py.lower s) = Py.lower (Py.rstrip s).
Proof.
  induction s as [|c t IH]; [reflexivity|].
  change (Py.lower (String c t)) with (String (Py.lower_char c) (Py.lower t)).
  rewrite !rstrip_step, IH, is_whitespace_lower.
  destruct (Py.rstrip t); simpl; [destruct (Py.is_whitespace c)|]; reflexivity.
Qed.

Lemma rstrip_idempotent (s : string) : Py.rstrip (Py.rstrip s) = Py.rstrip s.
Proof.
  induction s as [|c t IH]; [reflexivity|].
  rewrite (rstrip_step c t). destruct (Py.rstrip t) as [|c' t'] eqn:E.
  - destruct (Py.is_whitespace c) eqn:Ec; [reflexivity|].
    rewrite rstrip_step. simpl. now rewrite Ec.
  - rewrite rstrip_step, IH. reflexivity.
Qed.

Lemma lstrip_clean_front (s : string) : clean_front (Py.lstrip s).
Proof.
  induction s as [|c t IH]; [exact I|].
  simpl. destruct (Py.is_whitespace c) eqn:E; [exact IH|exact E].
Qed.

Lemma lstrip_of_clean_front (s : string) : clean_front s -> Py.lstrip s = s.
Proof. destruct s as [|c t]; [reflexivity|]. simpl. now intros ->. Qed.

Lemma rstrip_clean_front (s : string) : clean_front s -> clean_front (Py.rstrip s).
Proof.
  destruct s as [|c t]; [intros _; exact I|].
  rewrite rstrip_step. simpl. intros Hc. destruct (Py.rstrip t); [rewrite Hc|]; exact Hc.
Qed.

Lemma strip_idempotent (s : string) : Py.strip (Py.strip s) = Py.strip s.
Proof.
  unfold Py.strip.
  rewrite (lstrip_of_clean_front (Py.rstrip (Py.lstrip s)))
    by apply rstrip_clean_front, lstrip_clean_front.
  apply rstrip_idempotent.
Qed.

Lemma strip_lower (s : string) : Py.strip (Py.lower s) = Py.lower (Py.strip s).
Proof. unfold Py.strip. now rewrite lstrip_lower, rstrip_lower. Qed.

(** The value the parser stores for a line is trimmed and in lower case. *)
Lemma field_value_normalised (value : string) :
  Py.lower (Py.lower (Py.strip value)) = Py.lower (Py.strip value) /\
  Py.strip (Py.lower (Py.strip value)) = Py.lower (Py.strip value).
Proof.
  split; [apply lower_idempotent|].
  now rewrite strip_lower, strip_idempotent.
Qed.

(** X12.  The urgency and the category of every classification returned
    by [_classify_inquiry] are normalised: in lower case, with no
    whitespace at either end.  This holds for a parsed response and for
    the default alike. *)
Theorem classification_values_are_normalised (w : World) (question : string) (s s' : Env)
    (classification : Classification) :
  SupervisorAgent._classify_inquiry w question s = (Ok classification, s') ->
  (forall u, cl_urgency classification = Some u -> Py.lower u = u /\ Py.strip u = u) /\
  (forall c, cl_category classification = Some c -> Py.lower c = c /\ Py.strip c = c).
Proof.
  rewrite classify_inquiry_run. intros H. injection H as <- _.
  destruct (classifier_chain w question) as [response|e].
  - unfold parsed.
    assert (Hfold : forall lines c0,
               ((forall u, cl_urgency c0 = Some u -> Py.lower u = u /\ Py.strip u = u) /\
                (forall c, cl_category c0 = Some c -> Py.lower c = c /\ Py.strip c = c)) ->
               (forall u, cl_urgency (fold_left SupervisorAgent.classify_line lines c0) = Some u ->
                          Py.lower u = u /\ Py.strip u = u) /\
               (forall c, cl_category (fold_left SupervisorAgent.classify_line lines c0) = Some c ->
                          Py.lower c = c /\ Py.strip c = c)).
    { induction lines as [|line lines IH]; intros c0 Hc0; [exact Hc0|].
      simpl. apply IH. unfold SupervisorAgent.classify_line.
      destruct (Py.split_once ":" line) as [[key0 value0]|]; [|exact Hc0].
      destruct Hc0 as [Hu Hc].
      destruct (Py.contains "urgency" _).
      { simpl. split; [|exact Hc].
        intros u H. injection H as <-. apply field_value_normalised. }
      destruct (Py.contains "category" _).
      { simpl. split; [exact Hu|].
        intros c H. injection H as <-. apply field_value_normalised. }
      destruct (_ || _); simpl; split; assumption. }
    apply Hfold. split; discriminate.
  - simpl. split; intros x H; injection H as <-; split; reflexivity.
Qed.

Lemma classification_values_are_normalised_witness :
  exists classification s',
    SupervisorAgent._classify_inquiry
      (seeded_world (1 # 10) ("Urgency:   HIGH  " +:+ Py.nl +:+ "category: Data_Base"))
      "is the cluster ok?" empty_env = (Ok classification, s') /\
    cl_urgency classification = Some "high" /\
    cl_category classification = Some "data_base" /\
    Py.strip "high" = "high" /\ Py.lower "data_base" = "data_base".
Proof.
  destruct (SupervisorAgent._classify_inquiry
              (seeded_world (1 # 10) ("Urgency:   HIGH  " +:+ Py.nl +:+ "category: Data_Base"))
              "is the cluster ok?" empty_env) as [[classification|e] s'] eqn:E;
    [|exfalso; vm_compute in E; discriminate].
  exists classification, s'. split; [reflexivity|].
  assert (Hu : cl_urgency classification = Some "high")
    by (vm_compute in E; now injection E as <- _).
  assert (Hc : cl_category classification = Some "data_base")
    by (vm_compute in E; now injection E as <- _).
  split; [exact Hu|]. split; [exact Hc|].
  destruct (classification_values_are_normalised _ _ _ _ _ E) as [Hurg Hcat].
  split; [exact (proj2 (Hurg _ Hu))|exact (proj1 (Hcat _ Hc))].
Defined.

(** ** The calls of one inquiry *)

Lemma search_calls (w : World) (query : string) (k : nat) (s s' : Env)
    (results : list KnowledgeMatch) :
  VectorStore.search w query k s = (Ok results, s') ->
  exists backend,
    calls s' = calls s ++ backend /\
    (forall c, In c backend -> is_model_call c = false) /\
    (length backend <= 2)%nat.
Proof.
  unfold VectorStore.search, try_except, bind, call, lift, ret.
  destruct (embed_query w query) as [v|e].
  - destruct (collection_query w v k) as [res|e];
      [destruct (VectorStore.format_results res)|];
      intros H; injection H as _ <-;
      exists [EmbedQuery query; CollectionQuery v k]; simpl;
      (split; [now rewrite <- app_assoc|]); (split; [|lia]);
      intros c [<-|[<-|[]]]; reflexivity.
  - intros H; injection H as _ <-. exists [EmbedQuery query]. simpl.
    split; [reflexivity|]. split; [|lia]. intros c [<-|[]]; reflexivity.
Qed.

Lemma search_knowledge_base_calls (w : World) (query : string) (k : nat) (s s' : Env)
    (results : list KnowledgeMatch) :
  KnowledgeAgent.search_knowledge_base w query k s = (Ok results, s') ->
  exists retrieval,
    calls s' = calls s ++ RedisGet (KnowledgeAgent.cache_key query) :: retrieval /\
    (forall c, In c retrieval -> is_model_call c = false) /\
    (length retrieval <= 3)%nat.
Proof.
  intros Hrun.
  destruct (search_knowledge_base_cases _ _ _ _ _ _ Hrun)
    as [(_ & _ & _ & ->)|(t1 & Hs & Hrest)].
  - exists []. simpl. split; [reflexivity|]. split; [intros c []|lia].
  - destruct (search_calls _ _ _ _ _ _ Hs) as (backend & Hb & Hnm & Hlen).
    simpl in Hb. rewrite <- app_assoc in Hb. simpl in Hb.
    destruct Hrest as [(_ & -> & _)|(_ & Hcalls & _)].
    + exists backend. split; [exact Hb|]. split; [exact Hnm|lia].
    + exists (backend ++ [RedisSetex (KnowledgeAgent.cache_key query) 3600 results]).
      split; [rewrite Hcalls, Hb, <- app_assoc; reflexivity|].
      split.
      * intros c Hc. apply in_app_or in Hc. destruct Hc as [Hc|[<-|[]]]; [auto|reflexivity].
      * rewrite length_app. simpl. lia.
Qed.

Lemma answer_question_calls (w : World) (question : string) (s s' : Env) (kb : KbResult) :
  KnowledgeAgent.answer_question w question s = (Ok kb, s') ->
  exists retrieval synthesis,
    calls s' = calls s ++ RedisGet (KnowledgeAgent.cache_key question) ::
                          retrieval ++ synthesis /\
    (forall c, In c retrieval -> is_model_call c = false) /\
    (length retrieval <= 3)%nat /\
    (synthesis = [] \/ exists text, synthesis = [KnowledgeInvoke question text]) /\
    (kb_found kb = true -> synthesis <> []).
Proof.
  intros Hrun.
  destruct (search_knowledge_base_ok w question 3 s) as (candidates & s1 & Hs).
  destruct (search_knowledge_base_calls _ _ _ _ _ _ Hs) as (retrieval & Hcalls & Hnm & Hlen).
  rewrite (answer_question_run _ _ _ _ _ Hs) in Hrun.
  exists retrieval.
  assert (Hquiet : (Ok kb, s') = (Ok kb, s1) -> kb_found kb = false ->
                   exists synthesis,
                     calls s' = calls s ++ RedisGet (KnowledgeAgent.cache_key question) ::
                                           retrieval ++ synthesis /\
                     (forall c, In c retrieval -> is_model_call c = false) /\
                     (length retrieval <= 3)%nat /\
                     (synthesis = [] \/
                      exists text, synthesis = [KnowledgeInvoke question text]) /\
                     (kb_found kb = true -> synthesis <> [])).
  { intros H Hf. injection H as ->. exists []. rewrite app_nil_r.
    split; [exact Hcalls|]. split; [exact Hnm|]. split; [exact Hlen|].
    split; [auto|congruence]. }
  destruct candidates as [|c cs].
  { injection Hrun as <- <-. now apply Hquiet. }
  destruct (List.filter KnowledgeAgent.passes_gate (c :: cs)) as [|best rest].
  { injection Hrun as <- <-. now apply Hquiet. }
  destruct (formatted (best :: rest)) as [text|e]; [|discriminate].
  exists [KnowledgeInvoke question text].
  assert (Hc2 : calls (log (KnowledgeInvoke question text) s1) =
                calls s ++ RedisGet (KnowledgeAgent.cache_key question) ::
                           retrieval ++ [KnowledgeInvoke question text]).
  { simpl. rewrite Hcalls, <- app_assoc. reflexivity. }
  destruct (knowledge_chain w question text) as [answer|[msg]]; injection Hrun as <- <-;
    (split; [exact Hc2|]); (split; [exact Hnm|]); (split; [exact Hlen|]);
    (split; [eauto|discriminate]).
Qed.

(** X13.  The calls of one inquiry, in order: the classifier chain, the
    cache lookup for the question, at most three calls to the embedding
    model, the collection and the cache, then the synthesis chain at most
    once and the router chain at most once.  So an inquiry makes at most
    three model calls.  An answer from the knowledge base has called the
    synthesis chain and not the router chain; the router chain is called
    only for a ticket whose question contains no team keyword. *)
Theorem inquiry_call_sequence (w : World) (question user_id channel_id : string)
    (environment deadline : option string) (s s' : Env) (r : PipelineResult) :
  SupervisorAgent.process_inquiry w question user_id channel_id environment deadline s =
    (Ok r, s') ->
  exists retrieval synthesis routing,
    calls s' =
      calls s ++ ClassifierInvoke question ::
                 RedisGet (KnowledgeAgent.cache_key question) ::
                 retrieval ++ synthesis ++ routing /\
    (forall c, In c retrieval -> is_model_call c = false) /\
    (length retrieval <= 3)%nat /\
    (synthesis = [] \/ exists text, synthesis = [KnowledgeInvoke question text]) /\
    (routing = [] \/ exists category, routing = [RouterInvoke question category]) /\
    (r_action r = "answer_from_kb" -> synthesis <> [] /\ routing = []) /\
    (routing <> [] ->
     r_action r = "create_ticket" /\
     RouterAgent._keyword_match (Py.lower question) = None) /\
    (length (List.filter is_model_call
               (ClassifierInvoke question ::
                RedisGet (KnowledgeAgent.cache_key question) ::
                retrieval ++ synthesis ++ routing)) <= 3)%nat.
Proof.
  intros Hrun.
  destruct (process_inquiry_returned w question user_id channel_id environment deadline
              s r s' Hrun)
    as (classification & kb & s2 & _ & Hkb & Hbranch).
  destruct (answer_question_calls _ _ _ _ _ Hkb)
    as (retrieval & synthesis & Hcalls & Hnm & Hlen & Hsyn & Hfound).
  simpl in Hcalls. rewrite <- app_assoc in Hcalls. simpl in Hcalls.
  assert (Hcount : forall routing,
             (length routing <= 1)%nat ->
             (length (List.filter is_model_call
                        (ClassifierInvoke question ::
                         RedisGet (KnowledgeAgent.cache_key question) ::
                         retrieval ++ synthesis ++ routing)) <= 3)%nat).
  { intros routing Hr. simpl. rewrite !List.filter_app, !length_app.
    rewrite (filter_nil_none is_model_call retrieval Hnm). simpl.
    pose proof (List.filter_length_le is_model_call synthesis).
    pose proof (List.filter_length_le is_model_call routing).
    assert (length synthesis <= 1)%nat
      by (destruct Hsyn as [->|[text ->]]; simpl; lia).
    lia. }
  exists retrieval, synthesis.
  destruct Hbranch as [[Hb Hp]|[Hb (routing & s3 & Hr & Hp)]];
    rewrite Hp in Hrun; injection Hrun as <- <-.
  - exists []. rewrite app_nil_r. split; [exact Hcalls|].
    split; [exact Hnm|]. split; [exact Hlen|]. split; [exact Hsyn|]. split; [auto|].
    split; [|split].
    + intros _. split; [|reflexivity]. apply Hfound.
      apply answers_from_kb_iff in Hb. tauto.
    + intros H. contradiction.
    + specialize (Hcount []). rewrite app_nil_r in Hcount. apply Hcount. simpl. lia.
  - rewrite route_inquiry_run in Hr.
    destruct (RouterAgent._keyword_match (Py.lower question)) as [team|] eqn:Ek.
    + injection Hr as _ <-. exists []. rewrite app_nil_r. split; [exact Hcalls|].
      split; [exact Hnm|]. split; [exact Hlen|]. split; [exact Hsyn|]. split; [auto|].
      split; [|split].
      * simpl. discriminate.
      * intros H. contradiction.
      * specialize (Hcount []). rewrite app_nil_r in Hcount. apply Hcount. simpl. lia.
    + set (category := Py.or_str (default "" (cl_category classification)) "general") in *.
      assert (Hs3 : calls s3 = calls s2 ++ [RouterInvoke question category])
        by (destruct (router_chain w question category); injection Hr as _ <-; reflexivity).
      exists [RouterInvoke question category]. split.
      { rewrite Hs3, Hcalls, <- app_assoc. simpl. now rewrite <- app_assoc. }
      split; [exact Hnm|]. split; [exact Hlen|]. split; [exact Hsyn|].
      split; [right; eauto|]. split; [|split].
      * simpl. discriminate.
      * intros _. simpl. auto.
      * apply Hcount. simpl. lia.
Qed.

(** The whole sequence, for a question without keyword that the seeded
    collection cannot answer (distance 0.45): classifier, cache lookup,
    embedding, collection, cache write, router. *)
Lemma inquiry_call_sequence_witness :
  exists r s',
    SupervisorAgent.process_inquiry (seeded_world (45 # 100) "") "the build is slow"
      "U1" "C1" None None empty_env = (Ok r, s') /\
    exists retrieval synthesis routing,
      calls s' =
        ClassifierInvoke "the build is slow" ::
        RedisGet (KnowledgeAgent.cache_key "the build is slow") ::
        retrieval ++ synthesis ++ routing /\
      (length retrieval <= 3)%nat /\
      (routing = [] \/ exists category, routing = [RouterInvoke "the build is slow" category]).
Proof.
  destruct (SupervisorAgent.process_inquiry (seeded_world (45 # 100) "") "the build is slow"
              "U1" "C1" None None empty_env) as [[r|e] s'] eqn:E;
    [|exfalso; vm_compute in E; discriminate].
  exists r, s'. split; [reflexivity|].
  destruct (inquiry_call_sequence _ _ _ _ _ _ _ _ _ E)
    as (retrieval & synthesis & routing & Hcalls & _ & Hlen & _ & Hrouting & _).
  exists retrieval, synthesis, routing. auto.
Defined.

(** ** Markers in a ticket response *)

Lemma append_assoc (a b c : string) : (a +:+ b) +:+ c = a +:+ (b +:+ c).
Proof. induction a as [|x a IH]; [reflexivity|]. rewrite !append_cons. now rewrite IH. Qed.

(** A pattern without the character [c] cannot start across a [c]. *)
Lemma startswith_before_char (c : ascii) (p a b : string) :
  Py.split_once c p = None ->
  Py.startswith p (a +:+ String c b) = Py.startswith p a.
Proof.
  revert p. induction a as [|x a IH]; intros p Hp.
  - change (EmptyString +:+ String c b) with (String c b).
    destruct p as [|y p]; [reflexivity|].
    simpl in *. destruct (Ascii.eqb y c); [discriminate|reflexivity].
  - rewrite append_cons. destruct p as [|y p]; [reflexivity|].
    simpl in *. destruct (Ascii.eqb y x); [|reflexivity].
    apply IH. destruct (Ascii.eqb y c); [discriminate|].
    destruct (Py.split_once c p) as [[k v]|]; [discriminate|reflexivity].
Qed.

(** So it occurs in a text exactly when it occurs on one side of a [c]. *)
Lemma contains_across_char (c : ascii) (p a b : string) :
  Py.split_once c p = None ->
  Py.contains p (a +:+ String c b) = Py.contains p a || Py.contains p b.
Proof.
  intros Hp. induction a as [|x a IH].
  - change (EmptyString +:+ String c b) with (String c b).
    pose proof (startswith_before_char c p EmptyString b Hp) as H.
    change (EmptyString +:+ String c b) with (String c b) in H.
    simpl. rewrite H. now rewrite orb_false_r.
  - rewrite append_cons.
    pose proof (startswith_before_char c p (String x a) b Hp) as H.
    rewrite append_cons in H.
    simpl. rewrite H, IH. simpl. now rewrite orb_assoc.
Qed.

(** A text without the character [c] holds no pattern that has it. *)
Lemma startswith_needs_char (c : ascii) (p s : string) :
  is_Some (Py.split_once c p) -> Py.split_once c s = None -> Py.startswith p s = false.
Proof.
  revert s. induction p as [|y p IH]; intros s [kv Hp] Hs; [discriminate|].
  destruct s as [|x s]; [reflexivity|].
  simpl in *. destruct (Ascii.eqb y x) eqn:Eyx; [|reflexivity].
  apply Ascii.eqb_eq in Eyx. subst x.
  destruct (Ascii.eqb y c); [discriminate|].
  destruct (Py.split_once c s) as [[k v]|] eqn:Es; [discriminate|].
  apply IH; [|exact Es].
  destruct (Py.split_once c p) as [[k v]|]; [eauto|discriminate].
Qed.

Lemma contains_needs_char (c : ascii) (p s : string) :
  is_Some (Py.split_once c p) -> Py.split_once c s = None -> Py.contains p s = false.
Proof.
  intros Hp. induction s as [|x s IH]; intros Hs.
  - simpl. now rewrite (startswith_needs_char c p EmptyString Hp Hs).
  - simpl. rewrite (startswith_needs_char c p (String x s) Hp Hs). simpl.
    apply IH. simpl in Hs. destruct (Ascii.eqb x c); [discriminate|].
    destruct (Py.split_once c s) as [[k v]|] eqn:Es; [discriminate|reflexivity].
Qed.

Lemma contains_false_tail (p : string) (x : ascii) (s : string) :
  Py.contains p (String x s) = false ->
  Py.startswith p (String x s) = false /\ Py.contains p s = false.
Proof. simpl. intros H. apply orb_false_elim in H. exact H. Qed.

(** A text that does not contain the separator is the only piece. *)
Lemma split_str_single (sep s : string) :
  Py.contains sep s = false -> PyMore.split_str sep s = [s].
Proof.
  unfold PyMore.split_str. induction s as [|x s IH]; intros H; [reflexivity|].
  destruct (contains_false_tail _ _ _ H) as [Hs Ht].
  simpl PyMore.split_from. rewrite Hs. now rewrite (IH Ht).
Qed.

(** ** A created ticket, read back by the bot *)

Lemma parse_line_other (acc : string * string) (line : string) :
  Py.contains "Ticket created:" line = false -> Py.contains "URL:" line = false ->
  SlackBotModel.parse_line acc line = Ok acc.
Proof.
  intros H1 H2. unfold SlackBotModel.parse_line. rewrite H1, H2.
  destruct acc; reflexivity.
Qed.

Lemma parse_line_created (acc : string * string) (ticket_id : string) :
  Py.contains ":" ticket_id = false ->
  SlackBotModel.parse_line acc ("Ticket created: " +:+ ticket_id) =
  Ok (Py.strip ticket_id, snd acc).
Proof.
  intros Hcolon. unfold SlackBotModel.parse_line.
  assert (H1 : Py.contains "Ticket created:" ("Ticket created: " +:+ ticket_id) = true)
    by reflexivity.
  assert (H2 : Py.contains "URL:" ("Ticket created: " +:+ ticket_id) =
               Py.contains "URL:" ticket_id) by reflexivity.
  rewrite H1, H2.
  apply not_contains_char in Hcolon.
  rewrite (contains_needs_char ":" "URL:" ticket_id) by (eauto || exact Hcolon).
  change ("Ticket created: " +:+ ticket_id)
    with ("Ticket created" +:+ String ":" (String " " ticket_id)).
  rewrite split_app.
  rewrite (split_single ":" (String " " ticket_id)) by (simpl; now rewrite Hcolon).
  reflexivity.
Qed.

Lemma parse_line_url (acc : string * string) (ticket_url : string) :
  Py.contains "Ticket created:" ticket_url = false ->
  Py.contains "URL:" ticket_url = false ->
  SlackBotModel.parse_line acc ("URL: " +:+ ticket_url) = Ok (fst acc, Py.strip ticket_url).
Proof.
  intros Hcreated Hurl. unfold SlackBotModel.parse_line.
  assert (H1 : Py.contains "Ticket created:" ("URL: " +:+ ticket_url) =
               Py.contains "Ticket created:" ticket_url) by reflexivity.
  assert (H2 : Py.contains "URL:" ("URL: " +:+ ticket_url) = true) by reflexivity.
  assert (H3 : PyMore.split_str "URL:" ("URL: " +:+ ticket_url) =
               EmptyString ::
               match PyMore.split_str "URL:" ticket_url with
               | h :: r => String " " h :: r
               | [] => [String " " EmptyString]
               end) by reflexivity.
  rewrite H1, H2, H3, Hcreated, (split_str_single _ _ Hurl). reflexivity.
Qed.

Lemma team_line_has_no_marker (team : string) :
  In team ["platform"; "devops"; "database"; "security"; "network"] ->
  Py.split_once (ascii_of_nat 10) ("Team: " +:+ team) = None /\
  Py.contains "Ticket created:" ("Team: " +:+ team) = false /\
  Py.contains "URL:" ("Team: " +:+ team) = false.
Proof.
  simpl. intros [<-|[<-|[<-|[<-|[<-|[]]]]]]; repeat split.
Qed.

(** X14.  What the tracker creates, the bot reads back.  When the
    configured ticket tool gets status 201 and a ticket key, its response
    is parsed by the bot into that key and the browse URL of the ticket
    (each trimmed), provided the key holds no line break and no colon,
    the tracker URL holds no line break, and the browse URL does not
    itself contain one of the markers "Ticket created:" and "URL:". *)
Theorem created_ticket_is_read_back (http : Http)
    (jira_url project_key summary description team priority ticket_id : string)
    (response : CreateResponse) :
  http_post http (jira_url +:+ "/rest/api/2/issue")
            (JiraTools.payload project_key summary description team priority) = Ok response ->
  cr_status_code response = 201%nat ->
  cr_key response = Ok ticket_id ->
  Py.contains Py.nl ticket_id = false ->
  Py.contains ":" ticket_id = false ->
  Py.contains Py.nl jira_url = false ->
  Py.contains "URL:" (jira_url +:+ "/browse/" +:+ ticket_id) = false ->
  Py.contains "Ticket created:" (jira_url +:+ "/browse/" +:+ ticket_id) = false ->
  In team ["platform"; "devops"; "database"; "security"; "network"] ->
  SlackBotModel.parse_ticket_response
    (JiraTools.create_jira_ticket http jira_url project_key summary description team priority) =
  Ok (Py.strip ticket_id, Py.strip (jira_url +:+ "/browse/" +:+ ticket_id)).
Proof.
  intros Hpost Hcode Hkey Hidnl Hidcolon Hurlnl Hu Hc Hteam.
  unfold JiraTools.create_jira_ticket. rewrite Hpost, Hcode, Hkey. simpl Nat.eqb. cbv iota.
  set (ticket_url := jira_url +:+ "/browse/" +:+ ticket_id) in *.
  apply not_contains_char in Hidnl, Hurlnl.
  destruct (team_line_has_no_marker team Hteam) as (Ht1 & Ht2 & Ht3).
  assert (Hlines :
            "Ticket created: " +:+ ticket_id +:+ Py.nl +:+ "URL: " +:+ ticket_url +:+ Py.nl +:+
            "Status: Open" +:+ Py.nl +:+ "Team: " +:+ team =
            ("Ticket created: " +:+ ticket_id) +:+ String (ascii_of_nat 10)
              (("URL: " +:+ ticket_url) +:+ String (ascii_of_nat 10)
                 ("Status: Open" +:+ String (ascii_of_nat 10) ("Team: " +:+ team)))).
  { rewrite (append_assoc "Ticket created: " ticket_id).
    rewrite (append_assoc "URL: " ticket_url). reflexivity. }
  unfold SlackBotModel.parse_ticket_response.
  assert (Htop : Py.contains "Ticket created:"
                   ("Ticket created: " +:+ ticket_id +:+ Py.nl +:+ "URL: " +:+ ticket_url +:+
                    Py.nl +:+ "Status: Open" +:+ Py.nl +:+ "Team: " +:+ team) = true)
    by reflexivity.
  rewrite Htop, Hlines, !split_app.
  rewrite (split_single _ ("Ticket created: " +:+ ticket_id))
    by (apply split_once_none_app; [reflexivity|exact Hidnl]).
  rewrite (split_single _ ("URL: " +:+ ticket_url)).
  2:{ apply split_once_none_app; [reflexivity|].
      unfold ticket_url. apply split_once_none_app; [exact Hurlnl|].
      apply split_once_none_app; [reflexivity|exact Hidnl]. }
  rewrite (split_single _ "Status: Open") by reflexivity.
  rewrite (split_single _ ("Team: " +:+ team) Ht1).
  simpl app. unfold SlackBotModel.parse_lines.
  rewrite (parse_line_created _ _ Hidcolon). unfold rbind at 1.
  rewrite (parse_line_url _ _ Hc Hu). unfold rbind at 1.
  rewrite (parse_line_other _ "Status: Open") by reflexivity. unfold rbind at 1.
  rewrite (parse_line_other _ _ Ht2 Ht3). reflexivity.
Qed.

Lemma created_ticket_is_read_back_witness :
  SlackBotModel.parse_ticket_response
    (JiraTools.create_jira_ticket creating_http "https://jira.example.com" "INFRA"
       "our postgres is down" "details" "database" "Medium") =
  Ok ("INFRA-7", "https://jira.example.com/browse/INFRA-7").
Proof.
  apply (created_ticket_is_read_back creating_http "https://jira.example.com" "INFRA"
           "our postgres is down" "details" "database" "Medium" "INFRA-7"
           {| cr_status_code := 201; cr_text := EmptyString; cr_key := Ok "INFRA-7" |});
    try reflexivity.
  simpl. tauto.
Defined.

(** X15.  Without a configured tracker the ticket tool only echoes the
    draft, and the bot reads no ticket out of that echo: the id and the
    URL it reports are both "N/A", as long as the summary, the team and
    the priority do not themselves contain the marker "Ticket created:".
    The list of tools is never empty, and its first tool is the one that
    creates tickets. *)
Theorem disabled_tracker_reports_no_ticket (http : Http)
    (jira_url jira_email jira_token project_key : option string)
    (summary description team priority : string) :
  PyMore.all_truthy [jira_url; jira_email; jira_token; project_key] = false ->
  Py.contains "Ticket created:" summary = false ->
  Py.contains "Ticket created:" team = false ->
  Py.contains "Ticket created:" priority = false ->
  exists func,
    JiraTools.create_jira_tools http jira_url jira_email jira_token project_key =
      [CreateTicketTool func] /\
    func summary description team priority =
      "JIRA integration disabled. Would have created ticket:" +:+ Py.nl +:+
      "- Summary: " +:+ summary +:+ Py.nl +:+
      "- Team: " +:+ team +:+ Py.nl +:+
      "- Priority: " +:+ priority /\
    SlackBotModel.parse_ticket_response (func summary description team priority) =
      Ok ("N/A", "N/A").
Proof.
  intros Hconf Hs Ht Hp.
  exists JiraTools.create_jira_ticket_disabled.
  unfold JiraTools.create_jira_tools. rewrite Hconf. simpl negb. cbv iota.
  split; [reflexivity|]. split; [reflexivity|].
  unfold SlackBotModel.parse_ticket_response, JiraTools.create_jira_ticket_disabled.
  assert (Hno : Py.contains "Ticket created:"
                  ("JIRA integration disabled. Would have created ticket:" +:+ Py.nl +:+
                   "- Summary: " +:+ summary +:+ Py.nl +:+
                   "- Team: " +:+ team +:+ Py.nl +:+
                   "- Priority: " +:+ priority) = false).
  { assert (Hshape :
              "JIRA integration disabled. Would have created ticket:" +:+ Py.nl +:+
              "- Summary: " +:+ summary +:+ Py.nl +:+
              "- Team: " +:+ team +:+ Py.nl +:+ "- Priority: " +:+ priority =
              "JIRA integration disabled. Would have created ticket:" +:+
              String (ascii_of_nat 10)
                (("- Summary: " +:+ summary) +:+ String (ascii_of_nat 10)
                   (("- Team: " +:+ team) +:+ String (ascii_of_nat 10)
                      ("- Priority: " +:+ priority)))).
    { rewrite (append_assoc "- Summary: " summary).
      rewrite (append_assoc "- Team: " team). reflexivity. }
    rewrite Hshape.
    rewrite !(contains_across_char (ascii_of_nat 10) "Ticket created:") by reflexivity.
    assert (H1 : Py.contains "Ticket created:" ("- Summary: " +:+ summary) =
                 Py.contains "Ticket created:" summary) by reflexivity.
    assert (H2 : Py.contains "Ticket created:" ("- Team: " +:+ team) =
                 Py.contains "Ticket created:" team) by reflexivity.
    assert (H3 : Py.contains "Ticket created:" ("- Priority: " +:+ priority) =
                 Py.contains "Ticket created:" priority) by reflexivity.
    rewrite H1, H2, H3, Hs, Ht, Hp. reflexivity. }
  rewrite Hno. reflexivity.
Qed.

Lemma disabled_tracker_reports_no_ticket_witness :
  exists func,
    JiraTools.create_jira_tools creating_http None None None None = [CreateTicketTool func] /\
    SlackBotModel.parse_ticket_response
      (func "our postgres is down" "details" "database" "Medium") = Ok ("N/A", "N/A").
Proof.
  destruct (disabled_tracker_reports_no_ticket creating_http None None None None
              "our postgres is down" "details" "database" "Medium"
              eq_refl eq_refl eq_refl eq_refl) as (func & Htools & _ & Hparse).
  exists func. split; assumption.
Defined.

(** The marker in the question itself is taken for a ticket. *)
Example echoed_marker_is_read_as_ticket :
  SlackBotModel.parse_ticket_response
    (JiraTools.create_jira_ticket_disabled "Ticket created: yesterday, still open"
       "details" "database" "Medium") = Ok ("Ticket created", "N/A").
Proof. reflexivity. Qed.

(** ** A draft on its way to the tracker *)

Lemma take_all (n : nat) (s : string) : (String.length s <= n)%nat -> Py.take n s = s.
Proof.
  revert s. induction n as [|n IH]; intros s H.
  - destruct s; [reflexivity|simpl in H; lia].
  - destruct s as [|c t]; [reflexivity|]. simpl in *. rewrite IH; [reflexivity|lia].
Qed.

Lemma urgency_to_priority_range (urgency : string) :
  In (SupervisorAgent._urgency_to_priority urgency) ["Low"; "Medium"; "High"; "Critical"].
Proof.
  unfold SupervisorAgent._urgency_to_priority, SupervisorAgent.mapping.
  destruct (_ !! Py.lower urgency) as [v|] eqn:E; simpl; [|auto].
  apply lookup_insert_Some in E as [[_ <-]|[_ E]]; [auto|].
  apply lookup_insert_Some in E as [[_ <-]|[_ E]]; [auto|].
  apply lookup_insert_Some in E as [[_ <-]|[_ E]]; [auto|].
  apply lookup_insert_Some in E as [[_ <-]|[_ E]]; [auto|].
  rewrite lookup_empty in E. discriminate.
Qed.

Lemma summary_at_most_100 (question : string) (classification : Classification)
    (team : string) (environment deadline : option string) :
  (String.length (td_summary (SupervisorAgent._generate_ticket_details
                                question classification team environment deadline)) <= 100)%nat.
Proof.
  rewrite ticket_summary. destruct (100 <? String.length question)%nat eqn:E.
  - apply Nat.ltb_lt in E. rewrite append_length, take_length by lia. simpl. lia.
  - now apply Nat.ltb_ge in E.
Qed.

(** X16.  A draft made by [_generate_ticket_details] fits the tracker's
    ticket tool: its summary has at most 100 characters, so the tool's own
    cut at 100 leaves it whole, and its priority is one of Low, Medium,
    High, Critical.  The payload carries the labels team,
    "infrastructure", "automated": the category and urgency labels of the
    draft are not sent. *)
Theorem draft_fits_the_tracker (question : string) (classification : Classification)
    (team : string) (environment deadline : option string) (project_key : string) :
  let draft := SupervisorAgent._generate_ticket_details question classification team
                                                        environment deadline in
  let sent := JiraTools.payload project_key (td_summary draft) (td_description draft)
                                (td_team draft) (td_priority draft) in
  (String.length (td_summary draft) <= 100)%nat /\
  jp_summary sent = td_summary draft /\
  jp_description sent = td_description draft /\
  jp_priority sent = td_priority draft /\
  In (jp_priority sent) ["Low"; "Medium"; "High"; "Critical"] /\
  jp_labels sent = [team; "infrastructure"; "automated"] /\
  jp_issuetype sent = "Task" /\ jp_project_key sent = project_key.
Proof.
  intros draft sent.
  pose proof (summary_at_most_100 question classification team environment deadline) as Hlen.
  split; [exact Hlen|]. split; [apply take_all; exact Hlen|].
  split; [reflexivity|]. split; [reflexivity|].
  split; [apply urgency_to_priority_range|]. repeat split.
Qed.

(** ** The row saved for an inquiry *)

Lemma route_inquiry_team_is_a_team (w : World) (question category : string) (s s' : Env)
    (routing : RoutingDecision) :
  RouterAgent.route_inquiry w question category s = (Ok routing, s') ->
  In (rd_team routing) ["platform"; "devops"; "database"; "security"; "network"].
Proof.
  rewrite route_inquiry_run.
  destruct (RouterAgent._keyword_match (Py.lower question)) as [team|] eqn:E.
  - intros H. injection H as <- _. simpl.
    destruct (keyword_match_some _ _ E) as (i & n & Hi & _).
    apply list_elem_of_lookup_2, list_elem_of_In in Hi.
    apply (in_map fst) in Hi. now rewrite team_scores_teams in Hi.
  - destruct (router_chain w question (Py.or_str category "general")) as [response|e];
      intros H; injection H as <- _; simpl; [apply extract_team_is_a_team|auto].
Qed.

(** The two shapes of a pipeline result, with what each holds. *)
Lemma process_inquiry_shapes (w : World) (question user_id channel_id : string)
    (environment deadline : option string) (s s' : Env) (r : PipelineResult) :
  SupervisorAgent.process_inquiry w question user_id channel_id environment deadline s =
    (Ok r, s') ->
  r_question r = question /\ r_user_id r = user_id /\ r_channel_id r = channel_id /\
  ((r_action r = "answer_from_kb" /\
    (exists answer source,
        r_answer r = Some (Some answer) /\ r_source r = Some (Some source) /\
        joinable_tags source) /\
    r_assigned_team r = None /\ r_ticket_details r = None) \/
   (r_action r = "create_ticket" /\ r_answer r = None /\ r_source r = None /\
    exists team,
      r_assigned_team r = Some team /\
      In team ["platform"; "devops"; "database"; "security"; "network"] /\
      r_ticket_details r =
        Some (SupervisorAgent._generate_ticket_details
                question (r_classification r) team environment deadline))).
Proof.
  intros Hrun.
  destruct (process_inquiry_returned w question user_id channel_id environment deadline
              s r s' Hrun)
    as (classification & kb & s2 & _ & Hkb & [[Hb Hp]|[_ (routing & s3 & Hr & Hp)]]);
    rewrite Hp in Hrun; injection Hrun as <- _; simpl;
    (split; [reflexivity|]); (split; [reflexivity|]); (split; [reflexivity|]).
  - left. split; [reflexivity|]. split; [|auto].
    apply answers_from_kb_iff in Hb. destruct Hb as [Hfound _].
    destruct (answer_question_found _ _ _ _ _ Hkb Hfound) as (best & answer & Hs & Ha & _).
    exists answer, best. rewrite Ha, Hs.
    split; [reflexivity|]. split; [reflexivity|].
    exact (answer_question_found_joinable _ _ _ _ _ _ Hkb Hs).
  - right. split; [reflexivity|]. split; [reflexivity|]. split; [reflexivity|].
    exists (rd_team routing). split; [reflexivity|].
    split; [eapply route_inquiry_team_is_a_team; exact Hr|reflexivity].
Qed.

(** X17.  The row [_save_inquiry] builds from a pipeline result tells the
    branch consistently: it is marked resolved from the knowledge base
    exactly when the action was "answer_from_kb", exactly when its status
    is "resolved" (otherwise "open"), exactly when it holds an answer, and
    exactly when it names no team; a team it names is one of the five.
    The question, the requester and the channel are those of the
    inquiry. *)
Theorem saved_row_tells_the_branch (w : World) (question user_id channel_id : string)
    (environment deadline : option string) (s s' : Env) (r : PipelineResult) :
  SupervisorAgent.process_inquiry w question user_id channel_id environment deadline s =
    (Ok r, s') ->
  let row := SlackBotModel.inquiry_of r in
  (iq_resolved_from_kb row = true <-> r_action r = "answer_from_kb") /\
  (iq_resolved_from_kb row = true <-> iq_status row = "resolved") /\
  (iq_resolved_from_kb row = false <-> iq_status row = "open") /\
  (iq_resolved_from_kb row = true <-> is_Some (iq_kb_answer row)) /\
  (iq_resolved_from_kb row = true <-> iq_assigned_team row = None) /\
  (forall team, iq_assigned_team row = Some team ->
                In team ["platform"; "devops"; "database"; "security"; "network"]) /\
  iq_question row = question /\ iq_slack_user_id row = user_id /\
  iq_slack_channel_id row = channel_id /\
  iq_urgency row = cl_urgency (r_classification r) /\
  iq_category row = cl_category (r_classification r).
Proof.
  intros Hrun row.
  destruct (process_inquiry_shapes _ _ _ _ _ _ _ _ _ Hrun)
    as (Hq & Hu & Hc & [(Ha & (answer & source & Hans & _ & _) & Hteam & _)|
                        (Ha & Hans & _ & team & Hteam & Hin & _)]);
    unfold row, SlackBotModel.inquiry_of; simpl; rewrite Ha, Hans, Hteam; simpl.
  - repeat split; eauto; try discriminate; try congruence.
  - repeat split; eauto; try discriminate; try congruence.
    + intros [x Hx]. discriminate.
    + intros t Ht. injection Ht as <-. exact Hin.
Qed.

Lemma saved_row_tells_the_branch_witness :
  exists r s',
    SupervisorAgent.process_inquiry (seeded_world (1 # 10) "") pod_question "U1" "C1"
      None None empty_env = (Ok r, s') /\
    iq_resolved_from_kb (SlackBotModel.inquiry_of r) = true /\
    iq_status (SlackBotModel.inquiry_of r) = "resolved" /\
    iq_assigned_team (SlackBotModel.inquiry_of r) = None.
Proof.
  destruct (SupervisorAgent.process_inquiry (seeded_world (1 # 10) "") pod_question
              "U1" "C1" None None empty_env) as [[r|e] s'] eqn:E;
    [|exfalso; vm_compute in E; discriminate].
  exists r, s'. split; [reflexivity|].
  assert (Ha : r_action r = "answer_from_kb")
    by (vm_compute in E; injection E as <- _; reflexivity).
  destruct (saved_row_tells_the_branch _ _ _ _ _ _ _ _ _ E)
    as (H1 & H2 & _ & _ & H5 & _).
  assert (Hres : iq_resolved_from_kb (SlackBotModel.inquiry_of r) = true)
    by (apply H1; exact Ha).
  split; [exact Hres|]. split; [apply H2; exact Hres|apply H5; exact Hres].
Defined.

(** ** The bot around the pipeline *)

(** X18.  [_format_response] finds in every pipeline result the keys it
    reads.  For a ticket it cannot raise: the text names the assigned
    team, one of the five, and there are no blocks.  For an answer the
    source is a match, never [None], and its tags were joined for the
    model already, so joining them again gives a text and the only way to
    raise is the template's own [format]; when that gives a text, the
    response carries it with four blocks: the question, a divider, the
    answer, and the team and tags of the source. *)
Theorem pipeline_results_can_be_formatted (self : SlackBot) (w : World)
    (question user_id channel_id : string) (environment deadline : option string)
    (s s' : Env) (r : PipelineResult) :
  SupervisorAgent.process_inquiry w question user_id channel_id environment deadline s =
    (Ok r, s') ->
  (r_action r = "create_ticket" ->
   exists team,
     r_assigned_team r = Some team /\
     In team ["platform"; "devops"; "database"; "security"; "network"] /\
     SlackBotModel._format_response self r =
     Ok {| fr_text := "📋 Your inquiry has been received and will be routed to the **" +:+
                      team +:+ "** team.";
           fr_blocks := None |}) /\
  (r_action r = "answer_from_kb" ->
   exists answer source tags,
     r_answer r = Some (Some answer) /\ r_source r = Some (Some source) /\
     PyJson.join ", " (km_tags source) = Ok tags /\
     (forall e,
         KNOWLEDGE_BASE_FOUND_TEMPLATE (templates self) answer (km_team source) tags =
           Raise e ->
         SlackBotModel._format_response self r = Raise e) /\
     (forall text,
         KNOWLEDGE_BASE_FOUND_TEMPLATE (templates self) answer (km_team source) tags =
           Ok text ->
         SlackBotModel._format_response self r =
         Ok {| fr_text := text;
               fr_blocks :=
                 Some [ SectionBlock ("*Your Question:*" +:+ Py.nl +:+ question);
                        DividerBlock;
                        SectionBlock ("✅ *Found in Knowledge Base*" +:+ Py.nl +:+ Py.nl +:+
                                      answer);
                        ContextBlock ["*Team:* " +:+ km_team source +:+ " | *Tags:* " +:+
                                      tags] ] |})).
Proof.
  intros Hrun.
  destruct (process_inquiry_shapes _ _ _ _ _ _ _ _ _ Hrun)
    as (Hq & _ & _ & [(Ha & (answer & source & Hans & Hsrc & [tags Htags]) & _)|
                      (Ha & _ & _ & team & Hteam & Hin & _)]).
  - split; [rewrite Ha; discriminate|]. intros _.
    exists answer, source, tags. split; [exact Hans|]. split; [exact Hsrc|].
    split; [exact Htags|].
    unfold SlackBotModel._format_response. rewrite Ha, Hans, Hsrc, Hq, Htags. simpl.
    split; [intros e ->; reflexivity|intros text ->; reflexivity].
  - split; [|rewrite Ha; discriminate]. intros _.
    exists team. split; [exact Hteam|]. split; [exact Hin|].
    unfold SlackBotModel._format_response. rewrite Ha, Hteam. reflexivity.
Qed.

Lemma pipeline_results_can_be_formatted_witness :
  exists r s' team,
    SupervisorAgent.process_inquiry dead_world "our postgres is down in prod" "U1" "C1"
      None None empty_env = (Ok r, s') /\
    r_assigned_team r = Some team /\
    forall self,
      SlackBotModel._format_response self r =
      Ok {| fr_text := "📋 Your inquiry has been received and will be routed to the **" +:+
                       team +:+ "** team.";
            fr_blocks := None |}.
Proof.
  destruct (SupervisorAgent.process_inquiry dead_world "our postgres is down in prod"
              "U1" "C1" None None empty_env) as [[r|e] s'] eqn:E;
    [|exfalso; vm_compute in E; discriminate].
  assert (Ha : r_action r = "create_ticket")
    by (vm_compute in E; injection E as <- _; reflexivity).
  assert (Ht : r_assigned_team r = Some "database")
    by (vm_compute in E; injection E as <- _; reflexivity).
  exists r, s', "database". split; [reflexivity|]. split; [exact Ht|].
  intros self.
  destruct (proj1 (pipeline_results_can_be_formatted self _ _ _ _ _ _ _ _ _ E) Ha)
    as (team & Hteam & _ & Hf).
  rewrite Ht in Hteam. injection Hteam as <-. exact Hf.
Defined.

(** X19.  The three outcomes of [_save_inquiry].  When the session adds
    and commits, the table gains the rows that were pending and the row of
    this result, and nothing stays pending.  When adding or committing
    raises and the rollback works, the function returns normally, the
    table is unchanged and nothing stays pending.  When the rollback
    raises too, its exception leaves the function: the rollback is not
    guarded. *)
Theorem save_inquiry_outcomes (self : SlackBot) (result : PipelineResult) (s : BotEnv) :
  let row := SlackBotModel.inquiry_of result in
  (add_raises (db_session self) row = None ->
   commit_raises (db_session self) (pending s ++ [row]) = None ->
   exists s',
     SlackBotModel._save_inquiry self result s = (Ok tt, s') /\
     saved s' = saved s ++ pending s ++ [row] /\ pending s' = [] /\
     bot_calls s' = bot_calls s ++ [SessionAdd row; SessionCommit] /\
     pipeline s' = pipeline s) /\
  (is_Some (add_raises (db_session self) row) \/
   is_Some (commit_raises (db_session self) (pending s ++ [row])) ->
   (rollback_raises (db_session self) = None ->
    exists s',
      SlackBotModel._save_inquiry self result s = (Ok tt, s') /\
      saved s' = saved s /\ pending s' = [] /\ pipeline s' = pipeline s) /\
   (forall e,
       rollback_raises (db_session self) = Some e ->
       exists s',
         SlackBotModel._save_inquiry self result s = (Raise e, s') /\
         saved s' = saved s /\ pipeline s' = pipeline s)).
Proof.
  intros row.
  unfold SlackBotModel._save_inquiry, btry_except, bbind,
    SlackBotModel.session_add, SlackBotModel.session_commit,
    SlackBotModel.session_rollback.
  fold row. split.
  - intros Ha Hc. rewrite Ha. simpl. rewrite Hc.
    eexists. split; [reflexivity|]. simpl. rewrite <- !app_assoc. auto.
  - intros Hfail.
    destruct (add_raises (db_session self) row) as [ea|] eqn:Ea.
    + split.
      * intros ->. eexists. split; [reflexivity|]. auto.
      * intros e ->. eexists. split; [reflexivity|]. auto.
    + destruct Hfail as [[x Hx]|[ec Hc]]; [discriminate|].
      simpl. rewrite Hc. split.
      * intros ->. eexists. split; [reflexivity|]. auto.
      * intros e ->. eexists. split; [reflexivity|]. auto.
Qed.

(** [_create_ticket_and_notify] swallows every exception.  It changes
    neither the pipeline state nor the session; with a draft and a first
    tool it calls that tool on the draft, and at most one message
    follows. *)
Lemma create_ticket_and_notify_run (self : SlackBot) (result : PipelineResult)
    (channel_id thread_ts : string) (s : BotEnv) :
  exists s' ticket_calls,
    SlackBotModel._create_ticket_and_notify self result channel_id thread_ts s = (Ok tt, s') /\
    pipeline s' = pipeline s /\ pending s' = pending s /\ saved s' = saved s /\
    bot_calls s' = bot_calls s ++ ticket_calls /\
    (forall draft tool rest,
        r_ticket_details result = Some draft -> jira_tools self = tool :: rest ->
        exists more,
          ticket_calls =
            CallJiraTool (td_summary draft) (td_description draft)
                         (td_team draft) (td_priority draft) :: more /\
          (more = [] \/ exists text, more = [PostMessage channel_id text (Some thread_ts)])).
Proof.
  unfold SlackBotModel._create_ticket_and_notify, btry_except, bbind, blift, bcall, bret, index.
  destruct (r_ticket_details result) as [draft|].
  2:{ exists s, []. rewrite app_nil_r. repeat split. intros ? ? ? H. discriminate. }
  destruct (jira_tools self) as [|tool rest] eqn:Et; simpl.
  { exists s, []. rewrite app_nil_r. repeat split. intros ? ? ? _ H. discriminate. }
  set (jira_call := CallJiraTool (td_summary draft) (td_description draft)
                                 (td_team draft) (td_priority draft)).
  assert (Hone : exists s' ticket_calls,
             (Ok tt, blog jira_call s) = (Ok tt, s') /\
             pipeline s' = pipeline s /\ pending s' = pending s /\ saved s' = saved s /\
             bot_calls s' = bot_calls s ++ ticket_calls /\
             (forall draft0 tool0 rest0,
                 Some draft = Some draft0 -> tool :: rest = tool0 :: rest0 ->
                 exists more,
                   ticket_calls =
                     CallJiraTool (td_summary draft0) (td_description draft0)
                                  (td_team draft0) (td_priority draft0) :: more /\
                   (more = [] \/
                    exists text, more = [PostMessage channel_id text (Some thread_ts)]))).
  { exists (blog jira_call s), [jira_call]. repeat split.
    intros d0 t0 r0 Hd _. injection Hd as <-. exists []. auto. }
  destruct tool as [func|func]; [|exact Hone].
  destruct (SlackBotModel.parse_ticket_response _) as [[ticket_id ticket_url]|e]; [|exact Hone].
  simpl. destruct (TICKET_CREATED_TEMPLATE _ _ _ _ _ _ _) as [message|e]; [|exact Hone].
  assert (Htwo : exists s' ticket_calls,
             (Ok tt, blog (PostMessage channel_id message (Some thread_ts)) (blog jira_call s)) =
               (Ok tt, s') /\
             pipeline s' = pipeline s /\ pending s' = pending s /\ saved s' = saved s /\
             bot_calls s' = bot_calls s ++ ticket_calls /\
             (forall draft0 tool0 rest0,
                 Some draft = Some draft0 ->
                 CreateTicketTool func :: rest = tool0 :: rest0 ->
                 exists more,
                   ticket_calls =
                     CallJiraTool (td_summary draft0) (td_description draft0)
                                  (td_team draft0) (td_priority draft0) :: more /\
                   (more = [] \/
                    exists text, more = [PostMessage channel_id text (Some thread_ts)]))).
  { eexists. exists [jira_call; PostMessage channel_id message (Some thread_ts)].
    split; [reflexivity|]. simpl. rewrite <- app_assoc. repeat split.
    intros d0 t0 r0 Hd _. injection Hd as <-. eexists. split; [reflexivity|]. eauto. }
  destruct (chat_postMessage _ _ _ _); exact Htwo.
Qed.

(** X20.  [_process_inquiry_async] never raises.  If the very first
    message cannot be posted, the supervisor is not run at all: the
    pipeline state, the session and the table are as before, and the only
    calls made are attempts to post in the channel. *)
Theorem slack_outage_skips_the_pipeline (self : SlackBot) (question : string)
    (environment deadline : option string) (user_id channel_id : string)
    (thread_ts : option string) (s : BotEnv) :
  (exists s',
      SlackBotModel._process_inquiry_async self question environment deadline
        user_id channel_id thread_ts s = (Ok tt, s')) /\
  (forall e,
      chat_postMessage (client self) channel_id "🔍 Processing your inquiry..." thread_ts =
        Raise e ->
      exists s' attempts,
        SlackBotModel._process_inquiry_async self question environment deadline
          user_id channel_id thread_ts s = (Ok tt, s') /\
        pipeline s' = pipeline s /\ pending s' = pending s /\ saved s' = saved s /\
        bot_calls s' =
          bot_calls s ++ PostMessage channel_id "🔍 Processing your inquiry..." thread_ts ::
                         attempts /\
        (attempts = [] \/ exists text, attempts = [PostMessage channel_id text thread_ts])).
Proof.
  split.
  - unfold SlackBotModel._process_inquiry_async.
    unfold btry_except at 1.
    destruct (bbind _ _ s) as [[[]|e] s1]; [eauto|].
    unfold btry_except.
    destruct (bbind _ _ s1) as [[[]|e'] s2]; eauto.
  - intros e He.
    unfold SlackBotModel._process_inquiry_async, btry_except, bbind, bcall, blift, bret.
    rewrite He.
    destruct (ERROR_TEMPLATE _ _ _) as [error_msg|e1].
    + destruct (chat_postMessage (client self) channel_id error_msg thread_ts);
        eexists; exists [PostMessage channel_id error_msg thread_ts];
        (split; [reflexivity|]); simpl; rewrite <- app_assoc; repeat split; eauto.
    + eexists. exists []. split; [reflexivity|]. simpl. repeat split. auto.
Qed.

Lemma slack_outage_skips_the_pipeline_witness :
  exists s',
    SlackBotModel._process_inquiry_async (silent_bot (seeded_world (1 # 10) "") [])
      pod_question None None "U12345678" "C1" None empty_bot_env = (Ok tt, s') /\
    pipeline s' = empty_env /\ saved s' = [].
Proof.
  destruct (proj2 (slack_outage_skips_the_pipeline
                     (silent_bot (seeded_world (1 # 10) "") [])
                     pod_question None None "U12345678" "C1" None empty_bot_env)
                  (Exception "slack: not_authed") eq_refl)
    as (s' & attempts & Hrun & Hp & _ & Hs & _).
  exists s'. split; [exact Hrun|]. split; assumption.
Defined.

(** A save with a session that adds and commits. *)
Lemma save_inquiry_commits (self : SlackBot) (result : PipelineResult) (s : BotEnv) :
  add_raises (db_session self) (SlackBotModel.inquiry_of result) = None ->
  commit_raises (db_session self) (pending s ++ [SlackBotModel.inquiry_of result]) = None ->
  exists s',
    SlackBotModel._save_inquiry self result s = (Ok tt, s') /\
    saved s' = saved s ++ pending s ++ [SlackBotModel.inquiry_of result] /\
    pending s' = [] /\
    bot_calls s' = bot_calls s ++ [SessionAdd (SlackBotModel.inquiry_of result); SessionCommit] /\
    pipeline s' = pipeline s.
Proof.
  unfold SlackBotModel._save_inquiry, btry_except, bbind,
    SlackBotModel.session_add, SlackBotModel.session_commit.
  intros Ha Hc. rewrite Ha. simpl. rewrite Hc.
  eexists. split; [reflexivity|]. simpl. rewrite <- !app_assoc. auto.
Qed.

(** X21.  With Slack, the answer template and the database working, a
    run of the supervisor that returns is followed through:
    [_process_inquiry_async] posts the processing message, runs the
    supervisor once on the inquiry, replaces the message by the formatted
    result, and saves exactly one row, that of the result, after whatever
    was still pending.  The ticket tool is called exactly for a ticket
    when the bot has tools, on the draft of the result, before the row is
    saved; whatever the tracker or the ticket template do, the row is
    saved.  A run of the supervisor that raises is caught: nothing is
    saved, no ticket tool is called, and the error message is posted to
    the same channel and thread when its template gives a text. *)
Theorem processed_inquiry_is_saved_once (self : SlackBot) (question : string)
    (environment deadline : option string) (user_id channel_id : string)
    (thread_ts : option string) (s : BotEnv) :
  services_work self ->
  (forall r env',
      SupervisorAgent.process_inquiry (supervisor self) question user_id channel_id
        environment deadline (pipeline s) = (Ok r, env') ->
      exists s' ts formatted ticket_calls,
        SlackBotModel._process_inquiry_async self question environment deadline
          user_id channel_id thread_ts s = (Ok tt, s') /\
        pipeline s' = env' /\
        saved s' = saved s ++ pending s ++ [SlackBotModel.inquiry_of r] /\
        pending s' = [] /\
        SlackBotModel._format_response self r = Ok formatted /\
        bot_calls s' =
          bot_calls s ++
          [PostMessage channel_id "🔍 Processing your inquiry..." thread_ts;
           UpdateMessage channel_id ts (fr_text formatted) (fr_blocks formatted)] ++
          ticket_calls ++ [SessionAdd (SlackBotModel.inquiry_of r); SessionCommit] /\
        (r_action r = "answer_from_kb" \/ jira_tools self = [] -> ticket_calls = []) /\
        (r_action r = "create_ticket" -> jira_tools self <> [] ->
         exists draft more,
           r_ticket_details r = Some draft /\
           ticket_calls =
             CallJiraTool (td_summary draft) (td_description draft)
                          (td_team draft) (td_priority draft) :: more)) /\
  (forall e env',
      SupervisorAgent.process_inquiry (supervisor self) question user_id channel_id
        environment deadline (pipeline s) = (Raise e, env') ->
      exists s',
        SlackBotModel._process_inquiry_async self question environment deadline
          user_id channel_id thread_ts s = (Ok tt, s') /\
        pipeline s' = env' /\ saved s' = saved s /\ pending s' = pending s /\
        bot_calls s' =
          bot_calls s ++
          PostMessage channel_id "🔍 Processing your inquiry..." thread_ts ::
          match ERROR_TEMPLATE (templates self)
                  "Failed to process your inquiry. Please try again."
                  ("ERR-" +:+ PyMore.take_last 6 user_id) with
          | Ok error_msg => [PostMessage channel_id error_msg thread_ts]
          | Raise _ => []
          end).
Proof.
  intros (Hpost & Hupdate & Htpl & Hadd & Hcommit).
  destruct (Hpost channel_id "🔍 Processing your inquiry..." thread_ts) as [ts Hts].
  split.
  2:{ intros e env' Hraise.
      unfold SlackBotModel._process_inquiry_async, btry_except at 1.
      unfold bbind at 1. unfold bcall at 1. rewrite Hts.
      unfold bbind at 1. unfold in_pipeline. simpl pipeline. rewrite Hraise.
      unfold btry_except, bbind, blift, bcall, bret.
      destruct (ERROR_TEMPLATE _ _ _) as [error_msg|e1].
      - destruct (Hpost channel_id error_msg thread_ts) as [ts' ->].
        eexists. split; [reflexivity|]. simpl. rewrite <- app_assoc. auto.
      - eexists. split; [reflexivity|]. simpl. auto. }
  intros r env' Hrun.
  pose proof (pipeline_shapes := process_inquiry_shapes _ _ _ _ _ _ _ _ _ Hrun).
  assert (Hformat : exists formatted, SlackBotModel._format_response self r = Ok formatted).
  { destruct pipeline_shapes
      as (Hq & _ & _ & [(Ha & (answer & source & Hans & Hsrc & [tags Htags]) & _)|
                        (Ha & _ & _ & team & Hteam & _)]);
      unfold SlackBotModel._format_response; rewrite Ha; simpl.
    - rewrite Hans, Hsrc, Htags. simpl.
      destruct (Htpl answer (km_team source) tags) as [text ->].
      simpl. eauto.
    - rewrite Hteam. eauto. }
  destruct Hformat as [formatted Hformat].
  set (s1 := {| pipeline := env';
                bot_calls := (bot_calls s ++
                              [PostMessage channel_id "🔍 Processing your inquiry..." thread_ts]) ++
                             [UpdateMessage channel_id ts (fr_text formatted)
                                            (fr_blocks formatted)];
                pending := pending s; saved := saved s |}).
  assert (Hticket : exists s2 ticket_calls,
             (if String.eqb (r_action r) "create_ticket" && Py.truthy_list (jira_tools self)
              then SlackBotModel._create_ticket_and_notify self r channel_id ts
              else bret tt) s1 = (Ok tt, s2) /\
             pipeline s2 = env' /\ pending s2 = pending s /\ saved s2 = saved s /\
             bot_calls s2 = bot_calls s1 ++ ticket_calls /\
             (r_action r = "answer_from_kb" \/ jira_tools self = [] -> ticket_calls = []) /\
             (r_action r = "create_ticket" -> jira_tools self <> [] ->
              exists draft more,
                r_ticket_details r = Some draft /\
                ticket_calls =
                  CallJiraTool (td_summary draft) (td_description draft)
                               (td_team draft) (td_priority draft) :: more)).
  { destruct (String.eqb (r_action r) "create_ticket" && Py.truthy_list (jira_tools self))
      eqn:Eb.
    - apply andb_true_iff in Eb. destruct Eb as [Ea Et].
      apply String.eqb_eq in Ea. apply truthy_list_true in Et.
      destruct (create_ticket_and_notify_run self r channel_id ts s1)
        as (s2 & ticket_calls & Hr & Hp & Hpe & Hsa & Hc & Hhead).
      exists s2, ticket_calls. split; [exact Hr|].
      split; [exact Hp|]. split; [exact Hpe|]. split; [exact Hsa|]. split; [exact Hc|].
      split.
      + intros [H|H]; [rewrite Ea in H; discriminate|contradiction].
      + intros _ _.
        destruct pipeline_shapes as (_ & _ & _ & [(Ha & _)|(_ & _ & _ & team & _ & _ & Hd)]);
          [rewrite Ea in Ha; discriminate|].
        destruct (jira_tools self) as [|tool rest] eqn:Etools; [contradiction|].
        destruct (Hhead _ tool rest Hd eq_refl) as (more & Hmore & _).
        eexists. exists more. split; [exact Hd|exact Hmore].
    - exists s1, []. rewrite app_nil_r. repeat split.
      intros Ha Hne. apply andb_false_iff in Eb. destruct Eb as [Eb|Eb].
      + rewrite Ha in Eb. discriminate.
      + apply truthy_list_false in Eb. contradiction. }
  destruct Hticket as (s2 & ticket_calls & Hticket & Hp2 & Hpe2 & Hsa2 & Hc2 & Hnone & Hsome).
  destruct (save_inquiry_commits self r s2 (Hadd _) (Hcommit _))
    as (s3 & Hsave & Hsaved & Hpend & Hcalls & Hpipe).
  exists s3, ts, formatted, ticket_calls.
  split.
  { unfold SlackBotModel._process_inquiry_async, btry_except at 1.
    unfold bbind at 1. unfold bcall at 1. rewrite Hts.
    unfold bbind at 1. unfold in_pipeline. simpl pipeline. rewrite Hrun.
    unfold bbind at 1. unfold blift at 1. rewrite Hformat.
    unfold bbind at 1. unfold bcall at 1. rewrite Hupdate.
    unfold bbind at 1. simpl bot_calls. simpl pending. simpl saved.
    fold s1. unfold blog. simpl. fold s1. rewrite Hticket, Hsave. reflexivity. }
  split; [now rewrite Hpipe|].
  split; [now rewrite Hsaved, Hsa2, Hpe2|]. split; [exact Hpend|].
  split; [exact Hformat|].
  split; [|split; assumption].
  rewrite Hcalls, Hc2. unfold s1. simpl. now rewrite <- !app_assoc.
Qed.

Lemma working_bot_services_work (w : World) (tools : list JiraTool) :
  services_work (working_bot w tools).
Proof. repeat split; intros; simpl; eauto. Qed.

(** The pipeline is down, the bot works and has the tracker's tools: one
    open row is saved, after the ticket tool was called.  With the tags
    of the pod entry stored as [null], nothing is saved. *)
Lemma processed_inquiry_is_saved_once_witness :
  (exists s' row,
      SlackBotModel._process_inquiry_async
        (working_bot dead_world
           (JiraTools.create_jira_tools creating_http (Some "https://jira.example.com")
              (Some "bot@example.com") (Some "token") (Some "INFRA")))
        "our postgres is down in prod" None None "U12345678" "C1" None empty_bot_env =
        (Ok tt, s') /\
      saved s' = [row] /\ pending s' = []) /\
  (exists s',
      SlackBotModel._process_inquiry_async (working_bot null_tags_world [])
        pod_question None None "U12345678" "C1" None empty_bot_env = (Ok tt, s') /\
      saved s' = [] /\ pending s' = []).
Proof.
  split.
  - destruct (SupervisorAgent.process_inquiry dead_world "our postgres is down in prod"
                "U12345678" "C1" None None empty_env) as [[r|e] env'] eqn:E;
      [|exfalso; vm_compute in E; discriminate].
    destruct (proj1 (processed_inquiry_is_saved_once
                (working_bot dead_world
                   (JiraTools.create_jira_tools creating_http (Some "https://jira.example.com")
                      (Some "bot@example.com") (Some "token") (Some "INFRA")))
                "our postgres is down in prod" None None "U12345678" "C1" None empty_bot_env
                (working_bot_services_work _ _)) r env' E)
      as (s' & ts & formatted & ticket_calls & Hrun & _ & Hsaved & Hpending & _).
    exists s', (SlackBotModel.inquiry_of r). split; [exact Hrun|]. split; assumption.
  - destruct (SupervisorAgent.process_inquiry null_tags_world pod_question
                "U12345678" "C1" None None empty_env) as [[r|e] env'] eqn:E;
      [exfalso; vm_compute in E; discriminate|].
    destruct (proj2 (processed_inquiry_is_saved_once
                (working_bot null_tags_world [])
                pod_question None None "U12345678" "C1" None empty_bot_env
                (working_bot_services_work _ _)) e env' E)
      as (s' & Hrun & _ & Hsaved & Hpending & _).
    exists s'. split; [exact Hrun|]. split; assumption.
Defined.

Lemma save_inquiry_outcomes_witness :
  exists r s_pipeline s',
    SupervisorAgent.process_inquiry dead_world "our postgres is down in prod" "U1" "C1"
      None None empty_env = (Ok r, s_pipeline) /\
    SlackBotModel._save_inquiry (failing_commit_bot dead_world) r empty_bot_env = (Ok tt, s') /\
    saved s' = [] /\ pending s' = [].
Proof.
  destruct (SupervisorAgent.process_inquiry dead_world "our postgres is down in prod"
              "U1" "C1" None None empty_env) as [[r|e] s_pipeline] eqn:E;
    [|exfalso; vm_compute in E; discriminate].
  destruct (proj2 (save_inquiry_outcomes (failing_commit_bot dead_world) r empty_bot_env))
    as [Hrollback _].
  { right. simpl. eauto. }
  destruct (Hrollback eq_refl) as (s' & Hrun & Hsaved & Hpending & _).
  exists r, s_pipeline, s'. split; [reflexivity|]. split; [exact Hrun|]. split; assumption.
Defined.

Lemma draft_fits_the_tracker_witness :
  jp_summary
    (JiraTools.payload "INFRA"
       (td_summary (SupervisorAgent._generate_ticket_details
                      "our postgres is down in prod" SupervisorAgent.default_classification
                      "database" None None))
       "details" "database" "Medium") = "our postgres is down in prod".
Proof.
  exact (proj1 (proj2 (draft_fits_the_tracker "our postgres is down in prod"
                         SupervisorAgent.default_classification "database" None None
                         "INFRA"))).
Defined.
